(** * EV range predictor: feature pipeline and training orchestrator

    A shallow embedding of the browser application

    - [data-loader.js]   (class [DataLoader]: CSV ingest, validation, feature
                          engineering, train/test split),
    - [app.js]           (class [EVRangePredictor], two revisions:
                          [src/app.js] and [src/application/app.js]),

    together with the properties of the pipeline and of the training and
    prediction life cycle.

    JavaScript numbers are IEEE 754 binary64 values: they are Rocq's primitive
    [float]s.  JavaScript strings are modelled by [string], a sequence of
    code units below 256.  The ECMAScript built-ins the program calls
    ([trim], [split], [isNaN], [parseFloat], [parseInt], [Set], [sort], ...)
    are written out after ECMA-262. *)

From Stdlib Require Import ZArith List String Ascii Bool Lia Floats DecimalString.
From Stdlib Require Import Permutation Sorted.
Import ListNotations.

Local Open Scope string_scope.
Local Open Scope list_scope.

(** ** ECMAScript strings *)

Module JsString.

(** WhiteSpace and LineTerminator code units below 256 (ECMA-262, 12.2 and
    12.3): TAB, LF, VT, FF, CR, SP and NBSP. *)
Definition isWhiteSpace (c : ascii) : bool :=
  let n := nat_of_ascii c in
  (Nat.leb 9 n && Nat.leb n 13) || Nat.eqb n 32 || Nat.eqb n 160.

Fixpoint trimStart (s : string) : string :=
  match s with
  | EmptyString => EmptyString
  | String c s' => if isWhiteSpace c then trimStart s' else s
  end.

(** [trimEnd] drops the trailing white space: a white-space character is
    kept only when something that is kept follows it. *)
Fixpoint trimEnd (s : string) : string :=
  match s with
  | EmptyString => EmptyString
  | String c s' =>
      match trimEnd s' with
      | EmptyString => if isWhiteSpace c then EmptyString else String c EmptyString
      | t => String c t
      end
  end.

(** [String.prototype.trim] *)
Definition trim (s : string) : string := trimEnd (trimStart s).

(** [String.prototype.split] with a one-character separator: the pieces
    between the separators, at least one piece. *)
Fixpoint split_aux (sep : ascii) (s : string) (cur : string) : list string :=
  match s with
  | EmptyString => [cur]
  | String c s' =>
      if Ascii.eqb c sep then cur :: split_aux sep s' EmptyString
      else split_aux sep s' (cur ++ String c EmptyString)
  end.

Definition split (sep : ascii) (s : string) : list string :=
  split_aux sep s EmptyString.

(** [Array.prototype.join] on an array of strings *)
Fixpoint join (sep : string) (l : list string) : string :=
  match l with
  | [] => ""
  | [x] => x
  | x :: rest => x ++ sep ++ join sep rest
  end.

(** Comparison of strings by code units, as [<] on strings does
    (ECMA-262, IsLessThan on two strings). *)
Fixpoint ltb (a b : string) : bool :=
  match a, b with
  | EmptyString, EmptyString => false
  | EmptyString, String _ _ => true
  | String _ _, EmptyString => false
  | String x a', String y b' =>
      let nx := nat_of_ascii x in
      let ny := nat_of_ascii y in
      if Nat.ltb nx ny then true
      else if Nat.ltb ny nx then false
      else ltb a' b'
  end.

Definition leb (a b : string) : bool := negb (ltb b a).

End JsString.

(** ** ECMAScript numbers *)

Module JsNumber.

Local Open Scope Z_scope.

(** The binary64 value nearest to [(-1)^neg * m * 10^e10] (ties to even),
    through the reference implementation of IEEE 754 in [SpecFloat]: an
    integer is normalised, a proper fraction is the rounded quotient of two
    integers. *)
Definition sf_of_decimal (neg : bool) (m e10 : Z) : spec_float :=
  match m with
  | Zpos p =>
      if 0 <=? e10 then
        let z := Z.pos p * 10 ^ e10 in
        binary_normalize prec emax (if neg then - z else z) 0 neg
      else
        match 10 ^ (- e10) with
        | Zpos q => SFdiv prec emax (S754_finite neg p 0) (S754_finite false q 0)
        | _ => S754_nan
        end
  | _ => S754_zero neg
  end.

Definition float_of_decimal (neg : bool) (m e10 : Z) : float :=
  SF2Prim (sf_of_decimal neg m e10).

(** The Number value of a mathematical integer *)
Definition float_of_Z (z : Z) : float :=
  float_of_decimal (z <? 0) (Z.abs z) 0.

Definition float_of_nat (n : nat) : float := float_of_Z (Z.of_nat n).

(** *** Literals *)

Definition digitOf (radix : Z) (c : ascii) : option Z :=
  let n := Z.of_nat (nat_of_ascii c) in
  let d :=
    if (48 <=? n) && (n <=? 57) then n - 48
    else if (97 <=? n) && (n <=? 122) then n - 87
    else if (65 <=? n) && (n <=? 90) then n - 55
    else 36 in
  if d <? radix then Some d else None.

(** The longest prefix of digits of [s] in [radix]: the value read so far,
    the number of digits, and what follows them. *)
Fixpoint takeDigits (radix : Z) (s : string) (acc : Z) (count : Z)
  : Z * Z * string :=
  match s with
  | EmptyString => (acc, count, s)
  | String c s' =>
      match digitOf radix c with
      | Some d => takeDigits radix s' (acc * radix + d) (count + 1)
      | None => (acc, count, s)
      end
  end.

Definition scanSign (s : string) : bool * string :=
  match s with
  | String "-" r => (true, r)
  | String "+" r => (false, r)
  | _ => (false, s)
  end.

Fixpoint stripPrefix (p s : string) : option string :=
  match p, s with
  | EmptyString, _ => Some s
  | String a p', String b s' => if Ascii.eqb a b then stripPrefix p' s' else None
  | String _ _, EmptyString => None
  end.

(** ExponentPart: [e] or [E], an optional sign and at least one digit;
    nothing is consumed when no digit follows. *)
Definition scanExponent (s : string) : Z * string :=
  match s with
  | String c r =>
      if Ascii.eqb c "e" || Ascii.eqb c "E" then
        let '(eneg, r1) := scanSign r in
        let '(ev, en, r2) := takeDigits 10 r1 0 0 in
        if 0 <? en then ((if eneg then - ev else ev), r2) else (0, s)
      else (0, s)
  | EmptyString => (0, s)
  end.

(** The longest prefix of [s] that is a StrDecimalLiteral (ECMA-262, 7.1.4.1),
    with its Number value and the rest of [s]. *)
Definition scanStrDecimalLiteral (s : string) : option (float * string) :=
  let '(neg, s1) := scanSign s in
  match stripPrefix "Infinity" s1 with
  | Some rest => Some ((if neg then neg_infinity else infinity), rest)
  | None =>
      let '(m1, n1, s2) := takeDigits 10 s1 0 0 in
      let '(m, nfrac, s3) :=
        match s2 with
        | String "." r =>
            let '(m2, n2, r') := takeDigits 10 r m1 0 in
            if (n1 =? 0) && (n2 =? 0) then (m1, 0, s2) else (m2, n2, r')
        | _ => (m1, 0, s2)
        end in
      if (n1 =? 0) && (nfrac =? 0) then None
      else
        let '(e, s4) := scanExponent s3 in
        Some (float_of_decimal neg m (e - nfrac), s4)
  end.

(** NonDecimalIntegerLiteral: [0x], [0o] or [0b] and digits, nothing else *)
Definition scanNonDecimal (s : string) : option float :=
  match s with
  | String "0" (String c r) =>
      let radix :=
        if Ascii.eqb c "x" || Ascii.eqb c "X" then 16
        else if Ascii.eqb c "o" || Ascii.eqb c "O" then 8
        else if Ascii.eqb c "b" || Ascii.eqb c "B" then 2
        else 0 in
      if radix =? 0 then None
      else
        match takeDigits radix r 0 0 with
        | (v, n, EmptyString) => if 0 <? n then Some (float_of_Z v) else None
        | _ => None
        end
  | _ => None
  end.

(** StringToNumber (ECMA-262, 7.1.4.1.1): the empty or white-space string is
    [+0]; a string that is no StringNumericLiteral is [NaN]. *)
Definition StringToNumber (s : string) : float :=
  let t := JsString.trim s in
  match t with
  | EmptyString => zero
  | _ =>
      match scanNonDecimal t with
      | Some v => v
      | None =>
          match scanStrDecimalLiteral t with
          | Some (v, EmptyString) => v
          | _ => nan
          end
      end
  end.

(** [parseFloat] (ECMA-262, 19.2.4): the value of the longest prefix of the
    left-trimmed string that is a StrDecimalLiteral, [NaN] without one. *)
Definition parseFloat (s : string) : float :=
  match scanStrDecimalLiteral (JsString.trimStart s) with
  | Some (v, _) => v
  | None => nan
  end.

(** [parseInt] with no radix argument (ECMA-262, 19.2.5) *)
Definition parseInt (s : string) : float :=
  let '(neg, s1) := scanSign (JsString.trimStart s) in
  let '(radix, s2) :=
    match s1 with
    | String "0" (String c r) =>
        if Ascii.eqb c "x" || Ascii.eqb c "X" then (16, r) else (10, s1)
    | _ => (10, s1)
    end in
  let '(v, n, _) := takeDigits radix s2 0 0 in
  if n =? 0 then nan else float_of_decimal neg v 0.

(** *** Number::toString (ECMA-262, 6.1.6.1.20), radix 10

    For a finite non-zero [x] of absolute value [v = num/den]: the decimal
    exponent [n] with [10^(n-1) <= v < 10^n], then the least number [k] of
    digits and the integer [s] of [k] digits for which [s * 10^(n-k)] reads
    back as [v], the nearest one to [v] when two do. *)

Definition ge_pow10 (num den n : Z) : bool :=
  if 0 <=? n then den * 10 ^ n <=? num else den <=? num * 10 ^ (- n).

Fixpoint find_exp10 (fuel : nat) (num den n : Z) : Z :=
  match fuel with
  | O => n
  | S f =>
      if ge_pow10 num den n then find_exp10 f num den (n + 1)
      else if ge_pow10 num den (n - 1) then n
      else find_exp10 f num den (n - 1)
  end.

Definition scaled_floor (num den p : Z) : Z :=
  if 0 <=? p then (num * 10 ^ p) / den else num / (den * 10 ^ (- p)).

(** is [v * 10^p] nearer to [s] than to [s + 1] ([Eq]: half way) *)
Definition nearer_low (num den p s : Z) : comparison :=
  if 0 <=? p then 2 * num * 10 ^ p ?= (2 * s + 1) * den
  else 2 * num ?= (2 * s + 1) * den * 10 ^ (- p).

Fixpoint shortest_digits (fuel : nat) (x : float) (num den n k : Z) : Z * Z :=
  let lo := scaled_floor num den (k - n) in
  let hi := lo + 1 in
  let reads s := Leibniz.eqb (float_of_decimal false s (n - k)) x in
  let oklo := (10 ^ (k - 1) <=? lo) && reads lo in
  let okhi := reads hi in
  let pick s := if s =? 10 ^ k then (s / 10, n + 1) else (s, n) in
  match fuel with
  | O => pick lo
  | S f =>
      if oklo && okhi then
        match nearer_low num den (k - n) lo with
        | Lt => pick lo
        | Gt => pick hi
        | Eq => if Z.even lo then pick lo else pick hi
        end
      else if oklo then pick lo
      else if okhi then pick hi
      else shortest_digits f x num den n (k + 1)
  end.

Definition digits_of_Z (z : Z) : string :=
  NilZero.string_of_uint (N.to_uint (Z.to_N z)).

Fixpoint zeros (n : nat) : string :=
  match n with
  | O => ""
  | S n' => String "0" (zeros n')
  end.

Definition render_decimal (d : string) (n : Z) : string :=
  let k := Z.of_nat (String.length d) in
  if (k <=? n) && (n <=? 21) then (d ++ zeros (Z.to_nat (n - k)))%string
  else if (0 <? n) && (n <=? 21) then
    (substring 0 (Z.to_nat n) d ++ "." ++
     substring (Z.to_nat n) (Z.to_nat (k - n)) d)%string
  else if (-6 <? n) && (n <=? 0) then ("0." ++ zeros (Z.to_nat (- n)) ++ d)%string
  else
    let e := n - 1 in
    let sign := if e <? 0 then "-" else "+" in
    let es := (sign ++ digits_of_Z (Z.abs e))%string in
    if k =? 1 then (d ++ "e" ++ es)%string
    else (substring 0 1 d ++ "." ++ substring 1 (Z.to_nat (k - 1)) d ++ "e" ++ es)%string.

Definition NumberToString (x : float) : string :=
  match Prim2SF x with
  | S754_nan => "NaN"
  | S754_zero _ => "0"
  | S754_infinity neg => if neg then "-Infinity" else "Infinity"
  | S754_finite neg m e =>
      let num := if 0 <=? e then Z.pos m * 2 ^ e else Z.pos m in
      let den := if 0 <=? e then 1 else 2 ^ (- e) in
      let n0 := ((Z.log2 num - Z.log2 den) * 30103) / 100000 in
      let n := find_exp10 700 num den n0 in
      let '(s, n') := shortest_digits 17 (abs x) num den n 1 in
      ((if neg then "-" else "") ++ render_decimal (digits_of_Z s) n')%string
  end.

(** *** Arithmetic of the program *)

(** [Math.pow(x, 2)]: the square, one rounded multiplication *)
Definition Math_pow_2 (x : float) : float := (x * x)%float.

Definition Math_sqrt (x : float) : float := sqrt x.

(** [Math.floor] of a finite float, as an integer *)
Definition floorZ (x : float) : option Z :=
  match Prim2SF x with
  | S754_zero _ => Some 0
  | S754_finite neg m e =>
      let z := if neg then Z.neg m else Z.pos m in
      Some (if 0 <=? e then z * 2 ^ e else z / 2 ^ (- e))
  | _ => None
  end.

(** [Math.round]: the integer nearest to [x], the greater one half way
    between two *)
Definition Math_round (x : float) : float :=
  match Prim2SF x with
  | S754_finite neg m e =>
      if 0 <=? e then x
      else
        let z := if neg then Z.neg m else Z.pos m in
        let r := (2 * z + 2 ^ (- e)) / 2 ^ (1 - e) in
        if r =? 0 then (if neg then neg_zero else zero) else float_of_Z r
  | _ => x
  end.

(** The positive integer [P] rounded to 53 significant bits, ties to even:
    binary64 rounding of a value that is neither subnormal nor too large. *)
Definition round53 (P : Z) : Z :=
  let s := Z.log2 P - 52 in
  if s <=? 0 then P
  else
    let q := P / 2 ^ s in
    let r := P mod 2 ^ s in
    let h := 2 ^ (s - 1) in
    if (h <? r) || ((r =? h) && Z.odd q) then (q + 1) * 2 ^ s else q * 2 ^ s.

(** The literal [0.8] is the binary64 number [mant_0_8 / 2^52]. *)
Definition mant_0_8 : Z := 3602879701896397.

(** [Math.floor(n * 0.8)] for an array length [n]: [n] is a binary64
    number, the product [n * mant_0_8 / 2^52] is rounded to 53 bits, and
    the floor is taken. *)
Definition floor_mul_0_8 (n : Z) : Z :=
  round53 (n * mant_0_8) / 2 ^ 52.

End JsNumber.

(** ** ECMAScript values *)

Module JsValue.

(** The values the program handles: cells of the table are numbers or
    strings, a property that is absent reads as [undefined]. *)
Inductive jsval : Type :=
| JUndefined
| JNull
| JNum (x : float)
| JStr (s : string).

Definition ToNumber (v : jsval) : float :=
  match v with
  | JUndefined => nan
  | JNull => zero
  | JNum x => x
  | JStr s => JsNumber.StringToNumber s
  end.

Definition ToString (v : jsval) : string :=
  match v with
  | JUndefined => "undefined"
  | JNull => "null"
  | JNum x => JsNumber.NumberToString x
  | JStr s => s
  end.

(** the global [isNaN] *)
Definition isNaN (v : jsval) : bool := is_nan (ToNumber v).

Definition isNumber (v : jsval) : bool :=
  match v with
  | JNum _ => true
  | _ => false
  end.

(** [===] *)
Definition strictEquals (a b : jsval) : bool :=
  match a, b with
  | JUndefined, JUndefined => true
  | JNull, JNull => true
  | JNum x, JNum y => PrimFloat.eqb x y
  | JStr s, JStr t => String.eqb s t
  | _, _ => false
  end.

(** SameValueZero, the equality of [Set] *)
Definition sameValueZero (a b : jsval) : bool :=
  match a, b with
  | JNum x, JNum y => PrimFloat.eqb x y || (is_nan x && is_nan y)
  | _, _ => strictEquals a b
  end.

(** [a + b]: concatenation when an operand is a string, addition of the
    numbers otherwise *)
Definition add (a b : jsval) : jsval :=
  match a, b with
  | JStr _, _ | _, JStr _ => JStr (ToString a ++ ToString b)
  | _, _ => JNum (ToNumber a + ToNumber b)
  end.

(** *** [Set] *)

(** [Set.prototype.add] keeps the first of the values that are the same,
    and stores [-0] as [+0]. *)
Definition canonical (v : jsval) : jsval :=
  match v with
  | JNum x => if is_zero x then JNum zero else v
  | _ => v
  end.

Definition setAdd (s : list jsval) (v : jsval) : list jsval :=
  if existsb (sameValueZero v) s then s else s ++ [canonical v].

(** [[...new Set(values)]]: the distinct values in order of first
    occurrence *)
Definition setOf (values : list jsval) : list jsval :=
  fold_left setAdd values [].

(** *** [Array.prototype.sort] with no comparator

    SortCompare (ECMA-262, 23.1.3.30.2): [undefined] goes last, every other
    pair is ordered by the code units of the string forms.  The sort is
    stable. *)
Definition sortBefore (x y : jsval) : bool :=
  match x, y with
  | JUndefined, _ => false
  | _, JUndefined => true
  | _, _ => JsString.ltb (ToString x) (ToString y)
  end.

Fixpoint sortInsert (x : jsval) (l : list jsval) : list jsval :=
  match l with
  | [] => [x]
  | y :: l' => if sortBefore y x then y :: sortInsert x l' else x :: l
  end.

Definition sort (l : list jsval) : list jsval :=
  fold_right sortInsert [] l.

(** *** Objects used as dictionaries: properties in order of creation *)

Definition Dict (V : Type) : Type := list (string * V).

Fixpoint dictGet {V : Type} (d : Dict V) (k : string) : option V :=
  match d with
  | [] => None
  | (k', v) :: d' => if String.eqb k' k then Some v else dictGet d' k
  end.

Fixpoint dictSet {V : Type} (d : Dict V) (k : string) (v : V) : Dict V :=
  match d with
  | [] => [(k, v)]
  | (k', v') :: d' =>
      if String.eqb k' k then (k', v) :: d' else (k', v') :: dictSet d' k v
  end.

(** [k in d] *)
Definition dictHas {V : Type} (d : Dict V) (k : string) : bool :=
  match dictGet d k with
  | Some _ => true
  | None => false
  end.

Definition Obj : Type := Dict jsval.

(** [row[k]] *)
Definition get (row : Obj) (k : string) : jsval :=
  match dictGet row k with
  | Some v => v
  | None => JUndefined
  end.

(** *** Exceptions *)

Inductive exn : Type :=
| Error (message : string)
| TypeError (message : string).

Definition message (e : exn) : string :=
  match e with
  | Error m => m
  | TypeError m => m
  end.

Inductive result (A : Type) : Type :=
| Ok (a : A)
| Throw (e : exn).

Arguments Ok {A} a.
Arguments Throw {A} e.

Definition bind {A B : Type} (r : result A) (f : A -> result B) : result B :=
  match r with
  | Ok a => f a
  | Throw e => Throw e
  end.

(** [try { r } catch (error) { throw new Error(prefix + error.message) }] *)
Definition rethrow {A : Type} (prefix : string) (r : result A) : result A :=
  match r with
  | Ok a => Ok a
  | Throw e => Throw (Error (prefix ++ message e))
  end.

Fixpoint mapM {A B : Type} (f : A -> result B) (l : list A) : result (list B) :=
  match l with
  | [] => Ok []
  | a :: l' =>
      bind (f a) (fun b => bind (mapM f l') (fun bs => Ok (b :: bs)))
  end.

End JsValue.

(** ** [data-loader.js]: class [DataLoader] *)

Module DataLoader.

Import JsValue.

Record Stats : Type := mkStats { mean : float; std : float }.

Record Samples : Type := mkSamples {
  features : list (list float);
  targets : list jsval
}.

Record ProcessedData : Type := mkProcessedData {
  train : Samples;
  test : Samples;
  inputShape : nat;
  featureNames : list string * list string
}.

(** The fields of a [DataLoader]; [None] is [null]. *)
Record t : Type := mkDataLoader {
  rawData : option (list Obj);
  processedData : option ProcessedData;
  featureStats : option (Dict Stats);
  categoricalMappings : option (Dict (list jsval))
}.

(** [constructor()] *)
Definition new : t := mkDataLoader None None None None.

(** *** [parseCSV] *)

(** [isNaN(value) ? value : parseFloat(value)] on a trimmed cell *)
Definition coerceCell (value : string) : jsval :=
  if isNaN (JStr value) then JStr value else JNum (JsNumber.parseFloat value).

(** [headers.forEach((header, index) => row[header] = ...)], [row] being
    an object literal: [__proto__] names no property of its own but the
    setter of [Object.prototype], which ignores a number and a string, so
    that a column of that name leaves no cell *)
Definition buildRow (headers values : list string) : Obj :=
  fold_left (fun row hv =>
               if String.eqb (fst hv) "__proto__" then row
               else dictSet row (fst hv) (coerceCell (snd hv)))
            (combine headers values) [].

Definition parseLine (headers : list string) (line : string) : option Obj :=
  let values := map JsString.trim (JsString.split "," line) in
  if Nat.eqb (List.length values) (List.length headers) then Some (buildRow headers values)
  else None.

Fixpoint parseLines (headers : list string) (lines : list string) : list Obj :=
  match lines with
  | [] => []
  | line :: rest =>
      match parseLine headers line with
      | Some row => row :: parseLines headers rest
      | None => parseLines headers rest
      end
  end.

Definition LF : ascii := ascii_of_nat 10.

Definition parseCSV (csvText : string) : result (list Obj) :=
  rethrow "CSV parsing failed: "
    (let lines := JsString.split LF (JsString.trim csvText) in
     if Nat.ltb (List.length lines) 2 then
       Throw (Error "CSV file must contain header and at least one data row")
     else
       let headers := map JsString.trim (JsString.split "," (hd "" lines)) in
       Ok (parseLines headers (tl lines))).

(** *** [loadCSV]: what [fetch] answers is an input *)

Inductive fetched : Type :=
| FetchRejected (message : string)
| FetchNotOk (statusText : string)
| FetchOk (csvText : string).

Definition loadCSV (filePath : string) (response : fetched) (this : t)
  : result unit * t :=
  match response with
  | FetchRejected m => (Throw (Error ("CSV loading failed: " ++ m)), this)
  | FetchNotOk st =>
      (Throw (Error ("CSV loading failed: Failed to load  " ++ st)), this)
  | FetchOk csvText =>
      match parseCSV csvText with
      | Throw e => (Throw (Error ("CSV loading failed: " ++ message e)), this)
      | Ok data =>
          let this' := mkDataLoader (Some data) (processedData this)
                         (featureStats this) (categoricalMappings this) in
          if Nat.eqb (List.length data) 0 then
            (Throw (Error "CSV loading failed: No data found in CSV file"), this')
          else (Ok tt, this')
      end
  end.

(** *** [shuffleIndices]

    [Math.random()] lies in [0, 1), so [Math.floor(Math.random() * (i + 1))]
    is an index between [0] and [i]; the random source is the sequence
    [rng] of naturals, the [k]-th draw being reduced modulo [i + 1]. *)

Fixpoint setNth (l : list nat) (i : nat) (v : nat) : list nat :=
  match l, i with
  | [], _ => []
  | _ :: l', O => v :: l'
  | x :: l', S i' => x :: setNth l' i' v
  end.

(** [[indices[i], indices[j]] = [indices[j], indices[i]]] *)
Definition swap (indices : list nat) (i j : nat) : list nat :=
  let a := nth i indices 0 in
  let b := nth j indices 0 in
  setNth (setNth indices i b) j a.

(** the loop [for (let i = indices.length - 1; i > 0; i--)], entered at [i]
    after [k] draws *)
Fixpoint shuffleLoop (rng : nat -> nat) (k : nat) (i : nat) (indices : list nat)
  : list nat :=
  match i with
  | O => indices
  | S i' =>
      let j := Nat.modulo (rng k) (i + 1) in
      shuffleLoop rng (S k) i' (swap indices i j)
  end.

Definition shuffleIndices (rng : nat -> nat) (length : nat) : list nat :=
  let indices := seq 0 length in
  shuffleLoop rng 0 (length - 1) indices.

(** *** [transformFeatures] *)

Definition normalize (this : t) (row : Obj) (feature : string) : result float :=
  let value := get row feature in
  match featureStats this with
  | None => Throw (TypeError "this.featureStats is null")
  | Some stats =>
      match dictGet stats feature with
      | None => Throw (TypeError "this.featureStats[feature] is undefined")
      | Some st => Ok ((ToNumber value - mean st) / std st)%float
      end
  end.

Definition oneHot (this : t) (row : Obj) (feature : string)
  : result (list float) :=
  let value := get row feature in
  match categoricalMappings this with
  | None => Throw (TypeError "this.categoricalMappings is null")
  | Some mappings =>
      match dictGet mappings feature with
      | None => Throw (TypeError "categories is undefined")
      | Some categories =>
          Ok (map (fun category =>
                     if strictEquals value category then one else zero)
                  categories)
      end
  end.

Definition transformFeatures (this : t) (row : Obj)
  (numericalFeatures categoricalFeatures : list string) : result (list float) :=
  bind (mapM (normalize this row) numericalFeatures) (fun numbers =>
  bind (mapM (oneHot this row) categoricalFeatures) (fun blocks =>
  Ok (numbers ++ List.concat blocks))).

Definition numericalFeatures : list string :=
  ["top_speed_kmh"; "battery_capacity_kWh"; "torque_nm";
   "acceleration_0_100_s"; "fast_charging_power_kw_dc"; "seats";
   "length_mm"; "width_mm"; "height_mm"].

Definition categoricalFeatures : list string :=
  ["fast_charge_port"; "drivetrain"].

Definition targetColumn : string := "range_km".

(** *** [transformUserInput] *)

Definition transformUserInput (this : t) (userInput : Obj)
  : result (list float) :=
  match featureStats this, categoricalMappings this with
  | Some _, Some _ =>
      rethrow "User input transformation failed: "
        (transformFeatures this userInput numericalFeatures categoricalFeatures)
  | _, _ => Throw (Error "Model not trained. Cannot transform user input.")
  end.

(** *** [preprocessData] *)

Definition requiredColumns : list string :=
  numericalFeatures ++ categoricalFeatures ++ [targetColumn].

(** the columns [col] with [!(col in sampleRow)] *)
Definition missingColumns (sampleRow : Obj) : list string :=
  filter (fun col => negb (dictHas sampleRow col)) requiredColumns.

(** [v !== undefined && v !== null] *)
Definition present (v : jsval) : bool :=
  match v with
  | JUndefined | JNull => false
  | _ => true
  end.

Definition hasAllFeatures (row : Obj) : bool :=
  forallb (fun f => present (get row f) && negb (isNaN (get row f)))
          numericalFeatures
  && forallb (fun f => present (get row f)) categoricalFeatures.

(** the rows that [this.rawData.forEach] pushes to [features] *)
Definition keepRow (row : Obj) : bool :=
  if negb (present (get row targetColumn)) then false else hasAllFeatures row.

Definition column (rows : list Obj) (feature : string) : list jsval :=
  map (fun f => get f feature) rows.

(** [[...new Set(features.map(f => f[feature]))].sort()] *)
Definition uniqueValues (rows : list Obj) (feature : string) : list jsval :=
  sort (setOf (column rows feature)).

(** the loop [categoricalFeatures.forEach] over the features [fs] still to
    visit, [mappings] being [this.categoricalMappings] *)
Fixpoint fitVocabulary (rows : list Obj) (fs : list string)
  (mappings : Dict (list jsval)) : result unit * Dict (list jsval) :=
  match fs with
  | [] => (Ok tt, mappings)
  | feature :: rest =>
      let u := uniqueValues rows feature in
      if Nat.eqb (List.length u) 0 then
        (Throw (Error ("No unique values found for categorical feature: "
                       ++ feature)), mappings)
      else fitVocabulary rows rest (dictSet mappings feature u)
  end.

(** the body of [numericalFeatures.forEach] *)
Definition fitStats (rows : list Obj) (feature : string) : Stats :=
  let values := column rows feature in
  let n := JsNumber.float_of_nat (List.length values) in
  let mean := (ToNumber (fold_left add values (JNum zero)) / n)%float in
  let variance :=
    (fold_left (fun a b => a + JsNumber.Math_pow_2 (ToNumber b - mean))
               values zero / n)%float in
  let std := JsNumber.Math_sqrt variance in
  mkStats mean (if PrimFloat.eqb std zero then one else std).

Definition fitStatistics (rows : list Obj) : Dict Stats :=
  fold_left (fun stats feature => dictSet stats feature (fitStats rows feature))
            numericalFeatures [].

(** [Math.floor(features.length * 0.8)] *)
Definition splitIndex (n : nat) : nat :=
  Z.to_nat (JsNumber.floor_mul_0_8 (Z.of_nat n)).

Definition withMappings (this : t) (m : Dict (list jsval)) : t :=
  mkDataLoader (rawData this) (processedData this) (featureStats this) (Some m).

Definition withStats (this : t) (s : Dict Stats) : t :=
  mkDataLoader (rawData this) (processedData this) (Some s)
               (categoricalMappings this).

Definition withProcessed (this : t) (p : ProcessedData) : t :=
  mkDataLoader (rawData this) (Some p) (featureStats this)
               (categoricalMappings this).

(** [indices.map(i => array[i])]; the indices of a shuffle are in range, so
    the default is not read *)
Definition pick {A : Type} (array : list A) (default : A) (indices : list nat)
  : list A :=
  map (fun i => nth i array default) indices.

(** the [try] block of [preprocessData] on the non-empty [data] *)
Definition preprocessTry (rng : nat -> nat) (this : t) (data : list Obj)
  : result ProcessedData * t :=
  let sampleRow := hd [] data in
  let missing := missingColumns sampleRow in
  if Nat.ltb 0 (List.length missing) then
    (Throw (Error ("Missing required columns: " ++ JsString.join ", " missing)),
     this)
  else
    let rows := filter keepRow data in
    let targets := column rows targetColumn in
    if Nat.eqb (List.length rows) 0 then
      (Throw (Error "No valid samples found after filtering missing values"),
       this)
    else
      let '(r, mappings) := fitVocabulary rows categoricalFeatures [] in
      let this1 := withMappings this mappings in
      match r with
      | Throw e => (Throw e, this1)
      | Ok _ =>
          let this2 := withStats this1 (fitStatistics rows) in
          match mapM (fun row => transformFeatures this2 row
                                   numericalFeatures categoricalFeatures) rows with
          | Throw e => (Throw e, this2)
          | Ok transformedFeatures =>
              let shape := List.length (hd [] transformedFeatures) in
              let invalidShapes :=
                filter (fun f => negb (Nat.eqb (List.length f) shape))
                       transformedFeatures in
              if Nat.ltb 0 (List.length invalidShapes) then
                (Throw (Error
                   "Feature transformation resulted in inconsistent shapes"),
                 this2)
              else
                let n := List.length rows in
                let k := splitIndex n in
                if Nat.ltb k 1 || Nat.ltb (n - k) 1 then
                  (Throw (Error
                     "Dataset too small for train/test split. Need at least 5 samples."),
                   this2)
                else
                  let shuffledIndices := shuffleIndices rng n in
                  let trainIndices := firstn k shuffledIndices in
                  let testIndices := skipn k shuffledIndices in
                  let trainFeatures := pick transformedFeatures [] trainIndices in
                  let trainTargets := pick targets JUndefined trainIndices in
                  let testFeatures := pick transformedFeatures [] testIndices in
                  let testTargets := pick targets JUndefined testIndices in
                  let data' :=
                    mkProcessedData
                      (mkSamples trainFeatures trainTargets)
                      (mkSamples testFeatures testTargets)
                      (List.length (hd [] trainFeatures))
                      (numericalFeatures, categoricalFeatures) in
                  (Ok data', withProcessed this2 data')
          end
      end.

Definition preprocessData (rng : nat -> nat) (this : t)
  : result ProcessedData * t :=
  match rawData this with
  | None => (Throw (Error "No data loaded. Call loadCSV first."), this)
  | Some data =>
      if Nat.eqb (List.length data) 0 then
        (Throw (Error "No data loaded. Call loadCSV first."), this)
      else
        let '(r, this') := preprocessTry rng this data in
        (rethrow "Data preprocessing failed: " r, this')
  end.

(** [getData] *)
Definition getData (this : t) : result ProcessedData :=
  match processedData this with
  | None => Throw (Error "Data not preprocessed. Call preprocessData first.")
  | Some p => Ok p
  end.

End DataLoader.

(** ** The host: TensorFlow.js, the page and the console *)

Module Host.

Import JsValue.

(** A tensor of the numerical library: its handle and its first dimension. *)
Record Tensor : Type := mkTensor { tid : nat; rows : nat }.

(** What [onEpochEnd] receives. *)
Module Logs.
Record t : Type := mk { loss : jsval; val_loss : jsval; mae : jsval }.
End Logs.

(** What the library does during one call of [trainModel] or [predict]:
    which of its calls throw (with which message), and the numbers it
    reports.  [None] is a call that returns. *)
Record Behaviour : Type := mkBehaviour {
  tensor2dThrows : nat -> option string;  (* the k-th [tf.tensor2d] *)
  fitThrows : nat -> option string;       (* the training step of an epoch *)
  epochLogs : nat -> option Logs.t;       (* [logs] of [onEpochEnd]; [None]: undefined *)
  evaluateThrows : option string;         (* [model.evaluate] *)
  dataThrows : nat -> option string;      (* the k-th [tensor.data()] *)
  predictThrows : option string;          (* [model.predict] *)
  predicted : float                       (* the value of the forward pass *)
}.

(** What the program does to the page, the console and the libraries, in
    order. *)
Inductive event : Type :=
| ConsoleLog
| ConsoleWarn
| ConsoleError (message : string)
| Alert (message : string)
| UiProgress (epoch : nat)
| UiMetric (element : string)
| UiChart
| UiRange (rangeKm : float)
| TfTensor2d (id : nat)
| TfFitEpoch (epoch : nat)
| TfEvaluate
| TfPredict (input : nat)
| TfData (id : nat)
| TfDispose (ids : list nat)
| TfNextFrame
| TransformUserInput.

End Host.

(** ** [app.js]: class [EVRangePredictor] *)

Module App.

Import JsValue Host.

Module History.
Record t : Type := mk { loss : list jsval; valLoss : list jsval; mae : list jsval }.
Definition empty : t := mk [] [] [].
End History.

(** The fields of an [EVRangePredictor] and the state of its host:
    [live] are the handles of the tensors that are allocated and not
    disposed, [log] the events so far (the latest last), [dom] the values of
    the input elements of the form by element id. *)
Record t : Type := mkApp {
  model : bool;
  dataLoader : DataLoader.t;
  isTraining : bool;
  isModelReady : bool;
  trainingHistory : History.t;
  live : list nat;
  nextTensor : nat;
  log : list event;
  dom : Dict string
}.

(** *** Computations on a state that may throw *)

Definition M (S A : Type) : Type := S -> result A * S.

Definition ret {S A : Type} (a : A) : M S A := fun s => (Ok a, s).

Definition throw {S A : Type} (e : exn) : M S A := fun s => (Throw e, s).

Definition bindM {S A B : Type} (c : M S A) (k : A -> M S B) : M S B :=
  fun s =>
    match c s with
    | (Ok a, s') => k a s'
    | (Throw e, s') => (Throw e, s')
    end.

Notation "x <- c ;; k" := (bindM c (fun x => k))
  (at level 61, c at next level, right associativity).
Notation "c ;;; k" := (bindM c (fun _ => k))
  (at level 61, right associativity).

(** [try { c } catch (error) { h error }] *)
Definition tryCatch {S A : Type} (c : M S A) (h : exn -> M S A) : M S A :=
  fun s =>
    match c s with
    | (Ok a, s') => (Ok a, s')
    | (Throw e, s') => h e s'
    end.

Definition lift {S A : Type} (r : result A) : M S A := fun s => (r, s).

Definition read {S A : Type} (f : S -> A) : M S A := fun s => (Ok (f s), s).

Definition optThrow {S : Type} (o : option string) : M S unit :=
  match o with
  | Some m => throw (Error m)
  | None => ret tt
  end.

Definition emit (e : event) : M t unit :=
  fun s => (Ok tt, mkApp (model s) (dataLoader s) (isTraining s) (isModelReady s)
                         (trainingHistory s) (live s) (nextTensor s)
                         (log s ++ [e]) (dom s)).

Definition setIsTraining (b : bool) : M t unit :=
  fun s => (Ok tt, mkApp (model s) (dataLoader s) b (isModelReady s)
                         (trainingHistory s) (live s) (nextTensor s) (log s)
                         (dom s)).

Definition setTrainingHistory (h : History.t) : M t unit :=
  fun s => (Ok tt, mkApp (model s) (dataLoader s) (isTraining s) (isModelReady s)
                         h (live s) (nextTensor s) (log s) (dom s)).

Definition setLive (l : list nat) (next : nat) : M t unit :=
  fun s => (Ok tt, mkApp (model s) (dataLoader s) (isTraining s) (isModelReady s)
                         (trainingHistory s) l next (log s) (dom s)).

(** *** The calls into TensorFlow.js *)

(** a new tensor with [n] rows *)
Definition allocate (n : nat) : M t Tensor :=
  id <- read nextTensor ;;
  l <- read live ;;
  setLive (l ++ [id]) (S id) ;;;
  ret (mkTensor id n).

(** the [k]-th [tf.tensor2d(values)] of the call *)
Definition tensor2d (beh : Behaviour) (k : nat) (n : nat) : M t Tensor :=
  optThrow (tensor2dThrows beh k) ;;;
  x <- allocate n ;;
  emit (TfTensor2d (tid x)) ;;;
  ret x.

(** [tf.dispose(tensors)] and [tensor.dispose()] *)
Definition dispose (ts : list Tensor) : M t unit :=
  let ids := map tid ts in
  l <- read live ;;
  next <- read nextTensor ;;
  setLive (filter (fun i => negb (existsb (Nat.eqb i) ids)) l) next ;;;
  emit (TfDispose ids).

(** [await tensor.data()], the [k]-th of the call *)
Definition data (beh : Behaviour) (k : nat) (x : Tensor) : M t unit :=
  optThrow (dataThrows beh k) ;;;
  emit (TfData (tid x)).

(** [model.evaluate(testX, testY)]: the loss and the metric, two scalars *)
Definition evaluate (beh : Behaviour) : M t (Tensor * Tensor) :=
  optThrow (evaluateThrows beh) ;;;
  emit TfEvaluate ;;;
  a <- allocate 1 ;;
  b <- allocate 1 ;;
  ret (a, b).

(** [model.fit]: for every epoch the training step, then
    [await onEpochEnd(epoch, logs)]; [epoch] is the next epoch and
    [remaining] the number of epochs still to run. *)
Fixpoint fitLoop (beh : Behaviour)
  (onEpochEnd : nat -> option Logs.t -> M t unit)
  (epoch : nat) (remaining : nat) : M t unit :=
  match remaining with
  | O => ret tt
  | S r =>
      optThrow (fitThrows beh epoch) ;;;
      emit (TfFitEpoch epoch) ;;;
      onEpochEnd epoch (epochLogs beh epoch) ;;;
      fitLoop beh onEpochEnd (S epoch) r
  end.

Definition fit (beh : Behaviour) (epochs : nat)
  (onEpochEnd : nat -> option Logs.t -> M t unit) : M t unit :=
  fitLoop beh onEpochEnd 0 epochs.

(** [tf.tidy(() => { const inputTensor = tf.tensor2d([transformedInput]);
    return this.model.predict(inputTensor); })]: the input tensor is
    disposed when the scope ends, however it ends. *)
Definition tidyPredict (beh : Behaviour) : M t Tensor :=
  inputTensor <- tensor2d beh 0 1 ;;
  tryCatch
    (optThrow (predictThrows beh) ;;;
     emit (TfPredict (tid inputTensor)) ;;;
     predictionTensor <- allocate 1 ;;
     dispose [inputTensor] ;;;
     ret predictionTensor)
    (fun error => dispose [inputTensor] ;;; throw error).

(** *** What the two revisions of [onEpochEnd] share *)

(** [this.trainingHistory.loss.push(logs.loss)] and the two other pushes *)
Definition pushHistory (l : Logs.t) : M t unit :=
  h <- read trainingHistory ;;
  setTrainingHistory
    (History.mk (History.loss h ++ [Logs.loss l])
                (History.valLoss h ++ [Logs.val_loss l])
                (History.mae h ++ [Logs.mae l])).

(** [element.textContent = v.toFixed(2)]: [toFixed] is a method of numbers *)
Definition showFixed (element : string) (v : jsval) : M t unit :=
  match v with
  | JNum _ => emit (UiMetric element)
  | JUndefined =>
      throw (TypeError "Cannot read properties of undefined (reading 'toFixed')")
  | JNull =>
      throw (TypeError "Cannot read properties of null (reading 'toFixed')")
  | JStr _ => throw (TypeError "toFixed is not a function")
  end.

(** the update of the page in [onEpochEnd], from the progress bar to
    [await tf.nextFrame()] *)
Definition updateProgress (totalEpochs epoch : nat) (l : Logs.t) : M t unit :=
  emit (UiProgress (epoch + 1)) ;;;
  showFixed "lossValue" (Logs.loss l) ;;;
  showFixed "valLossValue" (Logs.val_loss l) ;;;
  showFixed "maeValue" (Logs.mae l) ;;;
  (if Nat.eqb (Nat.modulo (epoch + 1) 5) 0 || Nat.eqb epoch (totalEpochs - 1)
   then emit UiChart else ret tt) ;;;
  emit TfNextFrame.

(** the evaluation on the test set and the release of the tensors, the
    same statements in both revisions *)
Definition evaluateAndDispose (beh : Behaviour) (trainX trainY testX testY : Tensor)
  : M t unit :=
  evalResult <- evaluate beh ;;
  data beh 0 (fst evalResult) ;;;
  data beh 1 (snd evalResult) ;;;
  emit ConsoleLog ;;;
  dispose [trainX; trainY; testX; testY; fst evalResult; snd evalResult] ;;;
  setIsTraining false.

(** *** [src/app.js] *)

Module Root.

Definition totalEpochs : nat := 200.

Definition onEpochEnd (epoch : nat) (logs : option Logs.t) : M t unit :=
  match logs with
  | None =>
      throw (TypeError "Cannot read properties of undefined (reading 'loss')")
  | Some l => pushHistory l ;;; updateProgress totalEpochs epoch l
  end.

Definition trainModel (beh : Behaviour) (d : DataLoader.ProcessedData)
  : M t unit :=
  m <- read model ;;
  if negb m then throw (Error "Model not built")
  else
    setIsTraining true ;;;
    setTrainingHistory History.empty ;;;
    tryCatch
      (let train := DataLoader.train d in
       let test := DataLoader.test d in
       trainX <- tensor2d beh 0 (List.length (DataLoader.features train)) ;;
       trainY <- tensor2d beh 1 (List.length (DataLoader.targets train)) ;;
       testX <- tensor2d beh 2 (List.length (DataLoader.features test)) ;;
       testY <- tensor2d beh 3 (List.length (DataLoader.targets test)) ;;
       fit beh totalEpochs onEpochEnd ;;;
       evaluateAndDispose beh trainX trainY testX testY)
      (fun error =>
         emit (ConsoleError (message error)) ;;;
         setIsTraining false ;;;
         throw error).

End Root.

(** *** [src/application/app.js] *)

Module Application.

Definition totalEpochs : nat := 100.

Definition isUndefined (v : jsval) : bool :=
  match v with
  | JUndefined => true
  | _ => false
  end.

Definition onEpochEnd (epoch : nat) (logs : option Logs.t) : M t unit :=
  match logs with
  | None => emit ConsoleWarn
  | Some l =>
      if isUndefined (Logs.loss l) || isUndefined (Logs.val_loss l) then
        emit ConsoleWarn
      else pushHistory l ;;; updateProgress totalEpochs epoch l
  end.

(** [let trainX, trainY, testX, testY;] declared before the [try]: the
    handler reads them. *)
Record Locals : Type := mkLocals {
  trainX : option Tensor;
  trainY : option Tensor;
  testX : option Tensor;
  testY : option Tensor
}.

Definition noLocals : Locals := mkLocals None None None None.

Definition inApp {A : Type} (c : M t A) : M (Locals * t) A :=
  fun s =>
    match c (snd s) with
    | (r, s') => (r, (fst s, s'))
    end.

Definition assign (f : Locals -> Locals) : M (Locals * t) unit :=
  fun s => (Ok tt, (f (fst s), snd s)).

(** the value of a local that is read as a tensor *)
Definition local (f : Locals -> option Tensor) : M (Locals * t) Tensor :=
  v <- read (fun s => f (fst s)) ;;
  match v with
  | Some x => ret x
  | None => throw (TypeError "Cannot read properties of undefined")
  end.

(** [if (x) tf.dispose(x);] *)
Definition disposeIf (f : Locals -> option Tensor) : M (Locals * t) unit :=
  v <- read (fun s => f (fst s)) ;;
  match v with
  | Some x => inApp (dispose [x])
  | None => ret tt
  end.

Definition withLocals {A : Type} (c : M (Locals * t) A) : M t A :=
  fun s =>
    match c (noLocals, s) with
    | (r, s') => (r, snd s')
    end.

Definition digits (n : nat) : string := JsNumber.digits_of_Z (Z.of_nat n).

Definition trainModel (beh : Behaviour) (d : DataLoader.ProcessedData)
  : M t unit :=
  m <- read model ;;
  if negb m then throw (Error "Model not built")
  else
    setIsTraining true ;;;
    setTrainingHistory History.empty ;;;
    withLocals
      (tryCatch
         (let train := DataLoader.train d in
          let test := DataLoader.test d in
          (if Nat.eqb (List.length (DataLoader.features train)) 0
              || Nat.eqb (List.length (DataLoader.targets train)) 0
           then throw (Error "Invalid training  empty features or targets")
           else ret tt) ;;;
          (if Nat.eqb (List.length (DataLoader.features test)) 0
              || Nat.eqb (List.length (DataLoader.targets test)) 0
           then throw (Error "Invalid test  empty features or targets")
           else ret tt) ;;;
          tryCatch
            (x <- inApp (tensor2d beh 0 (List.length (DataLoader.features train))) ;;
             assign (fun l => mkLocals (Some x) (trainY l) (testX l) (testY l)) ;;;
             x <- inApp (tensor2d beh 1 (List.length (DataLoader.targets train))) ;;
             assign (fun l => mkLocals (trainX l) (Some x) (testX l) (testY l)) ;;;
             x <- inApp (tensor2d beh 2 (List.length (DataLoader.features test))) ;;
             assign (fun l => mkLocals (trainX l) (trainY l) (Some x) (testY l)) ;;;
             x <- inApp (tensor2d beh 3 (List.length (DataLoader.targets test))) ;;
             assign (fun l => mkLocals (trainX l) (trainY l) (testX l) (Some x)))
            (fun error =>
               throw (Error ("Tensor conversion failed: " ++ message error))) ;;;
          tX <- local trainX ;;
          tY <- local trainY ;;
          (if negb (Nat.eqb (rows tX) (rows tY)) then
             throw (Error ("Training shape mismatch: features=" ++ digits (rows tX)
                           ++ ", targets=" ++ digits (rows tY)))
           else ret tt) ;;;
          sX <- local testX ;;
          sY <- local testY ;;
          (if negb (Nat.eqb (rows sX) (rows sY)) then
             throw (Error ("Test shape mismatch: features=" ++ digits (rows sX)
                           ++ ", targets=" ++ digits (rows sY)))
           else ret tt) ;;;
          inApp (fit beh totalEpochs onEpochEnd) ;;;
          inApp (emit ConsoleLog) ;;;
          inApp (evaluateAndDispose beh tX tY sX sY))
         (fun error =>
            inApp (emit (ConsoleError (message error))) ;;;
            inApp (setIsTraining false) ;;;
            disposeIf trainX ;;;
            disposeIf trainY ;;;
            disposeIf testX ;;;
            disposeIf testY ;;;
            throw (Error ("Training failed: " ++ message error)))).

End Application.

(** *** [predict], the same text in both revisions *)

(** [document.getElementById(id).value] *)
Definition elementValue (id : string) : M t string :=
  d <- read dom ;;
  match dictGet d id with
  | Some v => ret v
  | None => throw (TypeError "Cannot read properties of null (reading 'value')")
  end.

(** the object literal [userInput], its properties in order *)
Definition collectUserInput : M t Obj :=
  topSpeed <- elementValue "topSpeed" ;;
  batteryCapacity <- elementValue "batteryCapacity" ;;
  torque <- elementValue "torque" ;;
  acceleration <- elementValue "acceleration" ;;
  fastCharging <- elementValue "fastCharging" ;;
  chargePort <- elementValue "chargePort" ;;
  seats <- elementValue "seats" ;;
  drivetrain <- elementValue "drivetrain" ;;
  length <- elementValue "length" ;;
  width <- elementValue "width" ;;
  height <- elementValue "height" ;;
  ret [("top_speed_kmh", JNum (JsNumber.parseFloat topSpeed));
       ("battery_capacity_kWh", JNum (JsNumber.parseFloat batteryCapacity));
       ("torque_nm", JNum (JsNumber.parseFloat torque));
       ("acceleration_0_100_s", JNum (JsNumber.parseFloat acceleration));
       ("fast_charging_power_kw_dc", JNum (JsNumber.parseFloat fastCharging));
       ("fast_charge_port", JStr chargePort);
       ("seats", JNum (JsNumber.parseInt seats));
       ("drivetrain", JStr drivetrain);
       ("length_mm", JNum (JsNumber.parseInt length));
       ("width_mm", JNum (JsNumber.parseInt width));
       ("height_mm", JNum (JsNumber.parseInt height))].

(** [value === null || value === undefined ||
     (typeof value === 'number' && isNaN(value))] *)
Definition invalid (value : jsval) : bool :=
  match value with
  | JNull | JUndefined => true
  | JNum x => is_nan x
  | JStr _ => false
  end.

(** the loop [for (const [key, value] of Object.entries(userInput))] *)
Fixpoint validateInput (entries : Obj) : result unit :=
  match entries with
  | [] => Ok tt
  | (key, value) :: rest =>
      if invalid value then Throw (Error ("Invalid input for " ++ key))
      else validateInput rest
  end.

(** the [try] block of [predict] from the validation on *)
Definition predictSteps (beh : Behaviour) (userInput : Obj) : M t unit :=
  lift (validateInput userInput) ;;;
  emit TransformUserInput ;;;
  loader <- read dataLoader ;;
  transformedInput <- lift (DataLoader.transformUserInput loader userInput) ;;
  prediction <- tidyPredict beh ;;
  data beh 0 prediction ;;;
  let rangeKm := JsNumber.Math_round (predicted beh) in
  dispose [prediction] ;;;
  emit (UiRange rangeKm) ;;;
  emit ConsoleLog.

(** [catch (error) { console.error(...); alert(...) }] *)
Definition predictCatch (error : exn) : M t unit :=
  emit (ConsoleError (message error)) ;;;
  emit (Alert ("Prediction failed: " ++ message error)).

(** [predict] once [userInput] is collected *)
Definition predictWith (beh : Behaviour) (userInput : Obj) : M t unit :=
  tryCatch (predictSteps beh userInput) predictCatch.

Definition predict (beh : Behaviour) : M t unit :=
  ready <- read isModelReady ;;
  training <- read isTraining ;;
  if negb ready || training then ret tt
  else
    tryCatch
      (userInput <- collectUserInput ;;
       predictSteps beh userInput)
      predictCatch.

End App.

(** ** [app.js]: the start of the application *)

Module Startup.

Import JsValue Host App.

(** The part of the page that [initialize] writes: the status line, the
    button of the form, the progress panel and, in
    [src/application/app.js], the steps of the build list, by their
    [data-step] name.  A step of the list has its icon and its text, as
    every step of the page has. *)
Module Page.

Record Step : Type := mkStep {
  iconClass : string;
  iconText : string;
  text : string
}.

Record t : Type := mk {
  statusText : string;
  statusClass : string;
  predictBtnDisabled : bool;
  trainingProgressDisplay : string;
  buildingSteps : Dict Step
}.

End Page.

(** What the library does while the model is built: which of its calls
    throw (0: [tf.sequential()], 1 to 5: a layer and its [add], 6:
    [compile], 7: [summary], 8: [tf.nextFrame()], 9: [countParams]), and
    the number of parameters it reports. *)
Record Build : Type := mkBuild {
  buildThrows : nat -> option string;
  paramCount : nat
}.

(** The predictor and its page. *)
Definition t : Type := (Page.t * App.t)%type.

Definition inApp {A : Type} (c : M App.t A) : M t A :=
  fun s =>
    match c (snd s) with
    | (r, a) => (r, (fst s, a))
    end.

Definition onPage (f : Page.t -> Page.t) : M t unit :=
  fun s => (Ok tt, (f (fst s), snd s)).

(** a method of [this.dataLoader] *)
Definition onLoader {A : Type} (f : DataLoader.t -> result A * DataLoader.t)
  : M App.t A :=
  fun s =>
    match f (dataLoader s) with
    | (r, loader) =>
        (r, mkApp (model s) loader (isTraining s) (isModelReady s)
                  (trainingHistory s) (live s) (nextTensor s) (log s) (dom s))
    end.

Definition setModel (m : bool) : M App.t unit :=
  fun s => (Ok tt, mkApp m (dataLoader s) (isTraining s) (isModelReady s)
                         (trainingHistory s) (live s) (nextTensor s) (log s)
                         (dom s)).

Definition setIsModelReady (b : bool) : M App.t unit :=
  fun s => (Ok tt, mkApp (model s) (dataLoader s) (isTraining s) b
                         (trainingHistory s) (live s) (nextTensor s) (log s)
                         (dom s)).

Definition setPredictBtnDisabled (b : bool) : M t unit :=
  onPage (fun p => Page.mk (Page.statusText p) (Page.statusClass p) b
                           (Page.trainingProgressDisplay p) (Page.buildingSteps p)).

(** [updateStatus(message, type)] *)
Definition updateStatus (message type : string) : M t unit :=
  onPage (fun p => Page.mk message ("status " ++ type) (Page.predictBtnDisabled p)
                           (Page.trainingProgressDisplay p) (Page.buildingSteps p)).

(** the statements of [buildModel] between [tf.sequential()] and the end
    of its [try] block in [src/app.js] *)
Definition assemble (build : Build) : M App.t unit :=
  optThrow (buildThrows build 1) ;;;
  optThrow (buildThrows build 2) ;;;
  optThrow (buildThrows build 3) ;;;
  optThrow (buildThrows build 4) ;;;
  optThrow (buildThrows build 5) ;;;
  optThrow (buildThrows build 6) ;;;
  emit ConsoleLog ;;;
  optThrow (buildThrows build 7).

(** *** [src/app.js] *)

Module Root.

Definition buildModel (build : Build) (inputShape : nat) : M App.t unit :=
  tryCatch
    (optThrow (buildThrows build 0) ;;;
     setModel true ;;;
     assemble build)
    (fun error =>
       emit (ConsoleError (message error)) ;;;
       throw error).

Definition initialize (response : DataLoader.fetched) (rng : nat -> nat)
  (build : Build) (beh : Behaviour) : M t unit :=
  tryCatch
    (updateStatus "Loading training data..." "loading" ;;;
     inApp (onLoader (DataLoader.loadCSV "data.csv" response)) ;;;
     processedData <- inApp (onLoader (DataLoader.preprocessData rng)) ;;
     updateStatus "Building neural network model..." "loading" ;;;
     inApp (buildModel build (DataLoader.inputShape processedData)) ;;;
     updateStatus "Training model..." "loading" ;;;
     inApp (App.Root.trainModel beh processedData) ;;;
     updateStatus "Model ready! Enter vehicle specifications to predict range."
                  "success" ;;;
     inApp (setIsModelReady true) ;;;
     setPredictBtnDisabled false)
    (fun error =>
       inApp (emit (ConsoleError (message error))) ;;;
       updateStatus ("Error: " ++ message error) "error").

End Root.

(** *** [src/application/app.js] *)

Module Application.

(** [text.split(' - ')[0]]: the text before the first [sep], all of it
    without one *)
Fixpoint beforeSeparator (sep s : string) : string :=
  match s with
  | EmptyString => EmptyString
  | String c s' =>
      if String.prefix sep s then EmptyString
      else String c (beforeSeparator sep s')
  end.

(** [updateStepStatus(stepName, status, details = '')]; the four marks,
    which are no Latin-1 characters, are written by their UTF-8 bytes *)
Definition updateStepStatus (stepName status details : string) : M t unit :=
  onPage (fun p =>
    match dictGet (Page.buildingSteps p) stepName with
    | None => p
    | Some step =>
        let icon :=
          if String.eqb status "pending" then "○"
          else if String.eqb status "active" then "⟳"
          else if String.eqb status "complete" then "✓"
          else if String.eqb status "failed" then "✗"
          else Page.iconText step in
        let text :=
          if String.eqb details "" then Page.text step
          else (beforeSeparator " - " (Page.text step) ++ " - " ++ details)%string in
        Page.mk (Page.statusText p) (Page.statusClass p)
                (Page.predictBtnDisabled p) (Page.trainingProgressDisplay p)
                (dictSet (Page.buildingSteps p) stepName
                         (Page.mkStep ("status-icon " ++ status) icon text))
    end).

Definition buildModel (build : Build) (inputShape : nat) : M App.t unit :=
  tryCatch
    ((if Nat.eqb inputShape 0 then
        throw (Error "Invalid input shape. Must be a positive integer.")
      else ret tt) ;;;
     optThrow (buildThrows build 0) ;;;
     setModel true ;;;
     assemble build ;;;
     optThrow (buildThrows build 8))
    (fun error =>
       emit (ConsoleError (message error)) ;;;
       throw (Error ("Model building failed: " ++ message error))).

(** [this.dataLoader.rawData.length] *)
Definition rawDataLength : M App.t nat :=
  loader <- read dataLoader ;;
  match DataLoader.rawData loader with
  | Some raw => ret (List.length raw)
  | None => throw (TypeError "Cannot read properties of null (reading 'length')")
  end.

(** [this.model.countParams()] *)
Definition countParams (build : Build) : M App.t nat :=
  optThrow (buildThrows build 9) ;;;
  ret (paramCount build).

Definition digits (n : nat) : string := JsNumber.digits_of_Z (Z.of_nat n).

(** [try { step } catch (error) { this.updateStepStatus(name, 'failed',
    error.message); throw error; }] *)
Definition failing {A : Type} (stepName : string) (step : M t A) : M t A :=
  tryCatch step
    (fun error =>
       updateStepStatus stepName "failed" (message error) ;;;
       throw error).

Definition initialize (response : DataLoader.fetched) (rng : nat -> nat)
  (build : Build) (beh : Behaviour) : M t unit :=
  tryCatch
    (updateStepStatus "load" "active" "" ;;;
     updateStatus "Loading training data from data.csv..." "loading" ;;;
     failing "load"
       (inApp (onLoader (DataLoader.loadCSV "data.csv" response)) ;;;
        n <- inApp rawDataLength ;;
        updateStepStatus "load" "complete" (digits n ++ " samples loaded")%string) ;;;
     updateStepStatus "preprocess" "active" "" ;;;
     updateStatus "Preprocessing features and splitting dataset..." "loading" ;;;
     processedData <-
       failing "preprocess"
         (processedData <- inApp (onLoader (DataLoader.preprocessData rng)) ;;
          updateStepStatus "preprocess" "complete"
            (digits (DataLoader.inputShape processedData) ++ " features, "
             ++ digits (List.length
                          (DataLoader.features (DataLoader.train processedData)))
             ++ " train samples")%string ;;;
          ret processedData) ;;
     updateStepStatus "build" "active" "" ;;;
     updateStatus "Building neural network architecture..." "loading" ;;;
     failing "build"
       (inApp (buildModel build (DataLoader.inputShape processedData)) ;;;
        params <- inApp (countParams build) ;;
        updateStepStatus "build" "complete" (digits params ++ " parameters")%string) ;;;
     updateStepStatus "train" "active" "" ;;;
     updateStatus "Training model on dataset..." "loading" ;;;
     onPage (fun p => Page.mk (Page.statusText p) (Page.statusClass p)
                              (Page.predictBtnDisabled p) "block"
                              (Page.buildingSteps p)) ;;;
     failing "train"
       (inApp (App.Application.trainModel beh processedData) ;;;
        updateStepStatus "train" "complete" "Training completed successfully") ;;;
     updateStatus "✓ Model ready! Enter vehicle specifications to predict range."
                  "success" ;;;
     inApp (setIsModelReady true) ;;;
     setPredictBtnDisabled false)
    (fun error =>
       inApp (emit (ConsoleError (message error))) ;;;
       updateStatus ("✗ Initialization failed: " ++ message error) "error" ;;;
       inApp (setIsModelReady false) ;;;
       setPredictBtnDisabled true).

End Application.

End Startup.

(** * Specification

    The notions the properties are stated with: what the pipeline is meant
    to compute, after the description of the system, the outcomes of
    [preprocessData], and the sample inputs the properties are tried on. *)

Section Specification.

Import JsValue DataLoader Host App.

(** ** Feature pipeline *)

(** Transform: the normalized value of a numeric feature and the one-hot
    block of a categorical feature. *)
Definition normalized (st : Stats) (v : jsval) : float :=
  ((ToNumber v - mean st) / std st)%float.

Definition oneHotBlock (categories : list jsval) (v : jsval) : list float :=
  map (fun category => if strictEquals v category then one else zero) categories.

Definition statsOf (stats : Dict Stats) (feature : string) : Stats :=
  match dictGet stats feature with
  | Some st => st
  | None => mkStats nan nan
  end.

Definition vocabularyOf (mappings : Dict (list jsval)) (feature : string)
  : list jsval :=
  match dictGet mappings feature with
  | Some categories => categories
  | None => []
  end.

(** The feature vector: normalized numeric values in the order of the
    numeric features, then one one-hot block per categorical feature. *)
Definition featureVector (stats : Dict Stats) (mappings : Dict (list jsval))
  (nums cats : list string) (row : Obj) : list float :=
  map (fun f => normalized (statsOf stats f) (get row f)) nums
  ++ List.concat (map (fun f => oneHotBlock (vocabularyOf mappings f) (get row f)) cats).

(** FitStatistics: mean and population standard deviation of a list of
    numbers, the sums taken from left to right. *)
Definition floatSum (xs : list float) : float :=
  fold_left PrimFloat.add xs zero.

Definition arithmeticMean (xs : list float) : float :=
  (floatSum xs / JsNumber.float_of_nat (List.length xs))%float.

Definition populationStd (xs : list float) : float :=
  let m := arithmeticMean xs in
  sqrt (floatSum (map (fun x => ((x - m) * (x - m))%float) xs)
        / JsNumber.float_of_nat (List.length xs))%float.

Definition fittedStats (xs : list float) : Stats :=
  mkStats (arithmeticMean xs)
          (if PrimFloat.eqb (populationStd xs) zero then one else populationStd xs).

(** the values of a feature in [rows], as numbers *)
Definition numbers (rows : list Obj) (feature : string) : list float :=
  map (fun row => ToNumber (get row feature)) rows.

(** FitVocabulary: the vocabularies of the categorical features *)
Definition fittedVocabulary (rows : list Obj) : Dict (list jsval) :=
  map (fun f => (f, uniqueValues rows f)) categoricalFeatures.

(** The order of [sort()]: [a] is not after [b]. *)
Definition sortLe (a b : jsval) : Prop := sortBefore b a = false.

Definition isText (v : jsval) : Prop :=
  match v with
  | JStr _ => True
  | _ => False
  end.

(** The order of the string forms: that of [b] is not before that of [a]. *)
Definition stringFormLe (a b : jsval) : Prop :=
  JsString.ltb (ToString b) (ToString a) = false.

(** The strict lexicographic order of text values, by code units. *)
Definition textBefore (a b : jsval) : Prop :=
  match a, b with
  | JStr s, JStr t => JsString.ltb s t = true
  | _, _ => False
  end.

(** What [coerceCell] yields: a number, or a string that is no numeric
    literal. *)
Definition coerced (v : jsval) : Prop :=
  match v with
  | JNum _ => True
  | JStr s => isNaN (JStr s) = true
  | _ => False
  end.

Definition rowCoerced (row : Obj) : Prop := Forall (fun kv => coerced (snd kv)) row.

(** one step of [buildRow] *)
Definition setCell (row : Obj) (hv : string * string) : Obj :=
  if String.eqb (fst hv) "__proto__" then row
  else dictSet row (fst hv) (coerceCell (snd hv)).

(** ** Errors of [preprocessData] *)

(** EmptyVocabularyError, as thrown in the loop over the categorical
    features *)
Definition emptyVocabulary (feature : string) : exn :=
  Error ("No unique values found for categorical feature: " ++ feature).

(** InsufficientDataError, as thrown and as [preprocessData] rethrows it *)
Definition tooSmall : exn :=
  Error "Dataset too small for train/test split. Need at least 5 samples.".

Definition insufficientData : exn :=
  Error "Data preprocessing failed: Dataset too small for train/test split. Need at least 5 samples.".

(** ** Outcomes of [preprocessData] *)

(** [splitIndex < 1 || features.length - splitIndex < 1] for [n] rows *)
Definition splitCheck (n : nat) : bool :=
  Nat.ltb (splitIndex n) 1 || Nat.ltb (n - splitIndex n) 1.

(** the feature vectors of the valid rows [rows] *)
Definition transformedRows (rows : list Obj) : list (list float) :=
  map (featureVector (fitStatistics rows) (fittedVocabulary rows)
                     numericalFeatures categoricalFeatures) rows.

(** the loader once statistics and vocabularies are fitted on [rows] *)
Definition fittedLoader (this : DataLoader.t) (rows : list Obj) : DataLoader.t :=
  withStats (withMappings this (fittedVocabulary rows)) (fitStatistics rows).

(** the split of [rows] and of their feature vectors [transformed] *)
Definition splitOf (rng : nat -> nat) (rows : list Obj)
  (transformed : list (list float)) : ProcessedData :=
  let n := List.length rows in
  let k := splitIndex n in
  let shuffled := shuffleIndices rng n in
  let targets := column rows targetColumn in
  let trainFeatures := pick transformed [] (firstn k shuffled) in
  mkProcessedData
    (mkSamples trainFeatures (pick targets JUndefined (firstn k shuffled)))
    (mkSamples (pick transformed [] (skipn k shuffled))
               (pick targets JUndefined (skipn k shuffled)))
    (List.length (hd [] trainFeatures))
    (numericalFeatures, categoricalFeatures).

(** *** Split

    Fisher-Yates, as the specification words it, on an order seen as a
    function from positions to indices: the entries at the positions [i]
    and [j] change places, *)
Definition exchanged (order : nat -> nat) (i j : nat) : nat -> nat :=
  fun p => if Nat.eqb p i then order j
           else if Nat.eqb p j then order i
           else order p.

(** for [i] from the last position down to [1], [j] being the position
    drawn for [i] *)
Fixpoint fisherYates (drawn : nat -> nat) (i : nat) (order : nat -> nat)
  : nat -> nat :=
  match i with
  | O => order
  | S i' => fisherYates drawn i' (exchanged order i (drawn i))
  end.

(** the position that [shuffleIndices] draws for [i] when it shuffles [n]
    indices: its draws go from the last position down *)
Definition drawnFor (rng : nat -> nat) (n i : nat) : nat :=
  Nat.modulo (rng (n - 1 - i)) (i + 1).

(** the rows of a group are those at its indices, with their vectors and
    their targets *)
Definition groupOf (rows : list Obj) (indices : list nat) (group : Samples) : Prop :=
  List.length (features group) = List.length indices
  /\ List.length (targets group) = List.length indices
  /\ forall p i,
       nth_error indices p = Some i ->
       exists row,
         nth_error rows i = Some row
         /\ nth_error (features group) p
            = Some (featureVector (fitStatistics rows) (fittedVocabulary rows)
                                  numericalFeatures categoricalFeatures row)
         /\ nth_error (targets group) p = Some (get row targetColumn).

(** The four ways the [try] block of [preprocessData] ends on the rows
    [raw]. *)
Inductive outcome (rng : nat -> nat) (this : DataLoader.t) (raw : list Obj)
  : result ProcessedData * DataLoader.t -> Prop :=
| MissingColumns :
    missingColumns (hd [] raw) <> [] ->
    outcome rng this raw
      (Throw (Error ("Missing required columns: "
                     ++ JsString.join ", " (missingColumns (hd [] raw)))), this)
| NoValidSamples :
    missingColumns (hd [] raw) = [] ->
    filter keepRow raw = [] ->
    outcome rng this raw
      (Throw (Error "No valid samples found after filtering missing values"), this)
| TooSmall :
    missingColumns (hd [] raw) = [] ->
    filter keepRow raw <> [] ->
    splitCheck (List.length (filter keepRow raw)) = true ->
    outcome rng this raw
      (Throw tooSmall, fittedLoader this (filter keepRow raw))
| Split :
    missingColumns (hd [] raw) = [] ->
    filter keepRow raw <> [] ->
    splitCheck (List.length (filter keepRow raw)) = false ->
    outcome rng this raw
      (Ok (splitOf rng (filter keepRow raw) (transformedRows (filter keepRow raw))),
       withProcessed (fittedLoader this (filter keepRow raw))
         (splitOf rng (filter keepRow raw) (transformedRows (filter keepRow raw)))).

(** ** Orchestrator *)

(** [Q] holds of the result and of the final state of [c] run from [s]. *)
Definition wp {S A : Type} (c : M S A) (Q : result A -> S -> Prop) (s : S) : Prop :=
  Q (fst (c s)) (snd (c s)).

(** [c] leaves the component [p] of the state as it is. *)
Definition preserves {S A X : Type} (p : S -> X) (c : M S A) : Prop :=
  forall s, p (snd (c s)) = p s.

(** the history made of the records [ls], in order *)
Definition historyOf (ls : list Logs.t) : History.t :=
  History.mk (map Logs.loss ls) (map Logs.val_loss ls) (map Logs.mae ls).

Definition historyApp (h1 h2 : History.t) : History.t :=
  History.mk (History.loss h1 ++ History.loss h2)
             (History.valLoss h1 ++ History.valLoss h2)
             (History.mae h1 ++ History.mae h2).

(** the logs of an epoch that carry both losses, those that
    [src/application/app.js] records *)
Definition bothLosses (logs : option Logs.t) : option Logs.t :=
  match logs with
  | Some l =>
      if Application.isUndefined (Logs.loss l)
         || Application.isUndefined (Logs.val_loss l)
      then None else Some l
  | None => None
  end.

(** the logs the library reports for [epochs] *)
Definition reported (beh : Behaviour) (epochs : list nat) : list Logs.t :=
  flat_map (fun e => match epochLogs beh e with
                     | Some l => [l]
                     | None => []
                     end) epochs.

(** those of them with both losses *)
Definition recorded (beh : Behaviour) (epochs : list nat) : list Logs.t :=
  flat_map (fun e => match bothLosses (epochLogs beh e) with
                     | Some l => [l]
                     | None => []
                     end) epochs.

(** the contract of [model.fit] with validation data: at the end of every
    epoch it hands [onEpochEnd] logs with a training loss and a validation
    loss *)
Definition reportsBothLosses (beh : Behaviour) : Prop :=
  forall epoch, bothLosses (epochLogs beh epoch) <> None.

(** the records [ls] are those of the epochs [0], [1], ... in order *)
Definition recordsOfEpochs (beh : Behaviour) (ls : list Logs.t) : Prop :=
  forall epoch l, nth_error ls epoch = Some l -> epochLogs beh epoch = Some l.

(** the history seen from the body of [trainModel] of
    [src/application/app.js] *)
Definition historyIn (s : Application.Locals * App.t) : History.t :=
  trainingHistory (snd s).

(** the state [s] with [events] added to its log *)
Definition logged (s : App.t) (events : list event) : App.t :=
  mkApp (model s) (dataLoader s) (isTraining s) (isModelReady s)
        (trainingHistory s) (live s) (nextTensor s) (log s ++ events) (dom s).

(** the key of the first entry that the validation of [predict] rejects *)
Fixpoint firstInvalid (entries : Obj) : option string :=
  match entries with
  | [] => None
  | (key, value) :: rest => if invalid value then Some key else firstInvalid rest
  end.

(** ** Sample inputs *)

Definition sampleHeader : string :=
  "top_speed_kmh,battery_capacity_kWh,torque_nm,acceleration_0_100_s,fast_charging_power_kw_dc,fast_charge_port,seats,drivetrain,length_mm,width_mm,height_mm,range_km".

Definition csvOf (lines : list string) : string :=
  JsString.join (String LF "") lines.

(** the header and one row *)
Definition oneRowCsv : string :=
  csvOf [sampleHeader; "150,60,310,7.5,100,CCS,5,AWD,4500,1850,1550,400"].

Definition twoRowCsv : string :=
  csvOf [sampleHeader;
         "150,60,310,7.5,100,CCS,5,AWD,4500,1850,1550,400";
         "160,70,320,6.5,120,CHAdeMO,5,FWD,4600,1860,1500,450"].

(** six rows, the fourth with an empty [battery_capacity_kWh] *)
Definition sixRowCsv : string :=
  csvOf [sampleHeader;
         "150,60,310,7.5,100,CCS,5,AWD,4500,1850,1550,400";
         "160,70,320,6.5,120,CHAdeMO,5,FWD,4600,1860,1500,450";
         "170,75,330,5.5,150,CCS,4,RWD,4700,1870,1450,500";
         "175,,335,5.2,150,CCS,4,RWD,4710,1871,1451,510";
         "180,80,340,5.0,170,CCS,5,AWD,4800,1880,1400,520";
         "190,90,350,4.5,200,CCS,5,AWD,4900,1890,1350,560"].

(** a file whose [drivetrain] cells read as numbers *)
Definition numberedDrivetrainCsv : string :=
  csvOf [sampleHeader;
         "150,60,310,7.5,100,CCS,5,9,4500,1850,1550,400";
         "160,70,320,6.5,120,CHAdeMO,5,10,4600,1860,1500,450";
         "170,75,330,5.5,150,CCS,4,100,4700,1870,1450,500"].

Definition rowsOf (csvText : string) : list Obj :=
  match parseCSV csvText with
  | Ok raw => raw
  | Throw _ => []
  end.

Definition oneRowRaw : list Obj := Eval vm_compute in rowsOf oneRowCsv.

Definition twoRowRaw : list Obj := Eval vm_compute in rowsOf twoRowCsv.

Definition sixRowRaw : list Obj := Eval vm_compute in rowsOf sixRowCsv.

(** a loader after [loadCSV] *)
Definition loaderOf (raw : list Obj) : DataLoader.t :=
  mkDataLoader (Some raw) None None None.

Definition sampleRng (k : nat) : nat := k * 7 + 3.

Definition sampleRun : result ProcessedData * DataLoader.t :=
  Eval vm_compute in preprocessData sampleRng (loaderOf sixRowRaw).

Definition sampleFitted : DataLoader.t := Eval vm_compute in snd sampleRun.

Definition sampleStats : Dict Stats :=
  Eval vm_compute in match featureStats sampleFitted with
                     | Some stats => stats
                     | None => []
                     end.

Definition sampleMappings : Dict (list jsval) :=
  Eval vm_compute in match categoricalMappings sampleFitted with
                     | Some mappings => mappings
                     | None => []
                     end.

(** a record whose [drivetrain] was not seen when fitting *)
Definition unseenRow : Obj :=
  [("top_speed_kmh", JNum 150%float); ("battery_capacity_kWh", JNum 60%float);
   ("torque_nm", JNum 310%float); ("acceleration_0_100_s", JNum 7.5%float);
   ("fast_charging_power_kw_dc", JNum 100%float); ("fast_charge_port", JStr "CCS");
   ("seats", JNum 5%float); ("drivetrain", JStr "6WD");
   ("length_mm", JNum 4500%float); ("width_mm", JNum 1850%float);
   ("height_mm", JNum 1550%float)].

Definition sampleLogs : Logs.t := Logs.mk (JNum one) (JNum one) (JNum one).

(** a library that never throws and reports logs for every epoch *)
Definition behaviourOk : Behaviour :=
  mkBehaviour (fun _ => None) (fun _ => None) (fun _ => Some sampleLogs) None
              (fun _ => None) None one.

(** [model.fit] throws in the first epoch *)
Definition behaviourFitThrows : Behaviour :=
  mkBehaviour (fun _ => None)
              (fun epoch => if Nat.eqb epoch 0 then Some "fit failed" else None)
              (fun _ => Some sampleLogs) None (fun _ => None) None one.

(** the first [data()] throws *)
Definition behaviourDataThrows : Behaviour :=
  mkBehaviour (fun _ => None) (fun _ => None) (fun _ => Some sampleLogs) None
              (fun k => if Nat.eqb k 0 then Some "data failed" else None) None one.

(** the first epoch comes without logs *)
Definition behaviourNoLogs : Behaviour :=
  mkBehaviour (fun _ => None) (fun _ => None)
              (fun epoch => if Nat.eqb epoch 0 then None else Some sampleLogs) None
              (fun _ => None) None one.

Definition sampleSplit : DataLoader.ProcessedData :=
  DataLoader.mkProcessedData
    (DataLoader.mkSamples [[zero]; [one]] [JNum one; JNum one])
    (DataLoader.mkSamples [[one]] [JNum one])
    1 (DataLoader.numericalFeatures, DataLoader.categoricalFeatures).

(** the form, [seats] left empty *)
Definition sampleForm : Dict string :=
  [("topSpeed", "150"); ("batteryCapacity", "60"); ("torque", "310");
   ("acceleration", "7.5"); ("fastCharging", "100"); ("chargePort", "CCS");
   ("seats", ""); ("drivetrain", "AWD"); ("length", "4500"); ("width", "1850");
   ("height", "1550")].

(** a predictor whose model is built, before training *)
Definition builtApp : App.t :=
  mkApp true DataLoader.new false false History.empty [] 0 [] sampleForm.

(** a predictor after training *)
Definition readyApp : App.t :=
  mkApp true DataLoader.new false true History.empty [] 0 [] sampleForm.

(** a predictor during training *)
Definition trainingApp : App.t :=
  mkApp true DataLoader.new true false History.empty [] 0 [] sampleForm.

Definition sampleInput : Obj :=
  Eval vm_compute in match fst (collectUserInput readyApp) with
                     | Ok userInput => userInput
                     | Throw _ => []
                     end.

End Specification.

(** * Further notions

    The notions for the properties of the parts of the program that the
    specification leaves implicit: the ingest, the failures of the
    pipeline, the tensors of the library, and the start of the
    application. *)

Section Notions.

Import JsValue DataLoader Host App Startup.

(** ** Ingest *)

(** the number of code units [c] in [s] *)
Fixpoint occurrences (c : ascii) (s : string) : nat :=
  match s with
  | EmptyString => 0
  | String a s' => (if Ascii.eqb a c then 1 else 0) + occurrences c s'
  end.

(** the header of a file, as [parseCSV] reads it *)
Definition headersOf (csvText : string) : list string :=
  map JsString.trim
      (JsString.split "," (hd "" (JsString.split LF (JsString.trim csvText)))).

(** ** The errors of [preprocessData] *)

Inductive failure (this : DataLoader.t) : exn -> Prop :=
| NoData :
    rawData this = None \/ rawData this = Some [] ->
    failure this (Error "No data loaded. Call loadCSV first.")
| Missing : forall raw,
    rawData this = Some raw -> raw <> [] ->
    missingColumns (hd [] raw) <> [] ->
    failure this
      (Error ("Data preprocessing failed: Missing required columns: "
              ++ JsString.join ", " (missingColumns (hd [] raw))))
| NoValid : forall raw,
    rawData this = Some raw -> raw <> [] ->
    missingColumns (hd [] raw) = [] ->
    filter keepRow raw = [] ->
    failure this
      (Error "Data preprocessing failed: No valid samples found after filtering missing values")
| Insufficient : forall raw,
    rawData this = Some raw ->
    missingColumns (hd [] raw) = [] ->
    splitCheck (List.length (filter keepRow raw)) = true ->
    filter keepRow raw <> [] ->
    failure this insufficientData.

(** the sets that [trainModel] of [src/application/app.js] accepts *)
Definition wellShaped (d : ProcessedData) : Prop :=
  List.length (features (train d)) <> 0
  /\ List.length (targets (train d)) = List.length (features (train d))
  /\ List.length (features (test d)) <> 0
  /\ List.length (targets (test d)) = List.length (features (test d)).

(** ** The predictor *)

(** the fields of a predictor that are neither tensors nor events *)
Definition fields (s : App.t)
  : bool * DataLoader.t * bool * bool * History.t * Dict string :=
  (model s, dataLoader s, isTraining s, isModelReady s, trainingHistory s, dom s).

(** the fields that a training run does not write *)
Definition settled (s : App.t) : bool * DataLoader.t * bool :=
  (model s, dataLoader s, isModelReady s).

(** the tensors of the library: those alive and the next handle *)
Definition tensors (s : App.t) : list nat * nat := (live s, nextTensor s).

(** the handles of the live tensors were given out *)
Definition handlesGiven (s : App.t) : Prop :=
  forall i, In i (live s) -> i < nextTensor s.

(** the handles of the locals of [trainModel] that are defined *)
Definition definedIds (l : App.Application.Locals) : list nat :=
  let ids (o : option Tensor) := match o with
                                 | Some x => [tid x]
                                 | None => []
                                 end in
  ids (App.Application.trainX l) ++ ids (App.Application.trainY l)
  ++ ids (App.Application.testX l) ++ ids (App.Application.testY l).

(** [c] only adds events to the log *)
Definition grows {A : Type} (c : M App.t A) : Prop :=
  forall s, exists events, log (snd (c s)) = log s ++ events.

(** ** The library *)

(** logs whose three metrics are numbers *)
Definition numericLogs (l : Logs.t) : Prop :=
  isNumber (Logs.loss l) = true
  /\ isNumber (Logs.val_loss l) = true
  /\ isNumber (Logs.mae l) = true.

(** a library none of whose calls throws during training, and that
    reports numeric logs at the end of every epoch *)
Definition trainsWell (beh : Behaviour) : Prop :=
  (forall k, tensor2dThrows beh k = None)
  /\ (forall epoch, fitThrows beh epoch = None)
  /\ (forall epoch, exists l, epochLogs beh epoch = Some l /\ numericLogs l)
  /\ evaluateThrows beh = None
  /\ (forall k, dataThrows beh k = None).

(** ** The start *)

(** what [initialize] has established when it sets [isModelReady] *)
Definition started (app : App.t) : Prop :=
  model app = true
  /\ isTraining app = false
  /\ exists d, getData (dataLoader app) = Ok d
       /\ forall userInput, exists v,
            transformUserInput (dataLoader app) userInput = Ok v.

(** the inputs with which the start succeeds: a file with the required
    columns and at least two valid rows, and a library that does not
    throw *)
Definition startsWell (csvText : string) (build : Build) (beh : Behaviour) : Prop :=
  exists raw,
    parseCSV csvText = Ok raw
    /\ missingColumns (hd [] raw) = []
    /\ 2 <= List.length (filter keepRow raw)
    /\ (Z.of_nat (List.length raw) < 2 ^ 32)%Z
    /\ (forall k, buildThrows build k = None)
    /\ trainsWell beh.

(** a text without the character [-] *)
Fixpoint noDash (s : string) : bool :=
  match s with
  | EmptyString => true
  | String c s' => negb (Ascii.eqb c "-") && noDash s'
  end.

(** ** Sample inputs *)


(** a predictor as its constructor leaves it *)
Definition newApp : App.t :=
  mkApp false DataLoader.new false false History.empty [] 0 [] sampleForm.

(** a page with the four steps of the build list *)
Definition samplePage : Page.t :=
  Page.mk "" "" true "none"
    [("load", Page.mkStep "status-icon pending" "" "Load data");
     ("preprocess", Page.mkStep "status-icon pending" "" "Preprocess data");
     ("build", Page.mkStep "status-icon pending" "" "Build model");
     ("train", Page.mkStep "status-icon pending" "" "Train model")].

(** a library that builds the model without an error *)
Definition sampleBuild : Build := mkBuild (fun _ => None) 993.

(** data without a training row *)
Definition emptySplit : ProcessedData :=
  mkProcessedData (mkSamples [] []) (mkSamples [[one]] [JNum one]) 1
                  (numericalFeatures, categoricalFeatures).

(** the form, filled in *)
Definition filledForm : Dict string :=
  [("topSpeed", "150"); ("batteryCapacity", "60"); ("torque", "310");
   ("acceleration", "7.5"); ("fastCharging", "100"); ("chargePort", "CCS");
   ("seats", "5"); ("drivetrain", "AWD"); ("length", "4500"); ("width", "1850");
   ("height", "1550")].

(** a predictor after a start on the six sample rows *)
Definition startedApp : App.t :=
  mkApp true sampleFitted false true History.empty [] 0 [] filledForm.

End Notions.

(** * Properties *)

(** ** The binary64 product [n * 0.8] *)

Section BinaryFloor.

Local Open Scope Z_scope.

Lemma round53_small : forall P, 0 <= P -> Z.log2 P - 52 <= 0 -> JsNumber.round53 P = P.
Proof. intros. unfold JsNumber.round53. destruct (Z.leb_spec (Z.log2 P - 52) 0); [reflexivity|lia]. Qed.

Lemma round53_bounds : forall P s, 0 < P -> s = Z.log2 P - 52 -> 0 < s ->
  exists q, JsNumber.round53 P = q * 2^s /\ P / 2^s <= q <= P / 2^s + 1.
Proof.
  intros P s HP Hs Hpos. unfold JsNumber.round53. rewrite <- Hs.
  destruct (Z.leb_spec s 0); [lia|].
  destruct (_ || _).
  - exists (P / 2^s + 1). split; [reflexivity|lia].
  - exists (P / 2^s). split; [reflexivity|lia].
Qed.

(** For an array length, the floor of the rounded product is the floor of
    the exact [4 n / 5]: [5 * mant_0_8 = 2^54 + 1], so the product exceeds
    [4 n / 5] by [n / (5 * 2^52)], and rounding moves it by at most
    [2^31 / 2^52]. *)

Lemma floor_mul_0_8_exact : forall n, 0 <= n < 2^32 -> JsNumber.floor_mul_0_8 n = n * 4 / 5.
Proof.
  intros n Hn. unfold JsNumber.floor_mul_0_8, JsNumber.mant_0_8.
  change (2^32) with 4294967296 in Hn.
  destruct (Z.eq_dec n 0) as [-> | Hn0]; [reflexivity|].
  set (P := n * 3602879701896397).
  assert (HP : 0 < P) by (unfold P; lia).
  assert (HPlt : P < 2^84) by (unfold P; change (2^84) with 19342813113834066795298816; lia).
  assert (Hlog : Z.log2 P < 84) by (apply Z.log2_lt_pow2; assumption).
  destruct (Z_le_gt_dec (Z.log2 P - 52) 0) as [Hs | Hs].
  - rewrite round53_small by lia. unfold P. change (2^52) with 4503599627370496.
    Z.to_euclidean_division_equations; lia.
  - destruct (round53_bounds P (Z.log2 P - 52) HP eq_refl ltac:(lia)) as (q & -> & Hq).
    set (s := Z.log2 P - 52) in *.
    assert (Hs31 : 0 < s <= 31) by lia.
    set (pw := 2 ^ s) in *.
    set (c := 2 ^ (52 - s)).
    assert (Hpw : 0 < pw) by (apply Z.pow_pos_nonneg; lia).
    assert (Hc : 0 < c) by (apply Z.pow_pos_nonneg; lia).
    assert (Hpw31 : pw <= 2147483648).
    { change 2147483648 with (2^31). apply Z.pow_le_mono_r; lia. }
    assert (HT : pw * c = 4503599627370496).
    { unfold pw, c. rewrite <- Z.pow_add_r by lia. replace (s + (52 - s)) with 52 by lia. reflexivity. }
    change (2^52) with 4503599627370496.
    set (Q0 := n * 4 / 5).
    assert (HQ0 : 5 * Q0 <= n * 4 < 5 * Q0 + 5) by (unfold Q0; Z.to_euclidean_division_equations; lia).
    assert (Hmd : pw * (P / pw) <= P) by (apply Z.mul_div_le; lia).
    assert (Hlow : Q0 * c <= P / pw).
    { apply Z.div_le_lower_bound; [lia|].
      replace (pw * (Q0 * c)) with (Q0 * (pw * c)) by ring. rewrite HT. unfold P. lia. }
    assert (Hup : q * pw <= P + pw) by nia.
    assert (Hlo : Q0 * 4503599627370496 <= q * pw).
    { rewrite <- HT. replace (Q0 * (pw * c)) with ((Q0 * c) * pw) by ring.
      apply Z.mul_le_mono_nonneg_r; lia. }
    symmetry. apply Z.div_unique with (r := q * pw - Q0 * 4503599627370496).
    + left. unfold P in Hup. lia.
    + ring.
Qed.

End BinaryFloor.

(** ** Lists, dictionaries, strings *)

Section Containers.

Import JsValue DataLoader.

Lemma NoDup_app_disjoint : forall (A : Type) (l1 l2 : list A) x,
  NoDup (l1 ++ l2) -> In x l1 -> ~ In x l2.
Proof.
  induction l1 as [|a l1 IH]; intros l2 x Hnd Hin Hin2; [destruct Hin|].
  simpl in Hnd. inversion Hnd as [|? ? Hna Hnd']; subst.
  destruct Hin as [->|Hin].
  - apply Hna. apply in_or_app. now right.
  - exact (IH l2 x Hnd' Hin Hin2).
Qed.

Lemma filter_all_false : forall (A : Type) (p : A -> bool) l,
  (forall x, In x l -> p x = false) -> filter p l = [].
Proof.
  induction l as [|a l IH]; intros H; simpl; auto.
  rewrite (H a) by now left. apply IH. intros; apply H; now right.
Qed.

Lemma concat_length_sum : forall (A : Type) (ls : list (list A)),
  List.length (List.concat ls) = list_sum (map (@List.length A) ls).
Proof.
  induction ls as [|l ls IH]; simpl; auto. rewrite length_app. now rewrite IH.
Qed.

Lemma filter_length_le : forall (A : Type) (p : A -> bool) l,
  (List.length (filter p l) <= List.length l)%nat.
Proof.
  induction l as [|a l IH]; simpl; auto. destruct (p a); simpl; lia.
Qed.

Lemma forallb_In : forall (A : Type) (p : A -> bool) l x,
  forallb p l = true -> In x l -> p x = true.
Proof. intros A p l x H. rewrite forallb_forall in H. auto. Qed.


Lemma filter_Forall : forall (A : Type) (p : A -> bool) l,
  Forall (fun x => p x = true) (filter p l).
Proof.
  intros. apply Forall_forall. intros x H. now apply filter_In in H.
Qed.

Lemma Forall_filter : forall (A : Type) (P : A -> Prop) (p : A -> bool) l,
  Forall P l -> Forall P (filter p l).
Proof.
  intros A P p l H. rewrite Forall_forall in *. intros x Hx.
  apply filter_In in Hx. now apply H.
Qed.

Lemma fold_map : forall (A B C : Type) (f : A -> C -> A) (g : B -> C) l a,
  fold_left f (map g l) a = fold_left (fun a b => f a (g b)) l a.
Proof.
  induction l as [|b l IH]; intros a; simpl; auto.
Qed.



Lemma dictGet_dictSet_same : forall (V : Type) (d : Dict V) k v,
  dictGet (dictSet d k v) k = Some v.
Proof.
  induction d as [|[k' v'] d IH]; intros k v; simpl.
  - now rewrite String.eqb_refl.
  - destruct (String.eqb k' k) eqn:E; simpl; rewrite E; auto.
Qed.

Lemma dictGet_dictSet_other : forall (V : Type) (d : Dict V) k k' v,
  k <> k' -> dictGet (dictSet d k v) k' = dictGet d k'.
Proof.
  induction d as [|[k0 v0] d IH]; intros k k' v Hne; simpl.
  - destruct (String.eqb_spec k k'); congruence.
  - destruct (String.eqb_spec k0 k) as [->|Hk]; simpl.
    + destruct (String.eqb_spec k k'); congruence.
    + destruct (String.eqb_spec k0 k'); auto.
Qed.

Lemma mapM_ok : forall (A B : Type) (f : A -> result B) (g : A -> B) l,
  (forall x, In x l -> f x = Ok (g x)) -> mapM f l = Ok (map g l).
Proof.
  induction l as [|a l IH]; intros H; simpl; auto.
  rewrite (H a) by now left. simpl. rewrite IH by (intros; apply H; now right).
  reflexivity.
Qed.

Lemma ltb_asym : forall a b, JsString.ltb a b = true -> JsString.ltb b a = false.
Proof.
  induction a as [|x a IH]; intros [|y b]; simpl; auto; try discriminate.
  destruct (Nat.ltb_spec (nat_of_ascii x) (nat_of_ascii y)) as [H|H].
  - intros _. destruct (Nat.ltb_spec (nat_of_ascii y) (nat_of_ascii x)); [lia|reflexivity].
  - destruct (Nat.ltb_spec (nat_of_ascii y) (nat_of_ascii x)) as [H'|H']; [discriminate|].
    apply IH.
Qed.

Lemma nat_of_ascii_inj : forall x y, nat_of_ascii x = nat_of_ascii y -> x = y.
Proof.
  intros x y H. rewrite <- (ascii_nat_embedding x), <- (ascii_nat_embedding y).
  now rewrite H.
Qed.

Lemma ltb_total : forall a b, JsString.ltb a b = false -> JsString.ltb b a = false -> a = b.
Proof.
  induction a as [|x a IH]; intros [|y b]; simpl; auto; try discriminate.
  destruct (Nat.ltb_spec (nat_of_ascii x) (nat_of_ascii y)) as [H|H]; [discriminate|].
  destruct (Nat.ltb_spec (nat_of_ascii y) (nat_of_ascii x)) as [H'|H']; [discriminate|].
  intros H1 H2. f_equal.
  - apply nat_of_ascii_inj. lia.
  - now apply IH.
Qed.

End Containers.

(** ** [sort] and [Set] *)

Section SortAndSet.

Import JsValue DataLoader.

Lemma sortInsert_length : forall x l, List.length (sortInsert x l) = S (List.length l).
Proof.
  induction l as [|y l IH]; simpl; auto.
  destruct (sortBefore y x); simpl; auto.
Qed.

Lemma sort_length : forall l, List.length (sort l) = List.length l.
Proof.
  induction l as [|x l IH]; simpl; auto.
  rewrite sortInsert_length. now rewrite IH.
Qed.

Lemma sortInsert_perm : forall x l, Permutation (x :: l) (sortInsert x l).
Proof.
  induction l as [|y l IH]; simpl; auto.
  destruct (sortBefore y x); auto.
  eapply perm_trans; [apply perm_swap|]. now apply perm_skip.
Qed.

Lemma sort_perm : forall l, Permutation l (sort l).
Proof.
  induction l as [|x l IH]; simpl; auto.
  eapply perm_trans; [apply perm_skip, IH|]. apply sortInsert_perm.
Qed.

Lemma sortBefore_asym : forall x y, sortBefore x y = true -> sortBefore y x = false.
Proof.
  intros x y H; destruct x, y; cbv [sortBefore] in *;
    try discriminate H; try reflexivity; now apply ltb_asym.
Qed.

Lemma sortInsert_sorted : forall x l, Sorted sortLe l -> Sorted sortLe (sortInsert x l).
Proof.
  induction l as [|y l IH]; intros Hs; simpl.
  - repeat constructor.
  - destruct (sortBefore y x) eqn:E.
    + inversion Hs as [|? ? Hs' Hhd]; subst. constructor; [now apply IH|].
      destruct l as [|z l]; simpl.
      * constructor. now apply sortBefore_asym.
      * destruct (sortBefore z x); constructor.
        -- now inversion Hhd.
        -- now apply sortBefore_asym.
    + constructor; [assumption|]. constructor. exact E.
Qed.

Lemma sort_sorted : forall l, Sorted sortLe (sort l).
Proof.
  induction l as [|x l IH]; simpl; [constructor|]. now apply sortInsert_sorted.
Qed.

Lemma sorted_text_strict : forall l,
  Sorted sortLe l -> NoDup l -> Forall isText l -> Sorted textBefore l.
Proof.
  induction l as [|a l IH]; intros Hs Hnd Ht; [constructor|].
  inversion Hs as [|? ? Hs' Hhd]; subst.
  inversion Hnd as [|? ? Hna Hnd']; subst.
  inversion Ht as [|? ? Hta Htl]; subst.
  constructor; [now apply IH|].
  destruct l as [|b l]; constructor.
  inversion Hhd as [|? ? Hab]; subst.
  inversion Htl as [|? ? Htb _]; subst.
  destruct a as [| | |s]; try contradiction. destruct b as [| | |t]; try contradiction.
  cbv [textBefore]. unfold sortLe in Hab. cbv [sortBefore ToString] in Hab.
  destruct (JsString.ltb s t) eqn:E; [reflexivity|].
  exfalso. apply Hna. left. f_equal. symmetry. now apply ltb_total.
Qed.

Lemma sameValueZero_canonical : forall v, sameValueZero v (canonical v) = true.
Proof.
  intros [| |x|s]; try reflexivity.
  - unfold canonical. destruct (is_zero x) eqn:E; unfold sameValueZero.
    + unfold is_zero in E. now rewrite E.
    + unfold is_nan. now destruct (PrimFloat.eqb x x).
  - simpl. apply String.eqb_refl.
Qed.

Lemma setAdd_incl_length : forall s v, List.length s <= List.length (setAdd s v).
Proof.
  intros s v. unfold setAdd. destruct (existsb _ s); [lia|].
  rewrite length_app. lia.
Qed.

Lemma fold_setAdd_length : forall l s, List.length s <= List.length (fold_left setAdd l s).
Proof.
  induction l as [|v l IH]; intros s; simpl; [lia|].
  eapply Nat.le_trans; [apply setAdd_incl_length|apply IH].
Qed.

Lemma setOf_nonempty : forall l, l <> [] -> setOf l <> [].
Proof.
  intros [|v l] H; [congruence|]. unfold setOf.
  change (fold_left setAdd (v :: l) []) with (fold_left setAdd l [canonical v]).
  pose proof (fold_setAdd_length l [canonical v]) as Hl.
  intros E. rewrite E in Hl. simpl in Hl. lia.
Qed.

Lemma setAdd_NoDup : forall s v, NoDup s -> NoDup (setAdd s v).
Proof.
  intros s v H. unfold setAdd. destruct (existsb (sameValueZero v) s) eqn:E; [assumption|].
  apply NoDup_app; [assumption|repeat constructor; auto|].
  intros a Ha [<-|[]].
  assert (existsb (sameValueZero v) s = true); [|congruence].
  apply existsb_exists. exists (canonical v). split; [assumption|apply sameValueZero_canonical].
Qed.

Lemma fold_setAdd_NoDup : forall l s, NoDup s -> NoDup (fold_left setAdd l s).
Proof.
  induction l as [|v l IH]; intros s H; simpl; auto using setAdd_NoDup.
Qed.

Lemma setOf_NoDup : forall l, NoDup (setOf l).
Proof. intros. apply fold_setAdd_NoDup. constructor. Qed.

Lemma setAdd_covers : forall s v, existsb (sameValueZero v) (setAdd s v) = true.
Proof.
  intros s v. unfold setAdd. destruct (existsb (sameValueZero v) s) eqn:E; [assumption|].
  rewrite existsb_app. simpl. rewrite sameValueZero_canonical. now rewrite orb_true_r.
Qed.

Lemma setAdd_keeps : forall s v w, existsb (sameValueZero w) s = true ->
  existsb (sameValueZero w) (setAdd s v) = true.
Proof.
  intros s v w H. unfold setAdd. destruct (existsb (sameValueZero v) s); [assumption|].
  rewrite existsb_app, H. reflexivity.
Qed.

Lemma fold_setAdd_keeps : forall l s w, existsb (sameValueZero w) s = true ->
  existsb (sameValueZero w) (fold_left setAdd l s) = true.
Proof.
  induction l as [|v l IH]; intros s w H; simpl; auto using setAdd_keeps.
Qed.

Lemma fold_setAdd_covers : forall l s w, In w l ->
  existsb (sameValueZero w) (fold_left setAdd l s) = true.
Proof.
  induction l as [|v l IH]; intros s w H; [destruct H|].
  destruct H as [->|H]; simpl.
  - apply fold_setAdd_keeps, setAdd_covers.
  - now apply IH.
Qed.

Lemma fold_setAdd_from : forall l s c, In c (fold_left setAdd l s) ->
  In c s \/ exists v, In v l /\ c = canonical v.
Proof.
  induction l as [|v l IH]; intros s c H; simpl in *; auto.
  apply IH in H. destruct H as [H|(w & Hw & ->)].
  - unfold setAdd in H. destruct (existsb _ s); auto.
    apply in_app_or in H. destruct H as [H|[<-|[]]]; eauto.
  - eauto.
Qed.

Lemma setOf_from : forall l c, In c (setOf l) -> exists v, In v l /\ c = canonical v.
Proof.
  intros l c H. apply fold_setAdd_from in H. destruct H as [[]|H]; assumption.
Qed.

Lemma canonical_text : forall v, isText v -> canonical v = v.
Proof. intros [| | |s] H; try contradiction; reflexivity. Qed.

Lemma strictEquals_sameValueZero : forall a b,
  strictEquals a b = true -> sameValueZero a b = true.
Proof.
  intros a b H. destruct a, b; try discriminate H; try exact H.
  unfold sameValueZero. cbn [strictEquals] in H. now rewrite H.
Qed.

End SortAndSet.

(** ** [shuffleIndices] *)

Section Shuffle.

Import DataLoader.

Lemma setNth_length : forall l i v, List.length (setNth l i v) = List.length l.
Proof.
  induction l as [|x l IH]; intros [|i] v; simpl; auto.
Qed.

Lemma nth_setNth_same : forall l i v, i < List.length l -> nth i (setNth l i v) 0 = v.
Proof.
  induction l as [|x l IH]; intros [|i] v H; simpl in *; try lia; auto.
  apply IH; lia.
Qed.

Lemma nth_setNth_other : forall l i j v, i <> j -> nth j (setNth l i v) 0 = nth j l 0.
Proof.
  induction l as [|x l IH]; intros [|i] [|j] v H; simpl; auto; try lia.
Qed.

Lemma setNth_perm : forall l i v, i < List.length l ->
  Permutation (v :: l) (nth i l 0 :: setNth l i v).
Proof.
  induction l as [|x l IH]; intros [|i] v H; simpl in *; try lia.
  - apply perm_swap.
  - apply perm_trans with (x :: v :: l); [apply perm_swap|].
    apply perm_trans with (x :: nth i l 0 :: setNth l i v); [|apply perm_swap].
    apply perm_skip, IH. lia.
Qed.

Lemma swap_length : forall l i j, List.length (swap l i j) = List.length l.
Proof. intros. unfold swap. now rewrite !setNth_length. Qed.

Lemma swap_perm : forall l i j, i < List.length l -> j < List.length l ->
  Permutation (swap l i j) l.
Proof.
  intros l i j Hi Hj. unfold swap.
  set (a := nth i l 0). set (b := nth j l 0).
  apply Permutation_cons_inv with (a := b). symmetry.
  eapply perm_trans; [apply (setNth_perm l i b Hi)|]. fold a.
  assert (Hb : nth j (setNth l i b) 0 = b).
  { destruct (Nat.eq_dec i j) as [->|Hne].
    - now apply nth_setNth_same.
    - now rewrite nth_setNth_other. }
  rewrite <- Hb at 2.
  apply setNth_perm. now rewrite setNth_length.
Qed.

Lemma shuffleLoop_perm : forall rng i k l, i < List.length l ->
  Permutation (shuffleLoop rng k i l) l.
Proof.
  induction i as [|i IH]; intros k l Hi; simpl.
  - reflexivity.
  - eapply perm_trans.
    + apply IH. rewrite swap_length. lia.
    + apply swap_perm; [assumption|].
      pose proof (Nat.mod_upper_bound (rng k) (S i + 1)). lia.
Qed.

Lemma shuffleIndices_perm : forall rng n, Permutation (shuffleIndices rng n) (seq 0 n).
Proof.
  intros rng [|n]; unfold shuffleIndices.
  - reflexivity.
  - apply shuffleLoop_perm. rewrite length_seq. lia.
Qed.

Lemma shuffleIndices_length : forall rng n, List.length (shuffleIndices rng n) = n.
Proof.
  intros. rewrite (Permutation_length (shuffleIndices_perm rng n)). apply length_seq.
Qed.

Lemma pick_length : forall (A : Type) (array : list A) d indices,
  List.length (pick array d indices) = List.length indices.
Proof. intros. unfold pick. apply length_map. Qed.

Lemma nth_swap : forall l i j p,
  i < List.length l -> j < List.length l ->
  nth p (swap l i j) 0 = exchanged (fun q => nth q l 0) i j p.
Proof.
  intros l i j p Hi Hj. unfold swap, exchanged.
  destruct (Nat.eqb_spec p i) as [->|Ni].
  - destruct (Nat.eq_dec i j) as [->|N].
    + rewrite nth_setNth_same; [reflexivity|now rewrite setNth_length].
    + rewrite nth_setNth_other by congruence. now rewrite nth_setNth_same.
  - destruct (Nat.eqb_spec p j) as [->|Nj].
    + rewrite nth_setNth_same; [reflexivity|now rewrite setNth_length].
    + rewrite nth_setNth_other by congruence.
      now rewrite nth_setNth_other by congruence.
Qed.

Lemma fisherYates_ext : forall drawn n i f g,
  i < n -> (forall i', i' <= i -> drawn i' <= i') ->
  (forall q, q < n -> f q = g q) ->
  forall p, p < n -> fisherYates drawn i f p = fisherYates drawn i g p.
Proof.
  induction i as [|i IH]; intros f g Hi Hd Hfg p Hp; cbn [fisherYates].
  - now apply Hfg.
  - apply IH; [lia|intros; apply Hd; lia| |assumption].
    intros q Hq. unfold exchanged. pose proof (Hd (S i) (le_n _)).
    destruct (Nat.eqb q (S i)); [apply Hfg; lia|].
    destruct (Nat.eqb q (drawn (S i))); apply Hfg; lia.
Qed.

Lemma shuffleLoop_fisherYates : forall rng n i k l,
  List.length l = n -> i < n -> k + i = n - 1 ->
  forall p, p < n ->
    nth p (shuffleLoop rng k i l) 0
    = fisherYates (drawnFor rng n) i (fun q => nth q l 0) p.
Proof.
  induction i as [|i IH]; intros k l Hl Hi Hk p Hp; cbn [shuffleLoop fisherYates].
  - reflexivity.
  - assert (Hj : Nat.modulo (rng k) (S i + 1) <= S i).
    { pose proof (Nat.mod_upper_bound (rng k) (S i + 1)). lia. }
    rewrite (IH (S k) (swap l (S i) (Nat.modulo (rng k) (S i + 1))));
      [|now rewrite swap_length|lia|lia|assumption].
    apply fisherYates_ext with (n := n); [lia| | |assumption].
    + intros i' _. unfold drawnFor.
      pose proof (Nat.mod_upper_bound (rng (n - 1 - i')) (i' + 1)). lia.
    + intros q Hq. rewrite nth_swap by lia.
      unfold drawnFor. replace (n - 1 - S i) with k by lia. reflexivity.
Qed.

Lemma shuffleIndices_fisherYates : forall rng n p,
  p < n ->
  nth p (shuffleIndices rng n) 0
  = fisherYates (drawnFor rng n) (n - 1) (fun q => q) p.
Proof.
  intros rng n p Hp. unfold shuffleIndices.
  rewrite (shuffleLoop_fisherYates rng n) by (rewrite ?length_seq; lia).
  apply fisherYates_ext with (n := n); [lia| | |assumption].
  - intros i' _. unfold drawnFor.
    pose proof (Nat.mod_upper_bound (rng (n - 1 - i')) (i' + 1)). lia.
  - intros q Hq. now rewrite seq_nth.
Qed.

Lemma nth_error_pick : forall (A : Type) (array : list A) d indices p i x,
  nth_error indices p = Some i ->
  nth_error array i = Some x ->
  nth_error (pick array d indices) p = Some x.
Proof.
  intros A array d indices p i x Hp Hi. unfold pick.
  rewrite nth_error_map, Hp. cbn [option_map]. f_equal.
  now apply nth_error_nth.
Qed.

End Shuffle.

(** ** The feature pipeline *)

Section Pipeline.

Import JsValue DataLoader.

(** *** Fitting and transforming *)

Lemma uniqueValues_nonempty : forall rows f, rows <> [] ->
  Nat.eqb (List.length (uniqueValues rows f)) 0 = false.
Proof.
  intros rows f H. unfold uniqueValues. rewrite sort_length.
  apply Nat.eqb_neq. intros E. apply length_zero_iff_nil in E.
  apply setOf_nonempty in E; [assumption|].
  unfold column. destruct rows; [congruence|discriminate].
Qed.

Lemma uniqueValues_text : forall rows f,
  Forall isText (column rows f) -> Forall isText (uniqueValues rows f).
Proof.
  intros rows f H. apply Forall_forall. intros c Hc.
  unfold uniqueValues in Hc.
  apply (Permutation_in _ (Permutation_sym (sort_perm _))) in Hc.
  apply setOf_from in Hc. destruct Hc as (v & Hv & ->).
  rewrite Forall_forall in H. specialize (H v Hv).
  now rewrite canonical_text.
Qed.

Lemma fitStatistics_eq : forall rows,
  fitStatistics rows = map (fun f => (f, fitStats rows f)) numericalFeatures.
Proof. reflexivity. Qed.

Lemma fitStatistics_defined : forall rows f, In f numericalFeatures ->
  dictGet (fitStatistics rows) f = Some (fitStats rows f).
Proof.
  intros rows f H. rewrite fitStatistics_eq. unfold numericalFeatures in *.
  simpl in H. repeat (destruct H as [<-|H]; [reflexivity|]). destruct H.
Qed.

Lemma fitVocabulary_nonempty : forall rows, rows <> [] ->
  fitVocabulary rows categoricalFeatures [] = (Ok tt, fittedVocabulary rows).
Proof.
  intros rows H. unfold categoricalFeatures, fittedVocabulary, fitVocabulary.
  rewrite !uniqueValues_nonempty by assumption. reflexivity.
Qed.

Lemma fittedVocabulary_defined : forall rows f, In f categoricalFeatures ->
  dictGet (fittedVocabulary rows) f = Some (uniqueValues rows f).
Proof.
  intros rows f H. unfold fittedVocabulary, categoricalFeatures in *.
  simpl in H. repeat (destruct H as [<-|H]; [reflexivity|]). destruct H.
Qed.

Lemma transformFeatures_fitted : forall this row nums cats stats mappings,
  featureStats this = Some stats ->
  categoricalMappings this = Some mappings ->
  (forall f, In f nums -> dictGet stats f <> None) ->
  (forall f, In f cats -> dictGet mappings f <> None) ->
  transformFeatures this row nums cats = Ok (featureVector stats mappings nums cats row).
Proof.
  intros this row nums cats stats mappings Hs Hm Hn Hc.
  unfold transformFeatures, featureVector.
  rewrite (mapM_ok _ _ (normalize this row)
             (fun f => normalized (statsOf stats f) (get row f))).
  2:{ intros f Hf. unfold normalize, statsOf. rewrite Hs.
      specialize (Hn f Hf). destruct (dictGet stats f); [reflexivity|congruence]. }
  simpl.
  rewrite (mapM_ok _ _ (oneHot this row)
             (fun f => oneHotBlock (vocabularyOf mappings f) (get row f))).
  2:{ intros f Hf. unfold oneHot, vocabularyOf. rewrite Hm.
      specialize (Hc f Hf). destruct (dictGet mappings f); [reflexivity|congruence]. }
  reflexivity.
Qed.

Lemma featureVector_length : forall stats mappings nums cats row,
  List.length (featureVector stats mappings nums cats row)
  = (List.length nums
     + list_sum (map (fun f => List.length (vocabularyOf mappings f)) cats))%nat.
Proof.
  intros. unfold featureVector. rewrite length_app, length_map, concat_length_sum.
  f_equal. rewrite map_map. f_equal. apply map_ext. intros f.
  unfold oneHotBlock. apply length_map.
Qed.

Lemma oneHotBlock_unseen : forall categories v,
  existsb (sameValueZero v) categories = false ->
  oneHotBlock categories v = repeat zero (List.length categories).
Proof.
  induction categories as [|c cs IH]; intros v H; simpl in *; auto.
  apply orb_false_iff in H. destruct H as [Hc Hcs].
  destruct (strictEquals v c) eqn:E.
  - apply strictEquals_sameValueZero in E. congruence.
  - f_equal. now apply IH.
Qed.

(** *** What [preprocessData] does *)

Lemma preprocessTry_eq : forall rng this raw,
  missingColumns (hd [] raw) = [] ->
  filter keepRow raw <> [] ->
  preprocessTry rng this raw =
    let rows := filter keepRow raw in
    let mappings := fittedVocabulary rows in
    let stats := fitStatistics rows in
    let this2 := withStats (withMappings this mappings) stats in
    let transformed :=
      map (featureVector stats mappings numericalFeatures categoricalFeatures) rows in
    let n := List.length rows in
    if Nat.ltb (splitIndex n) 1 || Nat.ltb (n - splitIndex n) 1 then
      (Throw tooSmall, this2)
    else (Ok (splitOf rng rows transformed),
          withProcessed this2 (splitOf rng rows transformed)).
Proof.
  intros rng this raw Hmiss Hrows. unfold preprocessTry.
  rewrite Hmiss. cbv zeta.
  change (Nat.ltb 0 (List.length (@nil string))) with false. cbv iota.
  set (rows := filter keepRow raw) in *.
  destruct (Nat.eqb (List.length rows) 0) eqn:E.
  { apply Nat.eqb_eq, length_zero_iff_nil in E. contradiction. }
  rewrite fitVocabulary_nonempty by assumption.
  set (mappings := fittedVocabulary rows).
  set (stats := fitStatistics rows).
  set (this2 := withStats (withMappings this mappings) stats).
  rewrite (mapM_ok _ _ _ (featureVector stats mappings numericalFeatures categoricalFeatures)).
  2:{ intros row _. apply transformFeatures_fitted; try reflexivity.
      - intros f Hf. unfold stats. now rewrite fitStatistics_defined.
      - intros f Hf. unfold mappings. now rewrite fittedVocabulary_defined. }
  set (transformed := map _ rows).
  rewrite filter_all_false.
  2:{ intros v Hv. unfold transformed in *. apply in_map_iff in Hv.
      destruct Hv as (row & <- & _).
      destruct rows as [|r0 rows']; [contradiction|]. simpl hd.
      rewrite !featureVector_length. now rewrite Nat.eqb_refl. }
  change (Nat.ltb 0 (List.length (@nil (list float)))) with false. cbv iota.
  reflexivity.
Qed.

Lemma preprocessTry_outcome : forall rng this raw,
  outcome rng this raw (preprocessTry rng this raw).
Proof.
  intros rng this raw.
  destruct (missingColumns (hd [] raw)) as [|c cs] eqn:Hm.
  - destruct (filter keepRow raw) as [|r rs] eqn:Hr.
    + unfold preprocessTry. rewrite Hm, Hr. simpl.
      now apply NoValidSamples.
    + assert (Hne : filter keepRow raw <> []) by (rewrite Hr; discriminate).
      rewrite (preprocessTry_eq rng this raw Hm Hne). cbv zeta.
      destruct (_ || _) eqn:E.
      * now apply TooSmall.
      * now apply Split.
  - unfold preprocessTry. rewrite Hm.
    change (Nat.ltb 0 (List.length (c :: cs))) with true. cbv iota.
    rewrite <- Hm. apply MissingColumns. rewrite Hm. discriminate.
Qed.

Lemma preprocessData_Ok_inv : forall rng this data this',
  preprocessData rng this = (Ok data, this') ->
  exists raw,
    rawData this = Some raw
    /\ missingColumns (hd [] raw) = []
    /\ filter keepRow raw <> []
    /\ splitCheck (List.length (filter keepRow raw)) = false
    /\ data = splitOf rng (filter keepRow raw) (transformedRows (filter keepRow raw))
    /\ this' = withProcessed (fittedLoader this (filter keepRow raw)) data.
Proof.
  intros rng this data this' H. unfold preprocessData in H.
  destruct (rawData this) as [raw|]; [|discriminate].
  destruct (Nat.eqb (List.length raw) 0); [discriminate|].
  pose proof (preprocessTry_outcome rng this raw) as O.
  destruct (preprocessTry rng this raw) as [r0 t0].
  inversion O; subst; cbn [rethrow] in H; try discriminate.
  inversion H; subst. exists raw. repeat split; auto.
Qed.

Lemma preprocessData_state : forall rng this raw,
  rawData this = Some raw ->
  missingColumns (hd [] raw) = [] ->
  filter keepRow raw <> [] ->
  featureStats (snd (preprocessData rng this)) = Some (fitStatistics (filter keepRow raw))
  /\ categoricalMappings (snd (preprocessData rng this))
     = Some (fittedVocabulary (filter keepRow raw)).
Proof.
  intros rng this raw Hraw Hm Hr. unfold preprocessData. rewrite Hraw.
  destruct (Nat.eqb (List.length raw) 0) eqn:E0.
  { apply Nat.eqb_eq, length_zero_iff_nil in E0. subst raw. now contradiction Hr. }
  pose proof (preprocessTry_outcome rng this raw) as O.
  destruct (preprocessTry rng this raw) as [r0 t0].
  inversion O; subst; try contradiction; cbn [snd]; split; reflexivity.
Qed.

Lemma preprocessData_not_emptyVocabulary : forall rng this f,
  fst (preprocessData rng this)
  <> Throw (Error ("Data preprocessing failed: " ++ message (emptyVocabulary f))).
Proof.
  intros rng this f. unfold preprocessData.
  destruct (rawData this) as [raw|]; [|discriminate].
  destruct (Nat.eqb (List.length raw) 0); [discriminate|].
  pose proof (preprocessTry_outcome rng this raw) as O.
  destruct (preprocessTry rng this raw) as [r0 t0].
  inversion O; subst; cbn [fst rethrow message emptyVocabulary tooSmall]; simpl; discriminate.
Qed.

(** *** The split *)

Lemma splitIndex_exact : forall n, (Z.of_nat n < 2 ^ 32)%Z -> splitIndex n = (n * 4 / 5)%nat.
Proof.
  intros n H. unfold splitIndex. rewrite floor_mul_0_8_exact by lia.
  rewrite <- (Nat2Z.id (n * 4 / 5)). f_equal.
  rewrite Nat2Z.inj_div, Nat2Z.inj_mul. reflexivity.
Qed.

Lemma split_check_iff : forall n, (Z.of_nat n < 2 ^ 32)%Z ->
  Nat.ltb (splitIndex n) 1 || Nat.ltb (n - splitIndex n) 1 = true <-> (n < 2)%nat.
Proof.
  intros n H. rewrite splitIndex_exact by assumption.
  rewrite orb_true_iff, !Nat.ltb_lt.
  pose proof (Nat.div_mod_eq (n * 4) 5) as E.
  pose proof (Nat.mod_upper_bound (n * 4) 5 ltac:(lia)) as B.
  lia.
Qed.

Lemma splitOf_train_length : forall rng rows transformed,
  (splitIndex (List.length rows) <= List.length rows)%nat ->
  List.length (features (train (splitOf rng rows transformed)))
  = splitIndex (List.length rows).
Proof.
  intros. unfold splitOf. cbn [train features]. rewrite pick_length, length_firstn.
  rewrite shuffleIndices_length. lia.
Qed.

Lemma splitOf_test_length : forall rng rows transformed,
  List.length (features (test (splitOf rng rows transformed)))
  = (List.length rows - splitIndex (List.length rows))%nat.
Proof.
  intros. unfold splitOf. cbn [test features]. rewrite pick_length, length_skipn.
  now rewrite shuffleIndices_length.
Qed.

Lemma pick_groupOf : forall rows indices,
  (forall i, In i indices -> (i < List.length rows)%nat) ->
  groupOf rows indices
    (mkSamples (pick (transformedRows rows) [] indices)
               (pick (column rows targetColumn) JUndefined indices)).
Proof.
  intros rows indices Hin. unfold groupOf. cbn [features targets].
  rewrite !pick_length. split; [reflexivity|]. split; [reflexivity|].
  intros p i Hp.
  assert (Hi : (i < List.length rows)%nat) by (apply Hin; eapply nth_error_In; eassumption).
  destruct (nth_error rows i) as [row|] eqn:Hrow;
    [|apply nth_error_None in Hrow; lia].
  exists row. split; [reflexivity|]. split.
  - apply nth_error_pick with (i := i); [assumption|].
    unfold transformedRows. rewrite nth_error_map, Hrow. reflexivity.
  - apply nth_error_pick with (i := i); [assumption|].
    unfold column. rewrite nth_error_map, Hrow. reflexivity.
Qed.

(** C1: when [preprocessData] succeeds, the indices of the valid rows are
    shuffled into a permutation of [0 .. n-1] by Fisher-Yates: from the
    identity, for [i] from [n - 1] down to [1], the entries at [i] and at a
    position drawn between [0] and [i] change places.  The train group is
    made of the rows at the first [floor(n * 0.8)] indices of the
    permutation and the test group of the rows at the remaining ones, each
    with its feature vector and its target; the two groups of indices are
    disjoint, together they are exactly the indices below [n], and their
    sizes add up to [n]. *)
Theorem split_partitions_valid_rows :
  forall (rng : nat -> nat) (this this' : DataLoader.t) (data : ProcessedData),
    preprocessData rng this = (Ok data, this') ->
    exists raw,
      rawData this = Some raw /\
      let rows := filter keepRow raw in
      let n := List.length rows in
      let permutation := shuffleIndices rng n in
      let trainIndices := firstn (splitIndex n) permutation in
      let testIndices := skipn (splitIndex n) permutation in
      Permutation permutation (seq 0 n)
      /\ features (train data) = pick (transformedRows rows) [] trainIndices
      /\ targets (train data) = pick (column rows targetColumn) JUndefined trainIndices
      /\ features (test data) = pick (transformedRows rows) [] testIndices
      /\ targets (test data) = pick (column rows targetColumn) JUndefined testIndices
      /\ (forall i, In i trainIndices -> ~ In i testIndices)
      /\ (forall i, In i trainIndices \/ In i testIndices <-> (i < n)%nat)
      /\ NoDup trainIndices
      /\ NoDup testIndices
      /\ (List.length trainIndices + List.length testIndices = n)%nat
      /\ List.length trainIndices = splitIndex n
      /\ ((Z.of_nat n < 2 ^ 32)%Z -> splitIndex n = (n * 4 / 5)%nat)
      (* the permutation is the one of Fisher-Yates for the draws *)
      /\ (forall i, (drawnFor rng n i <= i)%nat)
      /\ (forall p, (p < n)%nat ->
            nth p permutation 0%nat
            = fisherYates (drawnFor rng n) (n - 1) (fun q => q) p)
      (* the groups hold the rows at their indices *)
      /\ groupOf rows trainIndices (train data)
      /\ groupOf rows testIndices (test data).
Proof.
  intros rng this this' data H.
  apply preprocessData_Ok_inv in H.
  destruct H as (raw & Hraw & _ & _ & Hchk & -> & _).
  exists raw. split; [assumption|]. cbv zeta.
  set (rows := filter keepRow raw) in *.
  set (n := List.length rows) in *.
  pose proof (shuffleIndices_perm rng n) as Hperm.
  pose proof (shuffleIndices_fisherYates rng n) as Hfy.
  set (p := shuffleIndices rng n) in *.
  assert (Hnd : NoDup p).
  { apply (Permutation_NoDup (Permutation_sym Hperm)), seq_NoDup. }
  assert (Hlen : List.length p = n).
  { rewrite (Permutation_length Hperm). apply length_seq. }
  unfold splitCheck in Hchk. apply orb_false_iff in Hchk.
  destruct Hchk as [Hk1 Hk2]. apply Nat.ltb_ge in Hk1, Hk2.
  pose proof (firstn_skipn (splitIndex n) p) as Hcat.
  assert (Hin : forall i, In i p -> (i < n)%nat).
  { intros i Hi. apply (Permutation_in _ Hperm) in Hi. apply in_seq in Hi. lia. }
  assert (Htrain : groupOf rows (firstn (splitIndex n) p)
                     (train (splitOf rng rows (transformedRows rows)))).
  { apply pick_groupOf. intros i Hi. apply Hin. rewrite <- Hcat.
    apply in_or_app. now left. }
  assert (Htest : groupOf rows (skipn (splitIndex n) p)
                    (test (splitOf rng rows (transformedRows rows)))).
  { apply pick_groupOf. intros i Hi. apply Hin. rewrite <- Hcat.
    apply in_or_app. now right. }
  assert (Hdrawn : forall i, (drawnFor rng n i <= i)%nat).
  { intros i. unfold drawnFor.
    pose proof (Nat.mod_upper_bound (rng (n - 1 - i)) (i + 1)). lia. }
  repeat match goal with |- _ /\ _ => split end; try reflexivity;
    try assumption.
  - intros i. apply NoDup_app_disjoint. now rewrite Hcat.
  - intros i. split.
    + intros Hi. apply Hin. rewrite <- Hcat. apply in_or_app. assumption.
    + intros Hi. apply in_app_or. rewrite Hcat.
      apply (Permutation_in _ (Permutation_sym Hperm)). apply in_seq. lia.
  - apply NoDup_app_remove_r with (l' := skipn (splitIndex n) p). now rewrite Hcat.
  - apply NoDup_app_remove_l with (l := firstn (splitIndex n) p). now rewrite Hcat.
  - rewrite <- length_app, Hcat. assumption.
  - rewrite length_firstn, Hlen. lia.
  - apply splitIndex_exact.
Qed.

(** C5, amended: [preprocessData] fails with the "dataset too small"
    error exactly when the train group or the test group would be empty
    under the [floor(n * 0.8)] cut, which is exactly when there is a single
    valid row (no valid row at all is reported before, as an empty data
    set); with two valid rows or more the check passes and both groups are
    non-empty. *)
Theorem split_fails_iff_single_valid_row :
  forall (rng : nat -> nat) (this : DataLoader.t) (raw : list Obj),
    rawData this = Some raw ->
    missingColumns (hd [] raw) = [] ->
    (Z.of_nat (List.length raw) < 2 ^ 32)%Z ->
    let n := List.length (filter keepRow raw) in
    let r := fst (preprocessData rng this) in
    (r = Throw insufficientData
     <-> (1 <= n /\ (splitIndex n < 1 \/ n - splitIndex n < 1))%nat)
    /\ (r = Throw insufficientData <-> n = 1%nat)
    /\ ((2 <= n)%nat ->
        exists data, r = Ok data
                     /\ features (train data) <> []
                     /\ features (test data) <> []).
Proof.
  intros rng this raw Hraw Hmiss Hlen n r.
  assert (Hn : (Z.of_nat n < 2 ^ 32)%Z).
  { pose proof (filter_length_le _ keepRow raw). unfold n. lia. }
  pose proof (split_check_iff n Hn) as Hchk. fold (splitCheck n) in Hchk.
  assert (Hor : (splitIndex n < 1 \/ n - splitIndex n < 1)%nat <-> (n < 2)%nat).
  { rewrite <- Hchk. unfold splitCheck. rewrite orb_true_iff, !Nat.ltb_lt. reflexivity. }
  unfold r, preprocessData. rewrite Hraw.
  destruct (Nat.eqb (List.length raw) 0) eqn:E0.
  - apply Nat.eqb_eq, length_zero_iff_nil in E0. subst raw.
    simpl in n. subst n. simpl.
    repeat split; try discriminate; intros; lia.
  - pose proof (preprocessTry_outcome rng this raw) as O.
    destruct (preprocessTry rng this raw) as [r0 t0].
    inversion O as [Hm|Hm Hr|Hm Hr Hc|Hm Hr Hc]; subst; cbn [fst rethrow].
    + contradiction.
    + assert (n = 0%nat) by (unfold n; now rewrite Hr).
      repeat split; try discriminate; intros; lia.
    + fold n in Hc. apply Hchk in Hc.
      assert (n <> 0%nat).
      { unfold n. intros Z0. apply length_zero_iff_nil in Z0. contradiction. }
      repeat split; try reflexivity; intros; try lia.
    + fold n in Hc.
      assert (~ (n < 2)%nat) by (intros L; apply Hchk in L; congruence).
      repeat split; try discriminate; intros; try lia.
      eexists; split; [reflexivity|].
      unfold splitCheck in Hc. apply orb_false_iff in Hc. destruct Hc as [Hc1 Hc2].
      apply Nat.ltb_ge in Hc1, Hc2.
      split; intros Z0; apply (f_equal (@List.length _)) in Z0.
      * rewrite splitOf_train_length in Z0 by (fold n; lia). fold n in Z0. simpl in Z0. lia.
      * rewrite splitOf_test_length in Z0. fold n in Z0. simpl in Z0. lia.
Qed.

(** *** Statistics *)

Lemma coerceCell_coerced : forall s, coerced (coerceCell s).
Proof.
  intros s. unfold coerceCell. destruct (isNaN (JStr s)) eqn:E; cbv [coerced]; auto.
Qed.

Lemma dictSet_coerced : forall (row : Obj) k v,
  rowCoerced row -> coerced v -> rowCoerced (dictSet row k v).
Proof.
  induction row as [|[k' v'] row IH]; intros k v Hr Hv; simpl.
  - repeat constructor. exact Hv.
  - inversion Hr; subst. destruct (String.eqb k' k); constructor; auto.
    now apply IH.
Qed.

Lemma buildRow_coerced : forall headers values, rowCoerced (buildRow headers values).
Proof.
  intros headers values. unfold buildRow.
  assert (G : forall l acc, rowCoerced acc ->
            rowCoerced (fold_left (fun row (hv : string * string) =>
                          if String.eqb (fst hv) "__proto__" then row
                          else dictSet row (fst hv) (coerceCell (snd hv))) l acc)).
  { induction l as [|hv l IH]; intros acc Hacc; simpl; auto.
    apply IH. destruct (String.eqb (fst hv) "__proto__"); [assumption|].
    apply dictSet_coerced; [assumption|apply coerceCell_coerced]. }
  apply G. constructor.
Qed.

Lemma parseLines_coerced : forall headers lines, Forall rowCoerced (parseLines headers lines).
Proof.
  induction lines as [|line lines IH]; simpl; [constructor|].
  unfold parseLine. destruct (Nat.eqb _ _); [constructor|]; auto using buildRow_coerced.
Qed.

Lemma parseCSV_coerced : forall csvText raw, parseCSV csvText = Ok raw -> Forall rowCoerced raw.
Proof.
  intros csvText raw H. unfold parseCSV in H.
  destruct (Nat.ltb _ 2); cbn [rethrow] in H; [discriminate|].
  inversion H; subst. apply parseLines_coerced.
Qed.

Lemma get_coerced : forall row k, rowCoerced row ->
  get row k = JUndefined \/ coerced (get row k).
Proof.
  intros row k H. unfold get. induction H as [|[k' v] row Hv Hr IH]; simpl; auto.
  destruct (String.eqb k' k); auto.
Qed.

Lemma keepRow_number : forall row f,
  rowCoerced row -> keepRow row = true -> In f numericalFeatures ->
  exists x, get row f = JNum x /\ is_nan x = false.
Proof.
  intros row f Hc Hk Hf. unfold keepRow in Hk.
  destruct (negb (present (get row targetColumn))); [discriminate|].
  unfold hasAllFeatures in Hk. apply andb_true_iff in Hk. destruct Hk as [Hn _].
  pose proof (forallb_In _ _ _ f Hn Hf) as Hx. cbv beta in Hx.
  apply andb_true_iff in Hx. destruct Hx as [Hp Hnan].
  destruct (get_coerced row f Hc) as [E|E].
  - rewrite E in Hp. discriminate.
  - destruct (get row f) as [| |x|s]; cbv [coerced] in E; try contradiction.
    + exists x. split; [reflexivity|]. unfold isNaN in Hnan. cbn [ToNumber] in Hnan.
      now destruct (is_nan x).
    + rewrite E in Hnan. discriminate.
Qed.

Lemma column_numbers : forall rows f,
  Forall rowCoerced rows -> Forall (fun r => keepRow r = true) rows ->
  In f numericalFeatures ->
  column rows f = map JNum (numbers rows f).
Proof.
  intros rows f Hc Hk Hf. unfold column, numbers. rewrite map_map.
  apply map_ext_in. intros row Hin.
  rewrite Forall_forall in Hc, Hk.
  destruct (keepRow_number row f (Hc row Hin) (Hk row Hin) Hf) as (x & E & _).
  now rewrite E.
Qed.

Lemma fold_add_numbers : forall xs acc,
  fold_left add (map JNum xs) (JNum acc) = JNum (fold_left PrimFloat.add xs acc).
Proof.
  induction xs as [|x xs IH]; intros acc; simpl; auto.
Qed.

Lemma fitStats_numbers : forall rows f,
  column rows f = map JNum (numbers rows f) ->
  fitStats rows f = fittedStats (numbers rows f).
Proof.
  intros rows f E. unfold fitStats, fittedStats. rewrite E.
  rewrite fold_add_numbers. cbn [ToNumber]. rewrite length_map.
  unfold populationStd, arithmeticMean, floatSum, JsNumber.Math_sqrt, JsNumber.Math_pow_2.
  rewrite !fold_map. cbn [ToNumber]. reflexivity.
Qed.

Lemma fittedStats_std_nonzero : forall xs,
  PrimFloat.eqb (std (fittedStats xs)) zero = false.
Proof.
  intros xs. unfold fittedStats. cbn [std].
  destruct (PrimFloat.eqb (populationStd xs) zero) eqn:E; [reflexivity|exact E].
Qed.

(** C3: for the rows of a parsed file, the statistics that [preprocessData]
    stores are, for each numeric feature, the arithmetic mean and the
    population standard deviation of that feature over all the valid rows
    (the rows that survive the filter, train and test together, whatever the
    shuffle), with 1 in place of a standard deviation equal to 0. *)
Theorem statistics_over_all_valid_rows :
  forall (csvText : string) (raw : list Obj) (rng : nat -> nat) (this : DataLoader.t),
    parseCSV csvText = Ok raw ->
    rawData this = Some raw ->
    missingColumns (hd [] raw) = [] ->
    filter keepRow raw <> [] ->
    let rows := filter keepRow raw in
    let this' := snd (preprocessData rng this) in
    featureStats this' = Some (fitStatistics rows)
    /\ (forall data, fst (preprocessData rng this) = Ok data ->
          (List.length (features (train data)) + List.length (features (test data))
           = List.length rows)%nat)
    /\ forall f, In f numericalFeatures ->
         let xs := numbers rows f in
         List.length xs = List.length rows
         /\ dictGet (fitStatistics rows) f
            = Some (mkStats (arithmeticMean xs)
                            (if PrimFloat.eqb (populationStd xs) zero then one
                             else populationStd xs))
         /\ PrimFloat.eqb (std (fitStats rows f)) zero = false.
Proof.
  intros csvText raw rng this Hparse Hraw Hm Hr rows this'.
  split; [|split].
  - unfold this'. now apply preprocessData_state.
  - intros data Hd.
    destruct (preprocessData rng this) as [r t] eqn:E. cbn [fst] in Hd. subst r.
    apply preprocessData_Ok_inv in E.
    destruct E as (raw' & Hraw' & _ & _ & Hchk & -> & _).
    rewrite Hraw in Hraw'. inversion Hraw'; subst raw'. fold rows in Hchk |- *.
    unfold splitCheck in Hchk. apply orb_false_iff in Hchk.
    destruct Hchk as [_ Hk]. apply Nat.ltb_ge in Hk.
    rewrite splitOf_train_length, splitOf_test_length by lia. lia.
  - intros f Hf xs.
    assert (E : fitStats rows f = fittedStats xs).
    { apply fitStats_numbers, column_numbers; [| |assumption].
      - apply Forall_filter. eapply parseCSV_coerced; eassumption.
      - apply filter_Forall. }
    split; [apply length_map|split].
    + rewrite fitStatistics_defined by assumption. now rewrite E.
    + rewrite E. apply fittedStats_std_nonzero.
Qed.

(** *** Transform *)

(** C2: with statistics and vocabularies fitted for the features,
    [transformFeatures] returns without raising the normalized numbers
    [(value - mean) / std] in the order of the numeric features followed by
    one one-hot block per categorical feature in order; its length is the
    number of numeric features plus the sizes of the vocabularies; the block
    of a value that is not in the vocabulary is all zeros, of the same
    length. *)
Theorem transform_is_normalized_numbers_then_one_hot_blocks :
  forall (this : DataLoader.t) (row : Obj) (nums cats : list string)
         (stats : Dict Stats) (mappings : Dict (list jsval)),
    featureStats this = Some stats ->
    categoricalMappings this = Some mappings ->
    (forall f, In f nums -> dictGet stats f <> None) ->
    (forall f, In f cats -> dictGet mappings f <> None) ->
    transformFeatures this row nums cats
    = Ok (map (fun f => ((ToNumber (get row f) - mean (statsOf stats f))
                         / std (statsOf stats f))%float) nums
          ++ List.concat
               (map (fun f => oneHotBlock (vocabularyOf mappings f) (get row f)) cats))
    /\ (forall v, transformFeatures this row nums cats = Ok v ->
          List.length v
          = (List.length nums
             + list_sum (map (fun f => List.length (vocabularyOf mappings f)) cats))%nat)
    /\ (forall f, In f cats ->
          existsb (sameValueZero (get row f)) (vocabularyOf mappings f) = false ->
          oneHotBlock (vocabularyOf mappings f) (get row f)
          = repeat zero (List.length (vocabularyOf mappings f))).
Proof.
  intros this row nums cats stats mappings Hs Hm Hn Hc.
  pose proof (transformFeatures_fitted this row nums cats stats mappings Hs Hm Hn Hc) as E.
  split; [exact E|split].
  - intros v Hv. rewrite E in Hv. inversion Hv; subst.
    apply featureVector_length.
  - intros f _ H. now apply oneHotBlock_unseen.
Qed.

(** *** Vocabulary *)

Lemma sorted_stringForms : forall l,
  Sorted sortLe l -> Forall (fun v => v <> JUndefined) l -> Sorted stringFormLe l.
Proof.
  induction 1 as [|a l Hs IH Hr]; intros Hd; [constructor|].
  inversion Hd as [|? ? Ha Hl]; subst. constructor; [now apply IH|].
  destruct Hr as [|b l Hab]; constructor.
  inversion Hl as [|? ? Hb _]; subst.
  unfold sortLe in Hab. unfold stringFormLe.
  destruct a, b; try congruence; exact Hab.
Qed.

Lemma canonical_defined : forall v, v <> JUndefined -> canonical v <> JUndefined.
Proof.
  intros [| |x|s] H; cbn [canonical]; try congruence.
  destruct (is_zero x); discriminate.
Qed.

(** C9, amended: the vocabulary of a categorical feature holds the
    distinct observed values in the order of [sort()] without a comparator,
    which is ascending by the code units of the string forms, also for the
    cells that were read as numbers: on text values it is the strict
    lexicographic order, on numbers it is not the numeric order.  A feature
    without any value makes [fitVocabulary] fail with the "no unique values"
    error, which cannot happen once a row survived the filter, so that
    [preprocessData] never reports it. *)
Theorem vocabulary_is_sorted_distinct_and_never_empty :
  forall (rows : list Obj) (feature : string) (mappings : Dict (list jsval)),
    let vocabulary := uniqueValues rows feature in
    (* the values: distinct, and those observed *)
    NoDup vocabulary
    /\ (forall v, In v (column rows feature) ->
          existsb (sameValueZero v) vocabulary = true)
    /\ (forall c, In c vocabulary ->
          exists v, In v (column rows feature) /\ c = canonical v)
    (* in ascending order *)
    /\ Sorted sortLe vocabulary
    /\ (Forall isText (column rows feature) -> Sorted textBefore vocabulary)
    (* the check for an empty vocabulary *)
    /\ (vocabulary = [] ->
          fitVocabulary rows [feature] mappings
          = (Throw (emptyVocabulary feature), mappings))
    /\ (vocabulary <> [] ->
          fitVocabulary rows [feature] mappings
          = (Ok tt, dictSet mappings feature vocabulary))
    (* which never fires after the filter *)
    /\ (rows <> [] -> vocabulary <> [])
    /\ (forall rng this,
          fst (preprocessData rng this)
          <> Throw (Error ("Data preprocessing failed: "
                           ++ message (emptyVocabulary feature))))
    (* the order is that of the string forms, also for numbers *)
    /\ (Forall (fun v => v <> JUndefined) (column rows feature) ->
        Sorted stringFormLe vocabulary).
Proof.
  intros rows feature mappings vocabulary.
  assert (Hperm : Permutation (setOf (column rows feature)) vocabulary)
    by apply sort_perm.
  assert (Hnd : NoDup vocabulary)
    by (apply (Permutation_NoDup Hperm), setOf_NoDup).
  assert (Hsorted : Sorted sortLe vocabulary) by apply sort_sorted.
  repeat split.
  - exact Hnd.
  - intros v Hv. pose proof (fold_setAdd_covers _ [] v Hv) as H.
    apply existsb_exists in H. destruct H as (c & Hc & Hs).
    apply existsb_exists. exists c. split; [|assumption].
    now apply (Permutation_in _ Hperm).
  - intros c Hc. apply setOf_from.
    now apply (Permutation_in _ (Permutation_sym Hperm)).
  - exact Hsorted.
  - intros Ht. apply sorted_text_strict; auto. now apply uniqueValues_text.
  - intros E. unfold fitVocabulary. fold vocabulary. now rewrite E.
  - intros E. unfold fitVocabulary. fold vocabulary.
    destruct vocabulary; [congruence|reflexivity].
  - intros Hr E. pose proof (uniqueValues_nonempty rows feature Hr) as H.
    fold vocabulary in H. rewrite E in H. discriminate.
  - intros rng this. apply preprocessData_not_emptyVocabulary.
  - intros Hd. apply sorted_stringForms; [exact Hsorted|].
    apply Forall_forall. intros c Hc.
    assert (Hc' : In c (setOf (column rows feature)))
      by now apply (Permutation_in _ (Permutation_sym Hperm)).
    destruct (setOf_from _ _ Hc') as (v & Hv & ->).
    apply canonical_defined. rewrite Forall_forall in Hd. now apply Hd.
Qed.

(** *** Empty cells *)






End Pipeline.

(** ** The orchestrator *)

Create HintDb preserve.

Section Orchestrator.

Import JsValue Host App.

(** *** Reasoning on computations *)

Lemma wp_bind : forall (S A B : Type) (c : M S A) (k : A -> M S B) Q s,
  wp c (fun r s' => match r with
                    | Ok a => wp (k a) Q s'
                    | Throw e => Q (Throw e) s'
                    end) s ->
  wp (bindM c k) Q s.
Proof.
  intros S A B c k Q s. unfold wp, bindM.
  destruct (c s) as [[a|e] s']; simpl; auto.
Qed.

Lemma wp_tryCatch : forall (S A : Type) (c : M S A) (h : exn -> M S A) Q s,
  wp c (fun r s' => match r with
                    | Ok a => Q (Ok a) s'
                    | Throw e => wp (h e) Q s'
                    end) s ->
  wp (tryCatch c h) Q s.
Proof.
  intros S A c h Q s. unfold wp, tryCatch.
  destruct (c s) as [[a|e] s']; simpl; auto.
Qed.

Lemma wp_preserves : forall (S A X : Type) (p : S -> X) (c : M S A) (Q : result A -> S -> Prop) s,
  preserves p c ->
  (forall r s', p s' = p s -> Q r s') ->
  wp c Q s.
Proof. intros S A X p c Q s Hp HQ. unfold wp. apply HQ, Hp. Qed.

Lemma wp_conseq : forall (S A : Type) (c : M S A) (Q Q' : result A -> S -> Prop) s,
  wp c Q s -> (forall r s', Q r s' -> Q' r s') -> wp c Q' s.
Proof. unfold wp. auto. Qed.

Lemma wp_bind_preserves : forall (S A B X : Type) (p : S -> X) (c : M S A) (k : A -> M S B)
  (Q : result B -> S -> Prop) s,
  preserves p c ->
  (forall a s', p s' = p s -> wp (k a) Q s') ->
  (forall e s', p s' = p s -> Q (Throw e) s') ->
  wp (bindM c k) Q s.
Proof.
  intros S A B X p c k Q s Hp Hok Hthrow. apply wp_bind.
  apply wp_preserves with (p := p); [assumption|].
  intros [a|e] s' Hs; auto.
Qed.

Lemma preserves_ret : forall (S A X : Type) (p : S -> X) (a : A), preserves p (ret a).
Proof. intros S A X p a s. reflexivity. Qed.

Lemma preserves_throw : forall (S A X : Type) (p : S -> X) e, preserves p (@throw S A e).
Proof. intros S A X p e s. reflexivity. Qed.

Lemma preserves_read : forall (S A X : Type) (p : S -> X) (f : S -> A), preserves p (read f).
Proof. intros S A X p f s. reflexivity. Qed.

Lemma preserves_lift : forall (S A X : Type) (p : S -> X) (r : result A), preserves p (lift r).
Proof. intros S A X p r s. reflexivity. Qed.

Lemma preserves_optThrow : forall (S X : Type) (p : S -> X) o, preserves p (@optThrow S o).
Proof. intros S X p [m|] s; reflexivity. Qed.

Lemma preserves_bind : forall (S A B X : Type) (p : S -> X) (c : M S A) (k : A -> M S B),
  preserves p c -> (forall a, preserves p (k a)) -> preserves p (bindM c k).
Proof.
  intros S A B X p c k Hc Hk s. unfold bindM. specialize (Hc s).
  destruct (c s) as [[a|e] s']; simpl in *; [rewrite Hk|]; assumption.
Qed.

Lemma preserves_tryCatch : forall (S A X : Type) (p : S -> X) (c : M S A) (h : exn -> M S A),
  preserves p c -> (forall e, preserves p (h e)) -> preserves p (tryCatch c h).
Proof.
  intros S A X p c h Hc Hh s. unfold tryCatch. specialize (Hc s).
  destruct (c s) as [[a|e] s']; simpl in *; [|rewrite Hh]; assumption.
Qed.

Lemma preserves_if : forall (S A X : Type) (p : S -> X) (b : bool) (c1 c2 : M S A),
  preserves p c1 -> preserves p c2 -> preserves p (if b then c1 else c2).
Proof. intros; destruct b; assumption. Qed.

#[local] Hint Resolve preserves_ret preserves_throw preserves_read preserves_lift
  preserves_optThrow preserves_bind preserves_tryCatch preserves_if : preserve.

(** *** What leaves the history alone *)

Lemma history_emit : forall e, preserves trainingHistory (emit e).
Proof. intros e s. reflexivity. Qed.

Lemma history_setIsTraining : forall b, preserves trainingHistory (setIsTraining b).
Proof. intros b s. reflexivity. Qed.

Lemma history_setLive : forall l n, preserves trainingHistory (setLive l n).
Proof. intros l n s. reflexivity. Qed.

#[local] Hint Resolve history_emit history_setIsTraining history_setLive : preserve.

Lemma history_allocate : forall n, preserves trainingHistory (allocate n).
Proof. intros n. unfold allocate. auto 10 with preserve. Qed.

#[local] Hint Resolve history_allocate : preserve.

Lemma history_tensor2d : forall beh k n, preserves trainingHistory (tensor2d beh k n).
Proof. intros. unfold tensor2d. auto 10 with preserve. Qed.

Lemma history_dispose : forall ts, preserves trainingHistory (dispose ts).
Proof. intros. unfold dispose. auto 10 with preserve. Qed.

Lemma history_data : forall beh k x, preserves trainingHistory (data beh k x).
Proof. intros. unfold data. auto 10 with preserve. Qed.

Lemma history_evaluate : forall beh, preserves trainingHistory (evaluate beh).
Proof. intros. unfold evaluate. auto 10 with preserve. Qed.

#[local] Hint Resolve history_tensor2d history_dispose history_data history_evaluate
  : preserve.

Lemma history_evaluateAndDispose : forall beh a b c d,
  preserves trainingHistory (evaluateAndDispose beh a b c d).
Proof. intros. unfold evaluateAndDispose. auto 12 with preserve. Qed.

Lemma history_showFixed : forall el v, preserves trainingHistory (showFixed el v).
Proof. intros el [| |x|s']; unfold showFixed; auto with preserve. Qed.

#[local] Hint Resolve history_evaluateAndDispose history_showFixed : preserve.

Lemma history_updateProgress : forall total epoch l,
  preserves trainingHistory (updateProgress total epoch l).
Proof. intros. unfold updateProgress. auto 12 with preserve. Qed.

#[local] Hint Resolve history_updateProgress : preserve.

Lemma history_inApp : forall (A : Type) (c : M App.t A),
  preserves trainingHistory c -> preserves historyIn (Application.inApp c).
Proof.
  intros A c H [l s]. unfold historyIn, Application.inApp. cbn [fst snd].
  specialize (H s). destruct (c s) as [r s']. exact H.
Qed.

Lemma history_assign : forall f, preserves historyIn (Application.assign f).
Proof. intros f s. reflexivity. Qed.

Lemma history_local : forall f, preserves historyIn (Application.local f).
Proof.
  intros f s. unfold Application.local, bindM, read. cbn.
  destruct (f (fst s)); reflexivity.
Qed.

Lemma history_disposeIf : forall f, preserves historyIn (Application.disposeIf f).
Proof.
  intros f s. unfold Application.disposeIf, bindM, read. cbn [fst snd].
  destruct (f (fst s)) as [x|]; [|reflexivity].
  apply (history_inApp _ (dispose [x])). auto with preserve.
Qed.

#[local] Hint Resolve history_inApp history_assign history_local history_disposeIf
  : preserve.

Lemma wp_withLocals : forall (A : Type) (c : M (Application.Locals * App.t) A) Q s,
  wp c (fun r ls => Q r (snd ls)) (Application.noLocals, s) ->
  wp (Application.withLocals c) Q s.
Proof.
  intros A c Q s. unfold wp, Application.withLocals.
  destruct (c (Application.noLocals, s)) as [r s']. auto.
Qed.

Lemma wp_inApp : forall (A : Type) (c : M App.t A) Q l s,
  wp c (fun r s' => Q r (l, s')) s ->
  wp (Application.inApp c) Q (l, s).
Proof.
  intros A c Q l s. unfold wp, Application.inApp. cbn [fst snd].
  destruct (c s) as [r s']. auto.
Qed.

Ltac hstep proj :=
  apply (wp_bind_preserves _ _ _ _ proj);
  [auto 12 with preserve | intros ? ? ? | intros ? ? ?].

(** *** The training history *)

Lemma historyApp_empty : forall h, historyApp h (historyOf []) = h.
Proof. intros [a b c]. unfold historyApp. simpl. now rewrite !app_nil_r. Qed.

Lemma historyApp_assoc : forall h ls1 ls2,
  historyApp (historyApp h (historyOf ls1)) (historyOf ls2)
  = historyApp h (historyOf (ls1 ++ ls2)).
Proof.
  intros [a b c] ls1 ls2. unfold historyApp, historyOf. simpl.
  now rewrite !map_app, !app_assoc.
Qed.

Lemma historyApp_empty_l : forall ls, historyApp History.empty (historyOf ls) = historyOf ls.
Proof. reflexivity. Qed.

Lemma reported_length : forall beh epochs,
  (forall e, In e epochs -> epochLogs beh e <> None) ->
  List.length (reported beh epochs) = List.length epochs.
Proof.
  induction epochs as [|e epochs IH]; intros H; [reflexivity|].
  cbn [reported flat_map]. specialize (H e (or_introl eq_refl)) as He.
  destruct (epochLogs beh e); [|congruence].
  cbn [app List.length]. f_equal. apply IH. intros; apply H; now right.
Qed.

Lemma recorded_length_le : forall beh epochs,
  List.length (recorded beh epochs) <= List.length epochs.
Proof.
  induction epochs as [|e epochs IH]; [reflexivity|].
  cbn [recorded flat_map]. rewrite length_app. fold (recorded beh epochs).
  destruct (bothLosses (epochLogs beh e)); cbn [List.length]; lia.
Qed.

Lemma recorded_length : forall beh epochs,
  (forall e, In e epochs -> bothLosses (epochLogs beh e) <> None) ->
  List.length (recorded beh epochs) = List.length epochs.
Proof.
  induction epochs as [|e epochs IH]; intros H; [reflexivity|].
  cbn [recorded flat_map]. specialize (H e (or_introl eq_refl)) as He.
  destruct (bothLosses (epochLogs beh e)); [|congruence].
  cbn [app List.length]. f_equal. apply IH. intros; apply H; now right.
Qed.

Section Run.

Variable beh : Behaviour.

(** the history after [fit] in [src/app.js]: the logs of the first [k] epochs *)
Lemma root_fitLoop_history : forall remaining epoch s,
  wp (fitLoop beh Root.onEpochEnd epoch remaining)
     (fun r s' =>
        exists k, k <= remaining
          /\ (forall e, epoch <= e < epoch + k -> epochLogs beh e <> None)
          /\ trainingHistory s'
             = historyApp (trainingHistory s) (historyOf (reported beh (seq epoch k)))
          /\ (r = Ok tt -> k = remaining)) s.
Proof.
  induction remaining as [|remaining IH]; intros epoch s.
  - unfold wp. simpl. exists 0. repeat split; auto; try lia.
    now rewrite historyApp_empty.
  - cbn [fitLoop].
    assert (Stop : forall r s', trainingHistory s' = trainingHistory s -> r <> Ok tt ->
              exists k, k <= S remaining
                /\ (forall e, epoch <= e < epoch + k -> epochLogs beh e <> None)
                /\ trainingHistory s'
                   = historyApp (trainingHistory s) (historyOf (reported beh (seq epoch k)))
                /\ (r = Ok tt -> k = S remaining)).
    { intros r s' Hh Hr. exists 0. repeat split; try lia.
      - now rewrite Hh, historyApp_empty.
      - intros E. contradiction. }
    apply wp_bind. unfold wp at 1.
    destruct (fitThrows beh epoch) as [m|]; cbn [optThrow throw ret fst snd].
    { apply Stop; [reflexivity|discriminate]. }
    apply wp_bind. unfold wp at 1. cbn [emit fst snd].
    set (s1 := mkApp _ _ _ _ _ _ _ _ _).
    assert (H1 : trainingHistory s1 = trainingHistory s) by reflexivity.
    apply wp_bind. unfold Root.onEpochEnd.
    destruct (epochLogs beh epoch) as [l|] eqn:El.
    2:{ unfold wp. cbn [throw fst snd]. apply Stop; [assumption|discriminate]. }
    apply wp_bind. unfold wp at 1. cbn [pushHistory bindM read setTrainingHistory fst snd].
    set (s2 := mkApp _ _ _ _ _ _ _ _ _).
    assert (H2 : trainingHistory s2 = historyApp (trainingHistory s) (historyOf [l])).
    { unfold s2. cbn [trainingHistory]. now rewrite H1. }
    assert (Hrep : forall k, reported beh (seq epoch (S k)) = l :: reported beh (seq (S epoch) k)).
    { intros k. cbn [seq reported flat_map]. now rewrite El. }
    apply wp_preserves with (p := trainingHistory); [auto with preserve|].
    intros r3 s3 H3. destruct r3 as [[]|e3].
    + eapply wp_conseq; [apply IH|]. cbv beta.
      intros r s' (k & Hk & Hlogs & Hh & Hr).
      exists (S k). repeat split; try lia.
      * intros e He. destruct (Nat.eq_dec e epoch) as [->|Hne]; [congruence|].
        apply Hlogs. lia.
      * rewrite Hh, H3, H2, historyApp_assoc. now rewrite Hrep.
      * intros E. specialize (Hr E). lia.
    + exists 1. repeat split; try lia.
      * intros e He. assert (e = epoch) by lia. subst. congruence.
      * rewrite H3, H2. now rewrite (Hrep 0).
      * discriminate.
Qed.

Lemma application_fitLoop_history : forall remaining epoch s,
  wp (fitLoop beh Application.onEpochEnd epoch remaining)
     (fun r s' =>
        exists k, k <= remaining
          /\ trainingHistory s'
             = historyApp (trainingHistory s) (historyOf (recorded beh (seq epoch k)))
          /\ (r = Ok tt -> k = remaining)) s.
Proof.
  induction remaining as [|remaining IH]; intros epoch s.
  - unfold wp. simpl. exists 0. repeat split; auto.
    now rewrite historyApp_empty.
  - cbn [fitLoop].
    assert (Stop : forall r s', trainingHistory s' = trainingHistory s -> r <> Ok tt ->
              exists k, k <= S remaining
                /\ trainingHistory s'
                   = historyApp (trainingHistory s) (historyOf (recorded beh (seq epoch k)))
                /\ (r = Ok tt -> k = S remaining)).
    { intros r s' Hh Hr. exists 0. repeat split; try lia.
      - now rewrite Hh, historyApp_empty.
      - intros E. contradiction. }
    assert (Skip : forall s1, trainingHistory s1 = trainingHistory s ->
              bothLosses (epochLogs beh epoch) = None ->
              wp (fitLoop beh Application.onEpochEnd (S epoch) remaining)
                 (fun r s' =>
                    exists k, k <= S remaining
                      /\ trainingHistory s'
                         = historyApp (trainingHistory s)
                             (historyOf (recorded beh (seq epoch k)))
                      /\ (r = Ok tt -> k = S remaining)) s1).
    { intros s1 H1 Hnone. eapply wp_conseq; [apply IH|]. cbv beta.
      intros r s' (k & Hk & Hh & Hr). exists (S k). repeat split; try lia.
      - rewrite Hh, H1. cbn [seq recorded flat_map]. now rewrite Hnone.
      - intros E. specialize (Hr E). lia. }
    apply wp_bind. unfold wp at 1.
    destruct (fitThrows beh epoch) as [m|]; cbn [optThrow throw ret fst snd].
    { apply Stop; [reflexivity|discriminate]. }
    apply wp_bind. unfold wp at 1. cbn [emit fst snd].
    set (s1 := mkApp _ _ _ _ _ _ _ _ _).
    assert (H1 : trainingHistory s1 = trainingHistory s) by reflexivity.
    apply wp_bind. unfold Application.onEpochEnd.
    destruct (epochLogs beh epoch) as [l|] eqn:El.
    2:{ unfold wp at 1. cbn [emit fst snd]. apply Skip; reflexivity. }
    destruct (Application.isUndefined (Logs.loss l)
              || Application.isUndefined (Logs.val_loss l)) eqn:Eu.
    { unfold wp at 1. cbn [emit fst snd]. apply Skip; [reflexivity|].
      cbn [bothLosses]. now rewrite Eu. }
    assert (Hboth : bothLosses (epochLogs beh epoch) = Some l).
    { rewrite El. cbn [bothLosses]. now rewrite Eu. }
    apply wp_bind. unfold wp at 1. cbn [pushHistory bindM read setTrainingHistory fst snd].
    set (s2 := mkApp _ _ _ _ _ _ _ _ _).
    assert (H2 : trainingHistory s2 = historyApp (trainingHistory s) (historyOf [l])).
    { unfold s2. cbn [trainingHistory]. now rewrite H1. }
    assert (Hrec : forall k, recorded beh (seq epoch (S k)) = l :: recorded beh (seq (S epoch) k)).
    { intros k. cbn [seq recorded flat_map]. now rewrite Hboth. }
    apply wp_preserves with (p := trainingHistory); [auto with preserve|].
    intros r3 s3 H3. destruct r3 as [[]|e3].
    + eapply wp_conseq; [apply IH|]. cbv beta.
      intros r s' (k & Hk & Hh & Hr).
      exists (S k). repeat split; try lia.
      * rewrite Hh, H3, H2, historyApp_assoc. now rewrite Hrec.
      * intros E. specialize (Hr E). lia.
    + exists 1. repeat split; try lia.
      * rewrite H3, H2. now rewrite (Hrec 0).
      * discriminate.
Qed.

(** [src/app.js] *)
Lemma root_trainModel_history : forall d s,
  model s = true ->
  wp (Root.trainModel beh d)
     (fun r s' =>
        exists k, k <= Root.totalEpochs
          /\ (forall e, e < k -> epochLogs beh e <> None)
          /\ trainingHistory s' = historyOf (reported beh (seq 0 k))
          /\ (r = Ok tt -> k = Root.totalEpochs)) s.
Proof.
  intros d s Hmodel. unfold Root.trainModel.
  apply wp_bind. unfold wp at 1. cbn [read fst snd]. rewrite Hmodel. cbn [negb].
  apply wp_bind. unfold wp at 1. cbn [setIsTraining fst snd].
  apply wp_bind. unfold wp at 1. cbn [setTrainingHistory fst snd].
  set (s0 := mkApp _ _ _ _ _ _ _ _ _).
  set (Post := fun (r : result unit) (s' : App.t) =>
        exists k, k <= Root.totalEpochs
          /\ (forall e, e < k -> epochLogs beh e <> None)
          /\ trainingHistory s' = historyOf (reported beh (seq 0 k))
          /\ (r = Ok tt -> k = Root.totalEpochs)).
  set (handler := fun error : exn =>
         emit (ConsoleError (message error)) ;;; setIsTraining false ;;; throw error).
  assert (Hcatch : forall e s' k, k <= Root.totalEpochs ->
            (forall e, e < k -> epochLogs beh e <> None) ->
            trainingHistory s' = historyOf (reported beh (seq 0 k)) ->
            wp (handler e) Post s').
  { intros e s' k Hk Hl Hh. unfold wp, handler. cbn. exists k.
    repeat split; auto. discriminate. }
  assert (Hempty : forall e s', trainingHistory s' = trainingHistory s0 ->
            wp (handler e) Post s').
  { intros e s' Hh. apply (Hcatch e s' 0); [lia|intros; lia|]. now rewrite Hh. }
  apply wp_tryCatch. cbv zeta.
  apply wp_bind_preserves with (p := trainingHistory); [auto with preserve| |exact Hempty].
  intros trainX s1 H1.
  apply wp_bind_preserves with (p := trainingHistory); [auto with preserve| |].
  2:{ intros e s' Hs'. apply Hempty. congruence. }
  intros trainY s2 H2.
  apply wp_bind_preserves with (p := trainingHistory); [auto with preserve| |].
  2:{ intros e s' Hs'. apply Hempty. congruence. }
  intros testX s3 H3.
  apply wp_bind_preserves with (p := trainingHistory); [auto with preserve| |].
  2:{ intros e s' Hs'. apply Hempty. congruence. }
  intros testY s4 H4.
  assert (E4 : trainingHistory s4 = History.empty) by (rewrite H4, H3, H2, H1; reflexivity).
  apply wp_bind. unfold fit.
  eapply wp_conseq; [apply root_fitLoop_history|]. cbv beta.
  intros r s5 (k & Hk & Hlogs & Hh & Hr).
  rewrite E4, historyApp_empty_l in Hh.
  assert (Hlogs' : forall e, e < k -> epochLogs beh e <> None)
    by (intros e He; apply Hlogs; lia).
  destruct r as [[]|e].
  2:{ now apply (Hcatch e s5 k). }
  specialize (Hr eq_refl). subst k.
  apply wp_preserves with (p := trainingHistory); [auto with preserve|].
  intros r s6 H6. destruct r as [[]|e].
  - exists Root.totalEpochs. repeat split; auto. congruence.
  - apply (Hcatch e s6 Root.totalEpochs); auto. congruence.
Qed.

Lemma application_trainModel_history : forall d s,
  model s = true ->
  wp (Application.trainModel beh d)
     (fun r s' =>
        exists k, k <= Application.totalEpochs
          /\ trainingHistory s' = historyOf (recorded beh (seq 0 k))
          /\ (r = Ok tt -> k = Application.totalEpochs)) s.
Proof.
  intros d s Hmodel. unfold Application.trainModel.
  apply wp_bind. unfold wp at 1. cbn [read fst snd]. rewrite Hmodel. cbn [negb].
  apply wp_bind. unfold wp at 1. cbn [setIsTraining fst snd].
  apply wp_bind. unfold wp at 1. cbn [setTrainingHistory fst snd].
  set (s0 := mkApp _ _ _ _ _ _ _ _ _).
  apply wp_withLocals.
  set (Post := fun (r : result unit) (ls : Application.Locals * App.t) =>
        exists k, k <= Application.totalEpochs
          /\ trainingHistory (snd ls) = historyOf (recorded beh (seq 0 k))
          /\ (r = Ok tt -> k = Application.totalEpochs)).
  match goal with
  | |- wp (tryCatch _ ?h) _ _ => set (handler := h)
  end.
  assert (Hcatch : forall e ls k, k <= Application.totalEpochs ->
            historyIn ls = historyOf (recorded beh (seq 0 k)) ->
            wp (handler e) Post ls).
  { intros e ls k Hk Hh.
    assert (Q : forall (r : result unit) ls', historyIn ls' = historyIn ls ->
              r <> Ok tt -> Post r ls').
    { intros r ls' Hl Hr. exists k. repeat split; auto.
      - unfold historyIn in *. congruence.
      - intros E. contradiction. }
    unfold handler.
    hstep historyIn; [|apply Q; [assumption|discriminate]].
    hstep historyIn; [|apply Q; [congruence|discriminate]].
    hstep historyIn; [|apply Q; [congruence|discriminate]].
    hstep historyIn; [|apply Q; [congruence|discriminate]].
    hstep historyIn; [|apply Q; [congruence|discriminate]].
    hstep historyIn; [|apply Q; [congruence|discriminate]].
    unfold wp. cbn [throw fst snd]. apply Q; [congruence|discriminate]. }
  assert (Hempty : forall e ls, historyIn ls = History.empty -> wp (handler e) Post ls).
  { intros e ls Hh. apply (Hcatch e ls 0); [lia|assumption]. }
  apply wp_tryCatch. cbv zeta.
  assert (H0 : historyIn (Application.noLocals, s0) = History.empty) by reflexivity.
  hstep historyIn; [|apply Hempty; congruence].
  hstep historyIn; [|apply Hempty; congruence].
  hstep historyIn; [|apply Hempty; congruence].
  hstep historyIn; [|apply Hempty; congruence].
  hstep historyIn; [|apply Hempty; congruence].
  hstep historyIn; [|apply Hempty; congruence].
  hstep historyIn; [|apply Hempty; congruence].
  hstep historyIn; [|apply Hempty; congruence].
  hstep historyIn; [|apply Hempty; congruence].
  match goal with
  | |- wp _ _ ?ls => destruct ls as [l9 s9] eqn:Els
  end.
  assert (E9 : trainingHistory s9 = History.empty).
  { change (historyIn (l9, s9) = History.empty). congruence. }
  apply wp_bind. apply wp_inApp. unfold fit.
  eapply wp_conseq; [apply application_fitLoop_history|]. cbv beta.
  intros r s10 (k & Hk & Hh & Hr).
  rewrite E9, historyApp_empty_l in Hh.
  destruct r as [[]|e].
  2:{ now apply (Hcatch e (l9, s10) k). }
  specialize (Hr eq_refl). subst k.
  hstep historyIn; [|apply (Hcatch _ _ Application.totalEpochs); [lia|]].
  2:{ match goal with H : historyIn _ = historyIn _ |- _ => rewrite H end. exact Hh. }
  apply wp_preserves with (p := historyIn); [auto with preserve|].
  intros r ls Hls. destruct r as [[]|e].
  - exists Application.totalEpochs. repeat split; auto.
    change (historyIn ls = historyOf (recorded beh (seq 0 Application.totalEpochs))).
    match goal with H : historyIn _ = historyIn (l9, s10) |- _ => rewrite Hls, H end.
    exact Hh.
  - apply (Hcatch e ls Application.totalEpochs); [lia|].
    match goal with H : historyIn _ = historyIn (l9, s10) |- _ => rewrite Hls, H end.
    exact Hh.
Qed.

End Run.

(** Whatever the library reports, [trainModel] empties the history when a
    run starts, and during the run appends one record per epoch in epoch
    order: in [src/app.js] for every epoch (an epoch without logs aborts
    the run), in [src/application/app.js] for every epoch whose logs carry
    both losses, the others being skipped with a warning.  On success all
    the configured epochs (200, resp. 100) were run. *)
Lemma history_has_one_record_per_epoch_with_both_losses :
  forall (beh : Behaviour) (d : DataLoader.ProcessedData) (s : App.t),
    model s = true ->
    (exists k,
        k <= Root.totalEpochs
        /\ (forall e, e < k -> epochLogs beh e <> None)
        /\ trainingHistory (snd (Root.trainModel beh d s))
           = historyOf (reported beh (seq 0 k))
        /\ List.length (reported beh (seq 0 k)) = k
        /\ (fst (Root.trainModel beh d s) = Ok tt -> k = Root.totalEpochs))
    /\ (exists k,
          k <= Application.totalEpochs
          /\ trainingHistory (snd (Application.trainModel beh d s))
             = historyOf (recorded beh (seq 0 k))
          /\ List.length (recorded beh (seq 0 k)) <= k
          /\ ((forall e, e < k -> bothLosses (epochLogs beh e) <> None) ->
              List.length (recorded beh (seq 0 k)) = k)
          /\ (fst (Application.trainModel beh d s) = Ok tt ->
              k = Application.totalEpochs)).
Proof.
  intros beh d s Hmodel. split.
  - destruct (root_trainModel_history beh d s Hmodel) as (k & Hk & Hlogs & Hh & Hr).
    exists k. repeat split; auto.
    rewrite reported_length; [apply length_seq|].
    intros e He. apply in_seq in He. apply Hlogs. lia.
  - destruct (application_trainModel_history beh d s Hmodel) as (k & Hk & Hh & Hr).
    exists k. repeat split; auto.
    + pose proof (recorded_length_le beh (seq 0 k)) as Hle.
      now rewrite length_seq in Hle.
    + intros Hall. rewrite recorded_length; [apply length_seq|].
      intros e He. apply in_seq in He. apply Hall. lia.
Qed.

Lemma recorded_reported : forall beh epochs,
  reportsBothLosses beh -> recorded beh epochs = reported beh epochs.
Proof.
  intros beh epochs H. unfold recorded, reported.
  induction epochs as [|e epochs IH]; cbn [flat_map]; [reflexivity|].
  rewrite IH. f_equal. specialize (H e). unfold bothLosses in *.
  destruct (epochLogs beh e) as [l|]; [|reflexivity].
  destruct (Application.isUndefined (Logs.loss l)
            || Application.isUndefined (Logs.val_loss l)); [congruence|reflexivity].
Qed.

Lemma reported_all : forall beh k start,
  (forall e, epochLogs beh e <> None) ->
  List.length (reported beh (seq start k)) = k
  /\ forall p l, nth_error (reported beh (seq start k)) p = Some l ->
                 epochLogs beh (start + p) = Some l.
Proof.
  intros beh k. induction k as [|k IH]; intros start H; cbn [seq].
  - split; [reflexivity|]. intros [|p] l E; discriminate E.
  - unfold reported in *. cbn [flat_map].
    destruct (epochLogs beh start) as [l0|] eqn:E0; [|now destruct (H start)].
    destruct (IH (S start) H) as [IH1 IH2]. cbn [app List.length].
    split; [now rewrite IH1|].
    intros [|p] l E; cbn [nth_error] in E.
    + injection E as <-. now rewrite Nat.add_0_r.
    + replace (start + S p) with (S start + p) by lia. now apply IH2.
Qed.

(** C8: [trainModel] empties the history when a run starts; with a library
    that reports a training loss and a validation loss at the end of every
    epoch, as [model.fit] with validation data does, the history after the
    run holds exactly the records (loss, validation loss, MAE) of the
    epochs [0], [1], ... that were run, one per epoch and in epoch order,
    whatever it held before; when the run succeeds, each of its three
    sequences has as many entries as the configured epoch count (200 in
    [src/app.js], 100 in [src/application/app.js]). *)
Theorem history_has_one_record_per_epoch :
  forall (beh : Behaviour) (d : DataLoader.ProcessedData) (s : App.t),
    model s = true ->
    reportsBothLosses beh ->
    let root := Root.trainModel beh d s in
    let appl := Application.trainModel beh d s in
    (exists ls,
        trainingHistory (snd root) = historyOf ls
        /\ recordsOfEpochs beh ls
        /\ List.length ls <= Root.totalEpochs
        /\ (fst root = Ok tt ->
            List.length ls = Root.totalEpochs
            /\ List.length (History.loss (trainingHistory (snd root)))
               = Root.totalEpochs
            /\ List.length (History.valLoss (trainingHistory (snd root)))
               = Root.totalEpochs
            /\ List.length (History.mae (trainingHistory (snd root)))
               = Root.totalEpochs))
    /\ (exists ls,
          trainingHistory (snd appl) = historyOf ls
          /\ recordsOfEpochs beh ls
          /\ List.length ls <= Application.totalEpochs
          /\ (fst appl = Ok tt ->
              List.length ls = Application.totalEpochs
              /\ List.length (History.loss (trainingHistory (snd appl)))
                 = Application.totalEpochs
              /\ List.length (History.valLoss (trainingHistory (snd appl)))
                 = Application.totalEpochs
              /\ List.length (History.mae (trainingHistory (snd appl)))
                 = Application.totalEpochs)).
Proof.
  intros beh d s Hmodel Hlogs root appl.
  assert (Hdef : forall e, epochLogs beh e <> None).
  { intros e E. apply (Hlogs e). now rewrite E. }
  destruct (history_has_one_record_per_epoch_with_both_losses beh d s Hmodel)
    as ((k & Hk & _ & Hh & _ & Hok) & (k' & Hk' & Hh' & _ & _ & Hok')).
  fold root in Hh, Hok. fold appl in Hh', Hok'.
  rewrite recorded_reported in Hh' by assumption.
  destruct (reported_all beh k 0 Hdef) as [L N].
  destruct (reported_all beh k' 0 Hdef) as [L' N'].
  split.
  - exists (reported beh (seq 0 k)). split; [exact Hh|].
    split; [intros e l E; exact (N e l E)|]. split; [lia|].
    intros E. specialize (Hok E). rewrite Hh. cbn [historyOf History.loss
      History.valLoss History.mae]. rewrite !length_map. lia.
  - exists (reported beh (seq 0 k')). split; [exact Hh'|].
    split; [intros e l E; exact (N' e l E)|]. split; [lia|].
    intros E. specialize (Hok' E). rewrite Hh'. cbn [historyOf History.loss
      History.valLoss History.mae]. rewrite !length_map. lia.
Qed.

(** *** Tensors *)

(** C4: [trainModel] of [src/app.js] on a run in which [model.fit] throws
    in the first epoch: the four tensors of the training and test sets are
    still allocated when the error propagates.  [src/application/app.js]
    releases them on that path, but leaves the two tensors of the evaluation
    when reading them throws.  Both revisions release everything on
    success. *)
Theorem trainModel_leaves_tensors_when_fit_throws :
  live builtApp = []
  /\ (exists e s', Root.trainModel behaviourFitThrows sampleSplit builtApp = (Throw e, s')
                   /\ live s' = [0; 1; 2; 3])
  /\ (exists e s', Application.trainModel behaviourFitThrows sampleSplit builtApp
                   = (Throw e, s')
                   /\ live s' = [])
  /\ (exists e s', Application.trainModel behaviourDataThrows sampleSplit builtApp
                   = (Throw e, s')
                   /\ live s' = [4; 5])
  /\ live (snd (Root.trainModel behaviourOk sampleSplit builtApp)) = []
  /\ live (snd (Application.trainModel behaviourOk sampleSplit builtApp)) = [].
Proof.
  split; [reflexivity|].
  split; [vm_compute; eauto|].
  split; [vm_compute; eauto|].
  split; [vm_compute; eauto|].
  split; vm_compute; reflexivity.
Qed.

(** *** [predict] *)

(** C6: [predict] returns without an error and leaves the whole state as it
    was (the fields of the predictor, the live tensors, the event log, the
    page) whenever the model is not ready or a training run is in progress:
    no forward pass is made while [isTraining] holds. *)
Theorem predict_is_noop_unless_ready_and_idle :
  forall (beh : Behaviour) (s : App.t),
    isModelReady s = false \/ isTraining s = true ->
    predict beh s = (Ok tt, s).
Proof.
  intros beh s H.
  unfold predict, bindM, read, ret.
  destruct H as [H | H]; rewrite H.
  - reflexivity.
  - now rewrite orb_true_r.
Qed.

Lemma validateInput_firstInvalid : forall entries,
  match firstInvalid entries with
  | Some key => validateInput entries = Throw (Error ("Invalid input for " ++ key))
                /\ exists value, In (key, value) entries /\ invalid value = true
  | None => validateInput entries = Ok tt
            /\ forall key value, In (key, value) entries -> invalid value = false
  end.
Proof.
  induction entries as [|[key value] rest IH]; cbn [firstInvalid validateInput].
  - split; [reflexivity|]. intros key value [].
  - destruct (invalid value) eqn:E.
    + split; [reflexivity|]. exists value. split; [now left|assumption].
    + destruct (firstInvalid rest) as [k|].
      * destruct IH as [IH (v & Hin & Hv)]. split; [assumption|].
        exists v. split; [now right|assumption].
      * destruct IH as [IH Hall]. split; [assumption|].
        intros k v [H|H]; [inversion H; subst; assumption|eauto].
Qed.

Lemma collectUserInput_state : forall s r s', collectUserInput s = (r, s') -> s' = s.
Proof.
  intros s r s' H. unfold collectUserInput, elementValue, bindM, read, ret, throw in H.
  repeat match type of H with
         | context [dictGet (dom s) ?k] => destruct (dictGet (dom s) k)
         end; inversion H; reflexivity.
Qed.

(** C7: when a field of the user input is [null], [undefined] or [NaN],
    the validation of [predict] throws the error "Invalid input for" the
    first such field, in the order of the fields; [predict] reports it on
    the console and in an alert and does nothing else: no tensor is
    allocated and [transformUserInput] is not called. *)
Theorem predict_rejects_invalid_input_before_any_tensor :
  forall (beh : Behaviour) (s : App.t) (userInput : Obj),
    (exists key value, In (key, value) userInput /\ invalid value = true) ->
    exists key value,
      In (key, value) userInput
      /\ invalid value = true
      /\ firstInvalid userInput = Some key
      /\ validateInput userInput = Throw (Error ("Invalid input for " ++ key))
      /\ predictWith beh userInput s
         = (Ok tt, logged s [ConsoleError ("Invalid input for " ++ key);
                             Alert ("Prediction failed: Invalid input for " ++ key)])
      /\ (isModelReady s = true -> isTraining s = false ->
          fst (collectUserInput s) = Ok userInput ->
          predict beh s
          = (Ok tt, logged s [ConsoleError ("Invalid input for " ++ key);
                              Alert ("Prediction failed: Invalid input for " ++ key)])).
Proof.
  intros beh s userInput (k0 & v0 & Hin0 & Hinv0).
  pose proof (validateInput_firstInvalid userInput) as H.
  destruct (firstInvalid userInput) as [key|].
  2:{ destruct H as [_ H]. rewrite (H k0 v0 Hin0) in Hinv0. discriminate. }
  destruct H as [Hv (value & Hin & Hinv)].
  exists key, value.
  assert (Hwith : predictWith beh userInput s
            = (Ok tt, logged s [ConsoleError ("Invalid input for " ++ key);
                                Alert ("Prediction failed: Invalid input for " ++ key)])).
  { unfold predictWith, tryCatch, predictSteps, bindM at 1, lift. rewrite Hv.
    unfold predictCatch, bindM, emit, logged. cbn.
    now rewrite <- app_assoc. }
  repeat split; auto.
  intros Hready Hidle Hcollect.
  unfold predict, bindM at 1, read. rewrite Hready.
  unfold bindM at 1. rewrite Hidle. cbn [negb orb].
  destruct (collectUserInput s) as [r s'] eqn:Ec.
  pose proof (collectUserInput_state s r s' Ec). subst s'.
  cbn [fst] in Hcollect. subst r.
  rewrite <- Hwith. unfold predictWith, tryCatch, bindM at 1. now rewrite Ec.
Qed.

End Orchestrator.

(** * The properties on the sample inputs *)

Section Samples.

Import JsValue DataLoader Host App.

Lemma split_partitions_valid_rows_witness :
  exists data this',
    preprocessData sampleRng (loaderOf sixRowRaw) = (Ok data, this')
    /\ Permutation (shuffleIndices sampleRng 5) (seq 0 5)
    /\ List.length (features (train data)) = 4
    /\ List.length (features (test data)) = 1
    /\ map (fun p => nth p (shuffleIndices sampleRng 5) 0) [0; 1; 2; 3; 4]
       = [1; 0; 4; 2; 3]
    /\ targets (train data) = [JNum 450; JNum 400; JNum 560; JNum 500]%float
    /\ targets (test data) = [JNum 520%float].
Proof.
  assert (E : preprocessData sampleRng (loaderOf sixRowRaw) = sampleRun)
    by (vm_compute; reflexivity).
  unfold sampleRun in E.
  eexists. eexists. split; [exact E|].
  destruct (split_partitions_valid_rows _ _ _ _ E)
    as (raw & Hraw & Hperm & Htrain & Htrain' & Htest & Htest' & _ & _ & _ & _
        & _ & _ & _ & _ & Hfy & _).
  injection Hraw as <-.
  split; [exact Hperm|].
  split; [rewrite Htrain; vm_compute; reflexivity|].
  split; [rewrite Htest; vm_compute; reflexivity|].
  split.
  { change (List.length (filter keepRow sixRowRaw)) with 5 in Hfy.
    cbn [map]. rewrite !Hfy by lia. vm_compute. reflexivity. }
  split; [rewrite Htrain'|rewrite Htest']; vm_compute; reflexivity.
Defined.

Lemma split_fails_on_the_scenario_file_witness :
  rawData (loaderOf oneRowRaw) = Some oneRowRaw
  /\ List.length (filter keepRow oneRowRaw) = 1
  /\ fst (preprocessData sampleRng (loaderOf oneRowRaw)) = Throw insufficientData.
Proof.
  split; [reflexivity|]. split; [reflexivity|].
  apply (split_fails_iff_single_valid_row sampleRng (loaderOf oneRowRaw) oneRowRaw).
  - reflexivity.
  - reflexivity.
  - vm_compute. reflexivity.
  - reflexivity.
Defined.

(** Two valid rows are split into one training and one test row: fewer
    than five valid rows do not make the split fail. *)

Lemma split_accepts_two_valid_rows :
  List.length (filter keepRow twoRowRaw) = 2
  /\ exists data this',
       preprocessData sampleRng (loaderOf twoRowRaw) = (Ok data, this')
       /\ List.length (features (train data)) = 1
       /\ List.length (features (test data)) = 1.
Proof.
  split; [reflexivity|]. vm_compute. eexists. eexists. repeat split.
Qed.

Lemma statistics_over_all_valid_rows_witness :
  parseCSV sixRowCsv = Ok sixRowRaw
  /\ List.length (filter keepRow sixRowRaw) = 5
  /\ featureStats (snd (preprocessData sampleRng (loaderOf sixRowRaw)))
     = Some (fitStatistics (filter keepRow sixRowRaw)).
Proof.
  assert (Hparse : parseCSV sixRowCsv = Ok sixRowRaw) by (vm_compute; reflexivity).
  split; [exact Hparse|]. split; [reflexivity|].
  apply (statistics_over_all_valid_rows sixRowCsv sixRowRaw sampleRng
           (loaderOf sixRowRaw) Hparse).
  - reflexivity.
  - reflexivity.
  - vm_compute. discriminate.
Defined.

Lemma transform_of_unseen_category_witness :
  featureStats sampleFitted = Some sampleStats
  /\ categoricalMappings sampleFitted = Some sampleMappings
  /\ existsb (sameValueZero (get unseenRow "drivetrain"))
             (vocabularyOf sampleMappings "drivetrain") = false
  /\ oneHotBlock (vocabularyOf sampleMappings "drivetrain") (get unseenRow "drivetrain")
     = repeat zero (List.length (vocabularyOf sampleMappings "drivetrain")).
Proof.
  assert (Hs : featureStats sampleFitted = Some sampleStats) by reflexivity.
  assert (Hm : categoricalMappings sampleFitted = Some sampleMappings) by reflexivity.
  assert (Hu : existsb (sameValueZero (get unseenRow "drivetrain"))
                       (vocabularyOf sampleMappings "drivetrain") = false)
    by (vm_compute; reflexivity).
  split; [exact Hs|]. split; [exact Hm|]. split; [exact Hu|].
  apply (transform_is_normalized_numbers_then_one_hot_blocks
           sampleFitted unseenRow numericalFeatures categoricalFeatures
           sampleStats sampleMappings Hs Hm).
  - intros f Hf. unfold numericalFeatures in Hf. simpl in Hf.
    repeat (destruct Hf as [<-|Hf]; [vm_compute; discriminate|]). destruct Hf.
  - intros f Hf. unfold categoricalFeatures in Hf. simpl in Hf.
    repeat (destruct Hf as [<-|Hf]; [vm_compute; discriminate|]). destruct Hf.
  - unfold categoricalFeatures. simpl. tauto.
  - exact Hu.
Defined.


Lemma history_of_a_complete_run_witness :
  model builtApp = true
  /\ reportsBothLosses behaviourOk
  /\ List.length (History.loss (trainingHistory
                     (snd (Root.trainModel behaviourOk sampleSplit builtApp))))
     = 200
  /\ List.length (History.loss (trainingHistory
                     (snd (Application.trainModel behaviourOk sampleSplit builtApp))))
     = 100.
Proof.
  assert (H : reportsBothLosses behaviourOk) by (intros e; discriminate).
  split; [reflexivity|]. split; [exact H|].
  destruct (history_has_one_record_per_epoch behaviourOk sampleSplit builtApp
              eq_refl H)
    as ((ls & _ & _ & _ & Hok) & (ls' & _ & _ & _ & Hok')).
  split.
  - apply Hok. vm_compute. reflexivity.
  - apply Hok'. vm_compute. reflexivity.
Defined.

(** The guard of [onEpochEnd] in [src/application/app.js]: were the first
    epoch to come without logs, which [model.fit] does not do, the run
    would complete with 99 records for 100 epochs. *)

Lemma application_history_shorter_than_epoch_count :
  fst (Application.trainModel behaviourNoLogs sampleSplit builtApp) = Ok tt
  /\ List.length (History.loss (trainingHistory
                    (snd (Application.trainModel behaviourNoLogs sampleSplit builtApp))))
     = 99
  /\ Application.totalEpochs = 100.
Proof. vm_compute. repeat split. Qed.

(** The drivetrain cells [9], [10] and [100] are read as numbers, and their
    vocabulary is in the order of their string forms, which is not the
    ascending order of the numbers. *)
Lemma vocabulary_of_number_cells_is_not_in_numeric_order :
  exists raw data this' mappings,
    parseCSV numberedDrivetrainCsv = Ok raw
    /\ column (filter keepRow raw) "drivetrain" = [JNum 9; JNum 10; JNum 100]%float
    /\ preprocessData sampleRng (loaderOf raw) = (Ok data, this')
    /\ categoricalMappings this' = Some mappings
    /\ dictGet mappings "drivetrain" = Some [JNum 10; JNum 100; JNum 9]%float
    /\ PrimFloat.ltb 9 100 = true.
Proof.
  eexists. eexists. eexists. eexists.
  split; [vm_compute; reflexivity|].
  split; [vm_compute; reflexivity|].
  split; [vm_compute; reflexivity|].
  split; [vm_compute; reflexivity|].
  split; vm_compute; reflexivity.
Qed.

Lemma predict_is_noop_while_training_witness :
  isTraining trainingApp = true
  /\ predict behaviourOk trainingApp = (Ok tt, trainingApp).
Proof.
  split; [reflexivity|].
  apply predict_is_noop_unless_ready_and_idle. right. reflexivity.
Defined.

Lemma predict_rejects_empty_seats_witness :
  fst (collectUserInput readyApp) = Ok sampleInput
  /\ predict behaviourOk readyApp
     = (Ok tt, logged readyApp
                 [ConsoleError "Invalid input for seats";
                  Alert "Prediction failed: Invalid input for seats"]).
Proof.
  split; [reflexivity|].
  assert (Hinv : exists key value, In (key, value) sampleInput /\ invalid value = true).
  { exists "seats", (JNum nan). split; [|reflexivity].
    unfold sampleInput. simpl. tauto. }
  destruct (predict_rejects_invalid_input_before_any_tensor
              behaviourOk readyApp sampleInput Hinv)
    as (key & value & _ & _ & Hfirst & _ & _ & Hpredict).
  assert (key = "seats") by (vm_compute in Hfirst; congruence). subst key.
  apply Hpredict; reflexivity.
Defined.

(** ** Checks of the built-ins *)

(** checks of the models of the built-ins *)
Example empty_string_is_numeric_but_parses_to_NaN :
  isNaN (JStr "") = false
  /\ JsNumber.StringToNumber "" = zero
  /\ JsNumber.parseFloat "" = nan
  /\ coerceCell "" = JNum nan
  /\ coerceCell "CCS" = JStr "CCS"
  /\ coerceCell "7.5" = JNum 7.5%float.
Proof. vm_compute. repeat split. Qed.

Example numbers_read_and_print :
  map JsNumber.parseFloat ["4500"; "-0.5"; "1e3"; ".25"; "12px"; "abc"]
  = [4500; -0.5; 1000; 0.25; 12; nan]%float
  /\ map JsNumber.NumberToString [4500; -0.5; 1e21; 0.25; 0.0009765625; 9; 10]%float
     = ["4500"; "-0.5"; "1e+21"; "0.25"; "0.0009765625"; "9"; "10"].
Proof. vm_compute. repeat split. Qed.

Example floor_mul_0_8_agrees_with_binary64 :
  forallb (fun n => match JsNumber.floorZ (JsNumber.float_of_Z n * 0x1.999999999999ap-1)%float with
                    | Some z => Z.eqb z (JsNumber.floor_mul_0_8 n)
                    | None => false
                    end)
          [0; 1; 2; 3; 4; 5; 6; 9; 10; 11; 99; 100; 101; 4294967295;
           4503599627370501; 9007199254740989]%Z
  = true.
Proof. vm_compute. reflexivity. Qed.

Example default_sort_orders_by_string_forms :
  sort [JStr "RWD"; JStr "AWD"; JStr "FWD"] = [JStr "AWD"; JStr "FWD"; JStr "RWD"]
  /\ setOf [JStr "CCS"; JStr "CHAdeMO"; JStr "CCS"] = [JStr "CCS"; JStr "CHAdeMO"].
Proof. vm_compute. repeat split. Qed.

End Samples.

Section Ingest.
Import JsValue DataLoader Host App.

Lemma split_aux_length : forall sep s cur,
  List.length (JsString.split_aux sep s cur) = S (occurrences sep s).
Proof.
  induction s as [|a s IH]; intros cur; cbn [JsString.split_aux occurrences].
  - reflexivity.
  - destruct (Ascii.eqb a sep); cbn [List.length]; rewrite IH; reflexivity.
Qed.

Lemma parseLines_length : forall headers lines,
  List.length (parseLines headers lines) <= List.length lines.
Proof.
  induction lines as [|line rest IH]; cbn [parseLines List.length]; [lia|].
  destruct (parseLine headers line); cbn [List.length]; lia.
Qed.

Lemma parseLines_In : forall headers lines row,
  In row (parseLines headers lines) ->
  exists line, In line lines /\ parseLine headers line = Some row.
Proof.
  induction lines as [|line rest IH]; cbn [parseLines]; intros row H; [destruct H|].
  destruct (parseLine headers line) as [r|] eqn:E.
  - destruct H as [<-|H].
    + exists line. split; [now left|assumption].
    + destruct (IH row H) as (l & Hl & Hp). exists l. split; [now right|assumption].
  - destruct (IH row H) as (l & Hl & Hp). exists l. split; [now right|assumption].
Qed.

Lemma parseCSV_eq : forall csvText,
  parseCSV csvText
  = if Nat.ltb (List.length (JsString.split LF (JsString.trim csvText))) 2 then
      Throw (Error "CSV parsing failed: CSV file must contain header and at least one data row")
    else Ok (parseLines (headersOf csvText)
                        (tl (JsString.split LF (JsString.trim csvText)))).
Proof.
  intros csvText. unfold parseCSV, headersOf.
  destruct (Nat.ltb _ 2); reflexivity.
Qed.

(** X1: [parseCSV] fails exactly on a text that, once trimmed, is a single line;
    otherwise it returns at most one row per line after the header. *)
Theorem parseCSV_needs_a_second_line : forall csvText,
  let lineBreaks := occurrences LF (JsString.trim csvText) in
  match parseCSV csvText with
  | Throw e =>
      lineBreaks = 0
      /\ e = Error "CSV parsing failed: CSV file must contain header and at least one data row"
  | Ok raw => 1 <= lineBreaks /\ List.length raw <= lineBreaks
  end.
Proof.
  intros csvText lineBreaks. rewrite parseCSV_eq.
  pose proof (split_aux_length LF (JsString.trim csvText) "") as Hl.
  fold (JsString.split LF (JsString.trim csvText)) in Hl. fold lineBreaks in Hl.
  destruct (Nat.ltb _ 2) eqn:E.
  - apply Nat.ltb_lt in E. split; [lia|reflexivity].
  - apply Nat.ltb_ge in E. split; [lia|].
    pose proof (parseLines_length (headersOf csvText)
                  (tl (JsString.split LF (JsString.trim csvText)))) as Hp.
    destruct (JsString.split LF (JsString.trim csvText)) as [|h t];
      cbn [tl List.length] in *; lia.
Qed.

Lemma dictHas_dictSet : forall (V : Type) (d : Dict V) k v k',
  dictHas (dictSet d k v) k' = dictHas d k' || String.eqb k k'.
Proof.
  intros V d k v k'. unfold dictHas.
  destruct (String.eqb k k') eqn:E.
  - apply String.eqb_eq in E. subst k'. rewrite dictGet_dictSet_same.
    now rewrite orb_true_r.
  - rewrite dictGet_dictSet_other; [now rewrite orb_false_r|].
    intros ->. now rewrite String.eqb_refl in E.
Qed.

Lemma dictHas_fold_setCell : forall l acc k,
  dictHas (fold_left setCell l acc) k
  = dictHas acc k
    || existsb (fun h => String.eqb k h && negb (String.eqb h "__proto__"))
               (map fst l).
Proof.
  induction l as [|[h v] l IH]; intros acc k; cbn [fold_left map existsb fst].
  - now rewrite orb_false_r.
  - rewrite IH. unfold setCell. cbn [fst snd].
    destruct (String.eqb h "__proto__"); cbn [negb].
    + now rewrite andb_false_r.
    + rewrite dictHas_dictSet, andb_true_r.
      rewrite (String.eqb_sym k h). now rewrite orb_assoc.
Qed.

Lemma map_fst_combine : forall (A B : Type) (a : list A) (b : list B),
  List.length b = List.length a -> map fst (combine a b) = a.
Proof.
  induction a as [|x a IH]; intros [|y b] H; cbn in *; try reflexivity; try discriminate.
  f_equal. apply IH. lia.
Qed.

Lemma dictHas_buildRow : forall headers values k,
  List.length values = List.length headers ->
  dictHas (buildRow headers values) k = true
  <-> In k headers /\ k <> "__proto__".
Proof.
  intros headers values k Hl. unfold buildRow.
  change (fun row hv => if String.eqb (fst hv) "__proto__" then row
                        else dictSet row (fst hv) (coerceCell (snd hv)))
    with setCell.
  rewrite dictHas_fold_setCell, map_fst_combine by assumption.
  cbn [dictHas dictGet orb]. rewrite existsb_exists. split.
  - intros (x & Hx & E). apply andb_true_iff in E. destruct E as [E N].
    apply String.eqb_eq in E. subst x. split; [assumption|].
    intros ->. discriminate N.
  - intros [H N]. exists k. split; [assumption|].
    rewrite String.eqb_refl. apply String.eqb_neq in N. now rewrite N.
Qed.

Lemma dictSet_keys_NoDup : forall (V : Type) (d : Dict V) k v,
  NoDup (map fst d) -> NoDup (map fst (dictSet d k v))
                       /\ forall x, In x (map fst (dictSet d k v)) <-> In x (map fst d) \/ x = k.
Proof.
  induction d as [|[k' v'] d IH]; intros k v Hd; cbn [dictSet map fst].
  - split; [constructor; [intros []|constructor]|]. intros x. cbn. intuition.
  - inversion Hd as [|? ? Hn Hd']; subst.
    destruct (String.eqb k' k) eqn:E; cbn [map fst].
    + apply String.eqb_eq in E. subst k'. split; [assumption|].
      intros x. cbn. intuition.
    + destruct (IH k v Hd') as [IH1 IH2]. split.
      * constructor; [|assumption]. rewrite IH2. intros [H|H]; [contradiction|].
        subst. now rewrite String.eqb_refl in E.
      * intros x. cbn. rewrite IH2. intuition.
Qed.

Lemma fold_setCell_keys_NoDup : forall l acc,
  NoDup (map fst acc) -> NoDup (map fst (fold_left setCell l acc)).
Proof.
  induction l as [|hv l IH]; intros acc H; cbn [fold_left]; [assumption|].
  apply IH. unfold setCell.
  destruct (String.eqb (fst hv) "__proto__"); [assumption|].
  now apply dictSet_keys_NoDup.
Qed.

Lemma parseCSV_row_keys : forall csvText raw row,
  parseCSV csvText = Ok raw ->
  In row raw ->
  (forall k, dictHas row k = true
             <-> In k (headersOf csvText) /\ k <> "__proto__")
  /\ NoDup (map fst row).
Proof.
  intros csvText raw row Hp Hin.
  rewrite parseCSV_eq in Hp. destruct (Nat.ltb _ 2); [discriminate|].
  injection Hp as <-.
  apply parseLines_In in Hin. destruct Hin as (line & _ & Hl).
  unfold parseLine in Hl.
  destruct (Nat.eqb _ _) eqn:E; [|discriminate]. injection Hl as <-.
  apply Nat.eqb_eq in E. split.
  - intros k. now apply dictHas_buildRow.
  - unfold buildRow.
    change (fun row hv => if String.eqb (fst hv) "__proto__" then row
                          else dictSet row (fst hv) (coerceCell (snd hv)))
      with setCell.
    apply fold_setCell_keys_NoDup. constructor.
Qed.


End Ingest.

Section Loading.
Import JsValue DataLoader Host App.

(** X3: [loadCSV] stores the parsed rows when there is at least one, and then
    only; every failure is reported with the prefix of [loadCSV], and leaves
    what was fitted and processed as it was.  The rows are replaced before
    the check for an empty file: a file without a valid row empties
    [rawData]. *)
Theorem loadCSV_stores_rows_or_fails_with_its_prefix :
  forall (filePath : string) (response : fetched) (this : DataLoader.t),
    let this' := snd (loadCSV filePath response this) in
    processedData this' = processedData this
    /\ featureStats this' = featureStats this
    /\ categoricalMappings this' = categoricalMappings this
    /\ match fst (loadCSV filePath response this) with
       | Ok _ =>
           exists csvText data,
             response = FetchOk csvText /\ parseCSV csvText = Ok data
             /\ data <> [] /\ rawData this' = Some data
       | Throw e =>
           (exists m, e = Error ("CSV loading failed: " ++ m))
           /\ (rawData this' = rawData this
               \/ (rawData this' = Some []
                   /\ e = Error "CSV loading failed: No data found in CSV file"))
       end.
Proof.
  intros filePath response this this'. unfold this', loadCSV.
  destruct response as [m|st|csvText]; cbn [fst snd].
  - repeat split; [now exists m|now left].
  - repeat split; [now exists ("Failed to load  " ++ st)%string|now left].
  - destruct (parseCSV csvText) as [data|e] eqn:E; cbn [fst snd].
    + destruct data as [|row data]; cbn [List.length Nat.eqb fst snd].
      * repeat split; [now exists "No data found in CSV file"|now right].
      * repeat split. exists csvText, (row :: data). repeat split; auto. discriminate.
    + repeat split; [now exists (message e)|now left].
Qed.

End Loading.

Section Failures.
Import JsValue DataLoader Host App.

Lemma preprocessData_eq : forall rng this raw,
  rawData this = Some raw -> raw <> [] ->
  preprocessData rng this
  = (rethrow "Data preprocessing failed: " (fst (preprocessTry rng this raw)),
     snd (preprocessTry rng this raw)).
Proof.
  intros rng this raw Hraw Hne. unfold preprocessData. rewrite Hraw.
  destruct raw as [|r raw]; [contradiction|]. cbn [List.length Nat.eqb].
  destruct (preprocessTry rng this (r :: raw)) as [x y]. reflexivity.
Qed.

Lemma preprocessData_no_data : forall rng this,
  rawData this = None \/ rawData this = Some [] ->
  preprocessData rng this = (Throw (Error "No data loaded. Call loadCSV first."), this).
Proof.
  intros rng this [H|H]; unfold preprocessData; rewrite H; reflexivity.
Qed.

Lemma preprocessData_cases : forall rng this,
  match preprocessData rng this with
  | (Ok data, this') =>
      exists raw, rawData this = Some raw
        /\ this' = withProcessed (fittedLoader this (filter keepRow raw)) data
  | (Throw e, this') =>
      failure this e
      /\ (e <> insufficientData -> this' = this)
      /\ (e = insufficientData ->
          exists raw, rawData this = Some raw
            /\ this' = fittedLoader this (filter keepRow raw))
  end.
Proof.
  intros rng this.
  destruct (rawData this) as [raw|] eqn:Hraw.
  2:{ rewrite preprocessData_no_data by auto. split; [constructor; auto|].
      split; [reflexivity|]. intros H. discriminate H. }
  destruct raw as [|r0 raw0] eqn:Eraw.
  { rewrite preprocessData_no_data by auto. split; [constructor; auto|].
    split; [reflexivity|]. intros H. discriminate H. }
  rewrite <- Eraw in *.
  assert (Hne : raw <> []) by (subst raw; discriminate).
  rewrite (preprocessData_eq rng this raw Hraw Hne).
  pose proof (preprocessTry_outcome rng this raw) as Ho.
  inversion Ho as [Hm E|Hm Hr E|Hm Hr Hc E|Hm Hr Hc E]; cbn [fst snd rethrow message].
  - split; [exact (Missing this raw Hraw Hne Hm)|].
    split; [reflexivity|]. intros H. discriminate H.
  - split; [exact (NoValid this raw Hraw Hne Hm Hr)|].
    split; [reflexivity|]. intros H. discriminate H.
  - split; [exact (Insufficient this raw Hraw Hm Hc Hr)|].
    split; [intros H; now contradiction H|]. intros _. exists raw. now split.
  - exists raw. now split.
Qed.

End Failures.

Section FailuresOfPreprocessData.
Import JsValue DataLoader Host App.

(** X4: [preprocessData] fails in four ways and no other: without data, on
    missing columns, without a valid row, and on a split with an empty
    side.  The errors for an empty vocabulary and for inconsistent shapes
    are never raised, and [transformFeatures] never fails inside it. *)
Theorem preprocessData_fails_in_four_ways :
  forall (rng : nat -> nat) (this : DataLoader.t) (e : exn),
    fst (preprocessData rng this) = Throw e <-> failure this e.
Proof.
  intros rng this e. split.
  - intros H. pose proof (preprocessData_cases rng this) as Hc.
    destruct (preprocessData rng this) as [[d|e'] this']; cbn [fst] in H; [discriminate|].
    injection H as ->. apply Hc.
  - intros H. pose proof (preprocessData_cases rng this) as Hc.
    destruct H as [H|raw Hraw Hne Hm|raw Hraw Hne Hm Hr|raw Hraw Hm Hchk Hr].
    + now rewrite preprocessData_no_data.
    + rewrite (preprocessData_eq rng this raw Hraw Hne).
      pose proof (preprocessTry_outcome rng this raw) as Ho.
      inversion Ho; try contradiction. reflexivity.
    + rewrite (preprocessData_eq rng this raw Hraw Hne).
      pose proof (preprocessTry_outcome rng this raw) as Ho.
      inversion Ho; try contradiction; try congruence. reflexivity.
    + assert (Hne : raw <> []) by (intros ->; now apply Hr).
      rewrite (preprocessData_eq rng this raw Hraw Hne).
      pose proof (preprocessTry_outcome rng this raw) as Ho.
      inversion Ho; try contradiction; try congruence. reflexivity.
Qed.

(** X5: A call of [preprocessData] that fails leaves the loader as it was,
    but for the failure of the split: statistics and vocabularies are then
    already fitted on the valid rows and stay; [processedData] is only
    written on success. *)
Theorem preprocessData_failure_keeps_the_loader_or_leaves_it_fitted :
  forall (rng : nat -> nat) (this : DataLoader.t) (e : exn),
    fst (preprocessData rng this) = Throw e ->
    let this' := snd (preprocessData rng this) in
    rawData this' = rawData this
    /\ processedData this' = processedData this
    /\ (e <> insufficientData -> this' = this)
    /\ (e = insufficientData ->
        exists raw,
          rawData this = Some raw
          /\ featureStats this' = Some (fitStatistics (filter keepRow raw))
          /\ categoricalMappings this' = Some (fittedVocabulary (filter keepRow raw))).
Proof.
  intros rng this e H this'. unfold this'.
  pose proof (preprocessData_cases rng this) as Hc.
  destruct (preprocessData rng this) as [[d|e'] t]; cbn [fst snd] in *; [discriminate|].
  injection H as ->. destruct Hc as (_ & Hsame & Hfit).
  assert (D : e = insufficientData \/ e <> insufficientData).
  { unfold insufficientData. destruct e as [m|m]; [|right; discriminate].
    destruct (string_dec m "Data preprocessing failed: Dataset too small for train/test split. Need at least 5 samples.")
      as [->|N]; [now left|right; congruence]. }
  destruct D as [D|D].
  - destruct (Hfit D) as (raw & Hraw & ->). repeat split; try reflexivity.
    + intros N. contradiction.
    + intros _. exists raw. repeat split; assumption.
  - rewrite (Hsame D). repeat split; try reflexivity. intros N. contradiction.
Qed.

(** X6: [getData] returns what the last successful [preprocessData] returned;
    a failed call does not change its answer. *)
Theorem getData_returns_the_last_processed_data :
  forall (rng : nat -> nat) (this : DataLoader.t),
    match preprocessData rng this with
    | (Ok data, this') => getData this' = Ok data
    | (Throw _, this') => getData this' = getData this
    end.
Proof.
  intros rng this. pose proof (preprocessData_cases rng this) as Hc.
  destruct (preprocessData rng this) as [[d|e] t].
  - destruct Hc as (raw & _ & ->). reflexivity.
  - destruct Hc as (_ & Hsame & Hfit).
    assert (D : e = insufficientData \/ e <> insufficientData).
    { unfold insufficientData. destruct e as [m|m]; [|right; discriminate].
      destruct (string_dec m "Data preprocessing failed: Dataset too small for train/test split. Need at least 5 samples.")
        as [->|N]; [now left|right; congruence]. }
    destruct D as [D|D].
    + destruct (Hfit D) as (raw & _ & ->). reflexivity.
    + now rewrite (Hsame D).
Qed.

End FailuresOfPreprocessData.

Section Shapes.
Import JsValue DataLoader Host App.

Lemma shuffled_index_in_range : forall rng n i,
  In i (shuffleIndices rng n) -> i < n.
Proof.
  intros rng n i H.
  apply (Permutation_in _ (shuffleIndices_perm rng n)) in H.
  apply in_seq in H. lia.
Qed.

Lemma in_firstn_of : forall (A : Type) k (l : list A) x, In x (firstn k l) -> In x l.
Proof.
  intros A k l x H. rewrite <- (firstn_skipn k l). apply in_or_app. now left.
Qed.

Lemma in_skipn_of : forall (A : Type) k (l : list A) x, In x (skipn k l) -> In x l.
Proof.
  intros A k l x H. rewrite <- (firstn_skipn k l). apply in_or_app. now right.
Qed.

Lemma pick_Forall : forall (A : Type) (P : A -> Prop) (array : list A) d indices,
  Forall P array ->
  (forall i, In i indices -> i < List.length array) ->
  Forall P (pick array d indices).
Proof.
  intros A P array d indices HP Hi. unfold pick. apply Forall_forall.
  intros x Hx. apply in_map_iff in Hx. destruct Hx as (i & <- & Hin).
  rewrite Forall_forall in HP. apply HP, nth_In, Hi, Hin.
Qed.

Lemma transformedRows_shape : forall rows,
  Forall (fun v => List.length v
                   = 9 + List.length (uniqueValues rows "fast_charge_port")
                     + List.length (uniqueValues rows "drivetrain"))
         (transformedRows rows).
Proof.
  intros rows. unfold transformedRows. apply Forall_forall. intros v Hv.
  apply in_map_iff in Hv. destruct Hv as (row & <- & _).
  rewrite featureVector_length. unfold categoricalFeatures, numericalFeatures.
  cbn [map list_sum List.length]. unfold vocabularyOf.
  rewrite !fittedVocabulary_defined by (unfold categoricalFeatures; simpl; tauto).
  cbn [list_sum fold_right]. lia.
Qed.

Lemma splitOf_shapes : forall rng rows,
  rows <> [] ->
  splitCheck (List.length rows) = false ->
  let d := splitOf rng rows (transformedRows rows) in
  let width := 9 + List.length (uniqueValues rows "fast_charge_port")
               + List.length (uniqueValues rows "drivetrain") in
  inputShape d = width
  /\ Forall (fun v => List.length v = width) (features (train d))
  /\ Forall (fun v => List.length v = width) (features (test d)).
Proof.
  intros rng rows Hne Hchk d width.
  assert (Hlen : List.length (transformedRows rows) = List.length rows)
    by (unfold transformedRows; apply length_map).
  assert (Hin : forall i, In i (shuffleIndices rng (List.length rows)) ->
                          i < List.length (transformedRows rows)).
  { intros i Hi. rewrite Hlen. eapply shuffled_index_in_range; eassumption. }
  assert (Htrain : Forall (fun v => List.length v = width) (features (train d))).
  { unfold d, splitOf. cbn [train features]. apply pick_Forall.
    - apply transformedRows_shape.
    - intros i Hi. apply Hin. eapply in_firstn_of. exact Hi. }
  assert (Htest : Forall (fun v => List.length v = width) (features (test d))).
  { unfold d, splitOf. cbn [test features]. apply pick_Forall.
    - apply transformedRows_shape.
    - intros i Hi. apply Hin. eapply in_skipn_of. exact Hi. }
  split; [|split; assumption].
  unfold splitCheck in Hchk. apply orb_false_iff in Hchk. destruct Hchk as [Hk Hk'].
  apply Nat.ltb_ge in Hk. apply Nat.ltb_ge in Hk'.
  pose proof (splitOf_train_length rng rows (transformedRows rows)) as Hl.
  fold d in Hl. specialize (Hl ltac:(lia)).
  change (inputShape d) with (List.length (hd [] (features (train d)))).
  destruct (features (train d)) as [|v vs] eqn:E.
  - cbn [List.length] in Hl. lia.
  - inversion Htrain; subst. assumption.
Qed.

End Shapes.

Section ShapesOfProcessedData.
Import JsValue DataLoader Host App.

Lemma pick_targets_length : forall rng rows transformed,
  let d := splitOf rng rows transformed in
  List.length (targets (train d)) = List.length (features (train d))
  /\ List.length (targets (test d)) = List.length (features (test d)).
Proof.
  intros rng rows transformed d. unfold d, splitOf. cbn [train test targets features].
  now rewrite !pick_length.
Qed.

Lemma uniqueValues_not_nil : forall rows f, rows <> [] -> uniqueValues rows f <> [].
Proof.
  intros rows f Hne E. pose proof (uniqueValues_nonempty rows f Hne) as H.
  rewrite E in H. discriminate H.
Qed.

(** X7: The data that [preprocessData] returns are of one shape: every feature
    vector of the training and of the test set has [inputShape] components,
    the nine numeric features and one position per value of the two
    vocabularies, which are not empty; and each set has as many targets as
    feature vectors. *)
Theorem processed_vectors_have_the_input_shape :
  forall (rng : nat -> nat) (this this' : DataLoader.t) (d : ProcessedData),
    preprocessData rng this = (Ok d, this') ->
    exists ports drivetrains,
      categoricalMappings this'
      = Some [("fast_charge_port", ports); ("drivetrain", drivetrains)]
      /\ ports <> [] /\ drivetrains <> []
      /\ inputShape d = 9 + List.length ports + List.length drivetrains
      /\ Forall (fun v => List.length v = inputShape d) (features (train d))
      /\ Forall (fun v => List.length v = inputShape d) (features (test d))
      /\ List.length (targets (train d)) = List.length (features (train d))
      /\ List.length (targets (test d)) = List.length (features (test d)).
Proof.
  intros rng this this' d H.
  apply preprocessData_Ok_inv in H.
  destruct H as (raw & Hraw & Hm & Hr & Hchk & -> & ->).
  set (rows := filter keepRow raw) in *.
  exists (uniqueValues rows "fast_charge_port"), (uniqueValues rows "drivetrain").
  destruct (splitOf_shapes rng rows Hr Hchk) as (Hshape & Htrain & Htest).
  destruct (pick_targets_length rng rows (transformedRows rows)) as (Ht1 & Ht2).
  split; [reflexivity|].
  split; [now apply uniqueValues_not_nil|].
  split; [now apply uniqueValues_not_nil|].
  rewrite Hshape. repeat split; assumption.
Qed.

Lemma fittedLoader_transform : forall this rows d userInput,
  transformUserInput (withProcessed (fittedLoader this rows) d) userInput
  = Ok (featureVector (fitStatistics rows) (fittedVocabulary rows)
                      numericalFeatures categoricalFeatures userInput).
Proof.
  intros this rows d userInput. unfold transformUserInput.
  cbn [withProcessed fittedLoader withStats withMappings featureStats categoricalMappings].
  rewrite (transformFeatures_fitted _ userInput numericalFeatures categoricalFeatures
             (fitStatistics rows) (fittedVocabulary rows)); try reflexivity.
  - intros f Hf. now rewrite fitStatistics_defined.
  - intros f Hf. now rewrite fittedVocabulary_defined.
Qed.

(** X8: Once [preprocessData] has succeeded, [transformUserInput] returns for
    every input object, also one with missing or ill-typed fields, a vector
    of [inputShape] components. *)
Theorem transformUserInput_after_preprocessData_has_the_input_shape :
  forall (rng : nat -> nat) (this this' : DataLoader.t) (d : ProcessedData)
         (userInput : Obj),
    preprocessData rng this = (Ok d, this') ->
    exists v, transformUserInput this' userInput = Ok v
              /\ List.length v = inputShape d.
Proof.
  intros rng this this' d userInput H.
  apply preprocessData_Ok_inv in H.
  destruct H as (raw & Hraw & Hm & Hr & Hchk & Hd & ->).
  set (rows := filter keepRow raw) in *.
  rewrite fittedLoader_transform. eexists. split; [reflexivity|].
  destruct (splitOf_shapes rng rows Hr Hchk) as (Hshape & _).
  rewrite Hd, Hshape, featureVector_length.
  unfold categoricalFeatures, numericalFeatures, vocabularyOf.
  cbn [map list_sum List.length fold_right].
  rewrite !fittedVocabulary_defined by (unfold categoricalFeatures; simpl; tauto).
  lia.
Qed.

Lemma append_head_differs : forall (a b : ascii) (s t u : string),
  a <> b -> (String a s ++ u)%string <> String b t.
Proof. intros a b s t u N E. cbn in E. injection E as E _. contradiction. Qed.

(** X9: [transformUserInput] reports a loader that is not trained exactly when
    statistics or vocabularies are not set. *)
Theorem transformUserInput_reports_not_trained_iff_unfitted :
  forall (this : DataLoader.t) (userInput : Obj),
    transformUserInput this userInput
    = Throw (Error "Model not trained. Cannot transform user input.")
    <-> featureStats this = None \/ categoricalMappings this = None.
Proof.
  intros this userInput. unfold transformUserInput.
  destruct (featureStats this) as [stats|], (categoricalMappings this) as [mappings|];
    try (split; [intros _; auto|reflexivity]).
  split.
  - destruct (transformFeatures this userInput numericalFeatures categoricalFeatures)
      as [v|e]; cbn [rethrow]; intros H; [discriminate|].
    injection H as H. cbn in H. discriminate H.
  - intros [H|H]; discriminate H.
Qed.

End ShapesOfProcessedData.

Section OneHot.
Import JsValue DataLoader Host App.

Lemma strictEquals_text : forall s c, strictEquals (JStr s) c = true -> c = JStr s.
Proof.
  intros s [| |x|t] H; cbn in H; try discriminate.
  apply String.eqb_eq in H. now subst.
Qed.

Lemma oneHotBlock_absent : forall s categories,
  ~ In (JStr s) categories ->
  oneHotBlock categories (JStr s) = repeat zero (List.length categories).
Proof.
  intros s categories H. apply oneHotBlock_unseen.
  destruct (existsb _ categories) eqn:E; [|reflexivity].
  apply existsb_exists in E. destruct E as (c & Hc & E).
  assert (c = JStr s).
  { destruct c as [| |x|t]; cbn in E; try discriminate.
    apply String.eqb_eq in E. now subst. }
  subst c. contradiction.
Qed.

Lemma uniqueValues_NoDup : forall rows f, NoDup (uniqueValues rows f).
Proof.
  intros rows f. unfold uniqueValues.
  eapply Permutation_NoDup; [apply sort_perm|apply setOf_NoDup].
Qed.

Lemma uniqueValues_covers_text : forall rows f row s,
  In row rows -> get row f = JStr s -> In (JStr s) (uniqueValues rows f).
Proof.
  intros rows f row s Hin Hg. unfold uniqueValues.
  apply (Permutation_in _ (sort_perm _)).
  assert (Hc : In (JStr s) (column rows f)).
  { unfold column. apply in_map_iff. exists row. now split. }
  pose proof (fold_setAdd_covers (column rows f) [] (JStr s) Hc) as E.
  apply existsb_exists in E. destruct E as (c & Hc' & E).
  assert (c = JStr s).
  { destruct c as [| |x|t]; cbn in E; try discriminate.
    apply String.eqb_eq in E. now subst. }
  now subst c.
Qed.

(** X10: A text value that was seen when the vocabulary was fitted is encoded
    with exactly one 1, at the position of the value in the vocabulary. *)
Theorem seen_text_category_is_encoded_by_a_single_one :
  forall (this : DataLoader.t) (mappings : Dict (list jsval)) (rows : list Obj)
         (seen row : Obj) (feature s : string),
    categoricalMappings this = Some mappings ->
    dictGet mappings feature = Some (uniqueValues rows feature) ->
    In seen rows ->
    get seen feature = JStr s ->
    get row feature = JStr s ->
    exists before after,
      uniqueValues rows feature = before ++ JStr s :: after
      /\ oneHot this row feature
         = Ok (repeat zero (List.length before) ++ one
               :: repeat zero (List.length after)).
Proof.
  intros this mappings rows seen row feature s Hm Hd Hin Hseen Hrow.
  pose proof (uniqueValues_covers_text rows feature seen s Hin Hseen) as Hc.
  destruct (in_split _ _ Hc) as (before & after & E).
  exists before, after. split; [exact E|].
  pose proof (uniqueValues_NoDup rows feature) as Hnd. rewrite E in Hnd.
  apply NoDup_remove_2 in Hnd.
  unfold oneHot. rewrite Hm, Hd, Hrow, E. f_equal.
  change (oneHotBlock (before ++ JStr s :: after) (JStr s)
          = repeat zero (List.length before) ++ one :: repeat zero (List.length after)).
  unfold oneHotBlock. rewrite map_app. cbn [map strictEquals].
  rewrite String.eqb_refl. f_equal; [|f_equal].
  - apply (oneHotBlock_absent s before). intros H. apply Hnd, in_or_app. now left.
  - apply (oneHotBlock_absent s after). intros H. apply Hnd, in_or_app. now right.
Qed.

End OneHot.

Section Filter.
Import JsValue DataLoader Host App.

Lemma missingColumns_nil : forall row,
  missingColumns row = [] <-> forall col, In col requiredColumns -> dictHas row col = true.
Proof.
  intros row. unfold missingColumns. split.
  - intros H col Hin. destruct (dictHas row col) eqn:E; [reflexivity|].
    assert (Hf : In col (filter (fun c => negb (dictHas row c)) requiredColumns)).
    { apply filter_In. split; [assumption|]. now rewrite E. }
    rewrite H in Hf. destruct Hf.
  - intros H. apply filter_all_false. intros col Hin. now rewrite (H col Hin).
Qed.

Lemma forallb_eq_in : forall (A : Type) (p q : A -> bool) l,
  (forall x, In x l -> p x = q x) -> forallb p l = forallb q l.
Proof.
  induction l as [|x l IH]; intros H; cbn [forallb]; [reflexivity|].
  rewrite (H x (or_introl eq_refl)), IH; [reflexivity|].
  intros y Hy. apply H. now right.
Qed.

Lemma present_coerced : forall row k,
  rowCoerced row -> dictHas row k = true -> present (get row k) = true.
Proof.
  intros row k Hc Hk. unfold rowCoerced in Hc. unfold dictHas in Hk. unfold get.
  induction row as [|[k' v] row IH]; cbn [dictGet] in *; [discriminate|].
  inversion Hc as [|? ? Hv Hc']; subst. cbn [snd] in Hv.
  destruct (String.eqb k' k).
  - destruct v; cbn in Hv |- *; try reflexivity; contradiction.
  - now apply IH.
Qed.

(** X11: For the rows of a parsed file whose header has the required columns,
    the filter of [preprocessData] looks at the nine numeric cells only: a
    row is kept exactly when each of them is a number.  The tests for an
    absent target or category never fail on such rows, so that a row is
    kept whatever its target and its categories (an empty cell included). *)
Theorem parsed_rows_are_kept_on_their_numeric_cells_alone :
  forall (csvText : string) (raw : list Obj) (row : Obj),
    parseCSV csvText = Ok raw ->
    missingColumns (hd [] raw) = [] ->
    In row raw ->
    keepRow row
    = forallb (fun f => negb (isNaN (get row f))) numericalFeatures.
Proof.
  intros csvText raw row Hp Hm Hin.
  assert (Hall : forall col, In col requiredColumns -> present (get row col) = true).
  { intros col Hcol.
    destruct raw as [|r0 raw']; [destruct Hin|]. cbn [hd] in Hm.
    destruct (parseCSV_row_keys csvText (r0 :: raw') r0 Hp (or_introl eq_refl))
      as (K0 & _).
    destruct (parseCSV_row_keys csvText (r0 :: raw') row Hp Hin) as (K & _).
    apply present_coerced.
    - pose proof (parseCSV_coerced _ _ Hp) as Hc. rewrite Forall_forall in Hc.
      now apply Hc.
    - apply K, K0. rewrite missingColumns_nil in Hm. now apply Hm. }
  unfold keepRow, hasAllFeatures.
  rewrite Hall by (unfold requiredColumns, targetColumn; apply in_or_app; right;
                   apply in_or_app; right; now left).
  cbn [negb].
  assert (Hcat : forallb (fun f => present (get row f)) categoricalFeatures = true).
  { apply forallb_forall. intros f Hf. apply Hall. unfold requiredColumns.
    apply in_or_app. right. apply in_or_app. now left. }
  rewrite Hcat, andb_true_r.
  apply forallb_eq_in. intros f Hf.
  rewrite Hall by (unfold requiredColumns; apply in_or_app; now left).
  reflexivity.
Qed.

End Filter.

Section ShuffleDraws.
Import JsValue DataLoader Host App.

Lemma swap_nth_other : forall l i j p, p <> i -> p <> j -> nth p (swap l i j) 0 = nth p l 0.
Proof.
  intros l i j p Hi Hj. unfold swap.
  rewrite nth_setNth_other by congruence. rewrite nth_setNth_other by congruence.
  reflexivity.
Qed.

Lemma shuffleLoop_above : forall rng i k l p,
  i < p -> nth p (shuffleLoop rng k i l) 0 = nth p l 0.
Proof.
  induction i as [|i IH]; intros k l p Hp; cbn [shuffleLoop]; [reflexivity|].
  rewrite IH by lia. apply swap_nth_other; [lia|].
  pose proof (Nat.mod_upper_bound (rng k) (S i + 1)). lia.
Qed.

Lemma shuffleLoop_draws : forall rng1 rng2 i k l,
  (forall d, k <= d < k + i -> rng1 d = rng2 d) ->
  shuffleLoop rng1 k i l = shuffleLoop rng2 k i l.
Proof.
  induction i as [|i IH]; intros k l H; cbn [shuffleLoop]; [reflexivity|].
  rewrite (H k) by lia. apply IH. intros d Hd. apply H. lia.
Qed.

(** X12: The shuffle of [n] indices reads [n - 1] random numbers and no more:
    two random sources that agree on them give the same order. *)
Theorem shuffleIndices_reads_one_draw_per_index_but_the_first :
  forall (rng1 rng2 : nat -> nat) (n : nat),
    (forall k, k < n - 1 -> rng1 k = rng2 k) ->
    shuffleIndices rng1 n = shuffleIndices rng2 n.
Proof.
  intros rng1 rng2 n H. unfold shuffleIndices. apply shuffleLoop_draws.
  intros d Hd. apply H. lia.
Qed.

(** X13: The first random number chooses the index that ends in the last
    position, and the later steps of the loop leave it there. *)
Theorem shuffleIndices_first_draw_chooses_the_last_index :
  forall (rng : nat -> nat) (n : nat),
    0 < n ->
    nth (n - 1) (shuffleIndices rng n) 0 = Nat.modulo (rng 0) n.
Proof.
  intros rng n Hn. unfold shuffleIndices.
  destruct n as [|[|m]]; [lia|reflexivity|].
  replace (S (S m) - 1) with (S m) by lia. cbn [shuffleLoop].
  rewrite shuffleLoop_above by lia.
  replace (S m + 1) with (S (S m)) by lia.
  set (j := Nat.modulo (rng 0) (S (S m))).
  assert (Hj : j < S (S m)) by (apply Nat.mod_upper_bound; lia).
  unfold swap. rewrite !seq_nth by lia. cbn [Nat.add].
  destruct (Nat.eq_dec j (S m)) as [E|N].
  - rewrite E. rewrite nth_setNth_same; [reflexivity|].
    rewrite setNth_length, length_seq. lia.
  - rewrite nth_setNth_other by congruence.
    rewrite nth_setNth_same; [reflexivity|]. rewrite length_seq. lia.
Qed.

End ShuffleDraws.

Section ShuffleReach.
Import JsValue DataLoader Host App.

Lemma skipn_setNth_above : forall l a v i,
  a <= i -> skipn (S i) (setNth l a v) = skipn (S i) l.
Proof.
  induction l as [|x l IH]; intros a v i H; [now destruct a|].
  destruct a as [|a]; cbn [setNth skipn]; [reflexivity|].
  destruct i as [|i]; [lia|]. apply (IH a v i). lia.
Qed.

Lemma skipn_swap_above : forall l i j,
  j <= i -> skipn (S i) (swap l i j) = skipn (S i) l.
Proof.
  intros l i j H. unfold swap.
  rewrite skipn_setNth_above by assumption. now rewrite skipn_setNth_above.
Qed.

Lemma skipn_nth_cons : forall (l : list nat) i,
  i < List.length l -> skipn i l = nth i l 0 :: skipn (S i) l.
Proof.
  induction l as [|x l IH]; intros i H; cbn [List.length] in H; [lia|].
  destruct i as [|i]; [reflexivity|]. cbn [skipn nth]. apply IH. lia.
Qed.

Lemma nth_swap_left : forall l i j,
  i < List.length l -> j < List.length l -> nth i (swap l i j) 0 = nth j l 0.
Proof.
  intros l i j Hi Hj. unfold swap.
  destruct (Nat.eq_dec i j) as [->|N].
  - rewrite nth_setNth_same; [reflexivity|now rewrite setNth_length].
  - rewrite nth_setNth_other by congruence. now rewrite nth_setNth_same.
Qed.

(** the lists that agree after position [i] are permutations of each
    other before it *)
Lemma heads_permuted : forall (l t : list nat) i,
  Permutation l t -> skipn i l = skipn i t ->
  Permutation (firstn i l) (firstn i t).
Proof.
  intros l t i Hp Hs.
  rewrite <- (firstn_skipn i l), <- (firstn_skipn i t), Hs in Hp.
  eapply Permutation_app_inv_r. exact Hp.
Qed.

Lemma shuffleLoop_reaches : forall i k l t,
  Permutation l t ->
  skipn (S i) l = skipn (S i) t ->
  i < List.length l ->
  exists rng, shuffleLoop rng k i l = t.
Proof.
  induction i as [|i IH]; intros k l t Hp Hs Hi.
  - exists (fun _ => 0). cbn [shuffleLoop].
    pose proof (heads_permuted l t 1 Hp Hs) as H1.
    rewrite <- (firstn_skipn 1 l), <- (firstn_skipn 1 t), Hs. f_equal.
    pose proof (Permutation_length Hp) as Hlen.
    destruct l as [|a l], t as [|b t]; cbn [List.length firstn] in *;
      try reflexivity; try discriminate.
    apply Permutation_length_1 in H1. now subst.
  - pose proof (Permutation_length Hp) as Hlen.
    pose proof (heads_permuted l t (S (S i)) Hp Hs) as Hh.
    assert (Hv : In (nth (S i) t 0) (firstn (S (S i)) l)).
    { apply (Permutation_in _ (Permutation_sym Hh)).
      rewrite <- (firstn_skipn (S i) (firstn (S (S i)) t)).
      apply in_or_app. right.
      assert (E : skipn (S i) (firstn (S (S i)) t) = [nth (S i) t 0]).
      { rewrite skipn_firstn_comm.
        replace (S (S i) - S i) with 1 by lia.
        rewrite (skipn_nth_cons t (S i)) by lia. reflexivity. }
      rewrite E. now left. }
    apply (In_nth _ _ 0) in Hv. destruct Hv as (j & Hj & Ej).
    rewrite length_firstn in Hj. rewrite nth_firstn in Ej.
    assert (Hjlt : j < S (S i)) by lia.
    apply Nat.ltb_lt in Hjlt. rewrite Hjlt in Ej. apply Nat.ltb_lt in Hjlt.
    assert (Hjl : j < List.length l) by lia.
    destruct (IH (S k) (swap l (S i) j) t) as (rng' & Hr).
    + eapply Permutation_trans; [apply swap_perm; assumption|assumption].
    + rewrite (skipn_nth_cons (swap l (S i) j) (S i)) by (now rewrite swap_length).
      rewrite (skipn_nth_cons t (S i)) by lia.
      rewrite nth_swap_left by assumption. rewrite Ej. f_equal.
      rewrite skipn_swap_above by lia. exact Hs.
    + rewrite swap_length. lia.
    + exists (fun x => if Nat.eqb x k then j else rng' x).
      cbn [shuffleLoop]. rewrite Nat.eqb_refl.
      replace (S i + 1) with (S (S i)) by lia.
      rewrite Nat.mod_small by lia.
      rewrite <- Hr. apply shuffleLoop_draws.
      intros d Hd. destruct (Nat.eqb_spec d k); [lia|reflexivity].
Qed.

(** X14: The shuffle can give every order: each permutation of the indices is
    the result of [shuffleIndices] for some sequence of random numbers. *)
Theorem shuffleIndices_reaches_every_permutation :
  forall (n : nat) (order : list nat),
    Permutation order (seq 0 n) ->
    exists rng, shuffleIndices rng n = order.
Proof.
  intros n order Hp. unfold shuffleIndices.
  pose proof (Permutation_length Hp) as Hlen. rewrite length_seq in Hlen.
  destruct n as [|n].
  { apply Permutation_sym, Permutation_nil in Hp. subst order.
    exists (fun _ => 0). reflexivity. }
  apply shuffleLoop_reaches.
  - now apply Permutation_sym.
  - replace (S (S n - 1)) with (S n) by lia.
    rewrite !skipn_all2; [reflexivity|lia|rewrite length_seq; lia].
  - rewrite length_seq. lia.
Qed.

End ShuffleReach.

Section Untouched.
Import JsValue DataLoader Host App.

#[local] Hint Resolve preserves_ret preserves_throw preserves_read preserves_lift
  preserves_optThrow preserves_bind preserves_tryCatch preserves_if : preserve.

(** *** What the calls of the library leave alone: a component [p] of the
    state that the tensors and the events are no part of *)
Section Calls.

Variables (X : Type) (p : App.t -> X).
Hypothesis p_emit : forall e, preserves p (emit e).
Hypothesis p_setLive : forall l n, preserves p (setLive l n).

#[local] Hint Resolve p_emit p_setLive : preserve.

Lemma kept_allocate : forall n, preserves p (allocate n).
Proof. intros n. unfold allocate. auto 10 with preserve. Qed.

Lemma kept_dispose : forall ts, preserves p (dispose ts).
Proof. intros. unfold dispose. auto 10 with preserve. Qed.

#[local] Hint Resolve kept_allocate kept_dispose : preserve.

Lemma kept_tensor2d : forall beh k n, preserves p (tensor2d beh k n).
Proof. intros. unfold tensor2d. auto 10 with preserve. Qed.

Lemma kept_data : forall beh k x, preserves p (data beh k x).
Proof. intros. unfold data. auto 10 with preserve. Qed.

Lemma kept_evaluate : forall beh, preserves p (evaluate beh).
Proof. intros. unfold evaluate. auto 10 with preserve. Qed.

Lemma kept_tidyPredict : forall beh, preserves p (tidyPredict beh).
Proof.
  intros. unfold tidyPredict.
  pose proof kept_tensor2d. auto 12 with preserve.
Qed.

Lemma kept_inApp : forall (A : Type) (c : M App.t A),
  preserves p c -> preserves (fun ls => p (snd ls)) (Application.inApp c).
Proof.
  intros A c H [l s]. unfold Application.inApp. cbn [fst snd].
  specialize (H s). destruct (c s) as [r s']. exact H.
Qed.

Lemma kept_assign : forall f, preserves (fun ls => p (snd ls)) (Application.assign f).
Proof. intros f s. reflexivity. Qed.

Lemma kept_local : forall f, preserves (fun ls => p (snd ls)) (Application.local f).
Proof.
  intros f s. unfold Application.local, bindM, read. cbn.
  destruct (f (fst s)); reflexivity.
Qed.

Lemma kept_disposeIf : forall f, preserves (fun ls => p (snd ls)) (Application.disposeIf f).
Proof.
  intros f s. unfold Application.disposeIf, bindM, read. cbn [fst snd].
  destruct (f (fst s)) as [x|]; [|reflexivity].
  apply (kept_inApp _ (dispose [x])). apply kept_dispose.
Qed.

End Calls.

(** *** What [onEpochEnd] leaves alone: a component that the history and
    the events are no part of *)
Section Epochs.

Variables (X : Type) (p : App.t -> X).
Hypothesis p_emit : forall e, preserves p (emit e).
Hypothesis p_setTrainingHistory : forall h, preserves p (setTrainingHistory h).

#[local] Hint Resolve p_emit p_setTrainingHistory : preserve.

Lemma kept_pushHistory : forall l, preserves p (pushHistory l).
Proof. intros. unfold pushHistory. auto 10 with preserve. Qed.

Lemma kept_showFixed : forall el v, preserves p (showFixed el v).
Proof. intros el [| |x|s']; unfold showFixed; auto with preserve. Qed.

#[local] Hint Resolve kept_pushHistory kept_showFixed : preserve.

Lemma kept_updateProgress : forall total epoch l, preserves p (updateProgress total epoch l).
Proof. intros. unfold updateProgress. auto 12 with preserve. Qed.

#[local] Hint Resolve kept_updateProgress : preserve.

Lemma kept_root_onEpochEnd : forall epoch logs, preserves p (Root.onEpochEnd epoch logs).
Proof. intros epoch [l|]; unfold Root.onEpochEnd; auto with preserve. Qed.

Lemma kept_application_onEpochEnd : forall epoch logs,
  preserves p (Application.onEpochEnd epoch logs).
Proof.
  intros epoch [l|]; unfold Application.onEpochEnd; auto with preserve.
Qed.

Lemma kept_fitLoop : forall beh onEpochEnd,
  (forall epoch logs, preserves p (onEpochEnd epoch logs)) ->
  forall remaining epoch, preserves p (fitLoop beh onEpochEnd epoch remaining).
Proof.
  intros beh onEpochEnd H. induction remaining as [|r IH]; intros epoch; cbn [fitLoop].
  - auto with preserve.
  - auto 10 with preserve.
Qed.

End Epochs.

End Untouched.

Section UntouchedByTraining.
Import JsValue DataLoader Host App.

#[local] Hint Resolve preserves_ret preserves_throw preserves_read preserves_lift
  preserves_optThrow preserves_bind preserves_tryCatch preserves_if : preserve.

(** *** What a training run leaves alone: a component that the tensors,
    the events, the history and [isTraining] are no part of *)
Section Run.

Variables (X : Type) (p : App.t -> X).
Hypothesis p_emit : forall e, preserves p (emit e).
Hypothesis p_setLive : forall l n, preserves p (setLive l n).
Hypothesis p_setTrainingHistory : forall h, preserves p (setTrainingHistory h).
Hypothesis p_setIsTraining : forall b, preserves p (setIsTraining b).

#[local] Hint Resolve p_emit p_setLive p_setTrainingHistory p_setIsTraining : preserve.

Lemma kept_evaluateAndDispose : forall beh a b c d,
  preserves p (evaluateAndDispose beh a b c d).
Proof.
  intros. unfold evaluateAndDispose.
  pose proof (kept_evaluate X p p_emit p_setLive).
  pose proof (kept_data X p p_emit).
  pose proof (kept_dispose X p p_emit p_setLive).
  auto 12 with preserve.
Qed.

Lemma kept_root_trainModel : forall beh d, preserves p (Root.trainModel beh d).
Proof.
  intros. unfold Root.trainModel, fit.
  pose proof (kept_tensor2d X p p_emit p_setLive).
  pose proof kept_evaluateAndDispose.
  pose proof (kept_fitLoop X p p_emit beh Root.onEpochEnd
                (kept_root_onEpochEnd X p p_emit p_setTrainingHistory)).
  apply preserves_bind; [auto with preserve|]. intros m.
  destruct (negb m); auto 20 with preserve.
Qed.

Lemma kept_withLocals : forall (A : Type) (c : M (Application.Locals * App.t) A),
  preserves (fun ls => p (snd ls)) c -> preserves p (Application.withLocals c).
Proof.
  intros A c H s. unfold Application.withLocals.
  specialize (H (Application.noLocals, s)).
  destruct (c (Application.noLocals, s)) as [r s']. exact H.
Qed.

Lemma kept_application_trainModel : forall beh d,
  preserves p (Application.trainModel beh d).
Proof.
  intros. unfold Application.trainModel, fit.
  pose proof (kept_tensor2d X p p_emit p_setLive).
  pose proof kept_evaluateAndDispose.
  pose proof (kept_fitLoop X p p_emit beh Application.onEpochEnd
                (kept_application_onEpochEnd X p p_emit p_setTrainingHistory)).
  pose proof (kept_inApp X p).
  pose proof (kept_assign X p).
  pose proof (kept_local X p).
  pose proof (kept_disposeIf X p p_emit p_setLive).
  apply preserves_bind; [auto with preserve|]. intros m.
  destruct (negb m); [auto with preserve|].
  apply preserves_bind; [auto with preserve|]. intros _.
  apply preserves_bind; [auto with preserve|]. intros _.
  apply kept_withLocals. cbv zeta.
  apply preserves_tryCatch; [|intros e; auto 20 with preserve].
  auto 40 with preserve.
Qed.

End Run.

End UntouchedByTraining.

Section Prediction.
Import JsValue DataLoader Host App.

#[local] Hint Resolve preserves_ret preserves_throw preserves_read preserves_lift
  preserves_optThrow preserves_bind preserves_tryCatch preserves_if : preserve.

Lemma fields_emit : forall e, preserves fields (emit e).
Proof. intros e s. reflexivity. Qed.

Lemma fields_setLive : forall l n, preserves fields (setLive l n).
Proof. intros l n s. reflexivity. Qed.

#[local] Hint Resolve fields_emit fields_setLive : preserve.

Lemma fields_allocate : forall n, preserves fields (allocate n).
Proof. intros n. unfold allocate. auto 10 with preserve. Qed.

Lemma fields_dispose : forall ts, preserves fields (dispose ts).
Proof. intros. unfold dispose. auto 10 with preserve. Qed.

#[local] Hint Resolve fields_allocate fields_dispose : preserve.

Lemma fields_tensor2d : forall beh k n, preserves fields (tensor2d beh k n).
Proof. intros. unfold tensor2d. auto 10 with preserve. Qed.

Lemma fields_data : forall beh k x, preserves fields (data beh k x).
Proof. intros. unfold data. auto 10 with preserve. Qed.

#[local] Hint Resolve fields_tensor2d fields_data : preserve.

Lemma fields_tidyPredict : forall beh, preserves fields (tidyPredict beh).
Proof. intros. unfold tidyPredict. auto 12 with preserve. Qed.

Lemma fields_elementValue : forall id, preserves fields (elementValue id).
Proof.
  intros id s. unfold elementValue, bindM, read. cbn.
  destruct (dictGet (dom s) id); reflexivity.
Qed.

#[local] Hint Resolve fields_tidyPredict fields_elementValue : preserve.

Lemma fields_collectUserInput : preserves fields collectUserInput.
Proof. unfold collectUserInput. auto 30 with preserve. Qed.

Lemma fields_predictSteps : forall beh userInput, preserves fields (predictSteps beh userInput).
Proof. intros. unfold predictSteps. auto 20 with preserve. Qed.

Lemma fields_predictCatch : forall e, preserves fields (predictCatch e).
Proof. intros. unfold predictCatch. auto with preserve. Qed.

#[local] Hint Resolve fields_collectUserInput fields_predictSteps fields_predictCatch
  : preserve.

Lemma fields_predict : forall beh, preserves fields (predict beh).
Proof. intros. unfold predict. auto 20 with preserve. Qed.

Lemma tryCatch_predictCatch : forall (c : M App.t unit) s,
  fst (tryCatch c predictCatch s) = Ok tt.
Proof.
  intros c s. unfold tryCatch. destruct (c s) as [[[]|e] s']; reflexivity.
Qed.

(** X15: [predict] never throws: every error of its body is caught, logged and
    shown in an alert.  It changes nothing of the predictor but the tensors
    of the library and the events: the model, the loader, the flags, the
    history and the form are as before. *)
Theorem predict_never_throws_and_keeps_the_fields :
  forall (beh : Behaviour) (s : App.t),
    fst (predict beh s) = Ok tt
    /\ model (snd (predict beh s)) = model s
    /\ dataLoader (snd (predict beh s)) = dataLoader s
    /\ isTraining (snd (predict beh s)) = isTraining s
    /\ isModelReady (snd (predict beh s)) = isModelReady s
    /\ trainingHistory (snd (predict beh s)) = trainingHistory s
    /\ dom (snd (predict beh s)) = dom s.
Proof.
  intros beh s. split.
  - unfold predict, bindM at 1, read. unfold bindM at 1.
    destruct (negb (isModelReady s) || isTraining s); [reflexivity|].
    apply tryCatch_predictCatch.
  - pose proof (fields_predict beh s) as H. unfold fields in H.
    inversion H. repeat split; reflexivity.
Qed.

End Prediction.

Section PredictionTensors.
Import JsValue DataLoader Host App.

Lemma keep_below : forall (l : list nat) ids,
  (forall i, In i l -> forall j, In j ids -> i <> j) ->
  filter (fun i => negb (existsb (Nat.eqb i) ids)) l = l.
Proof.
  induction l as [|x l IH]; intros ids H; cbn [filter]; [reflexivity|].
  assert (E : existsb (Nat.eqb x) ids = false).
  { destruct (existsb (Nat.eqb x) ids) eqn:E; [|reflexivity].
    apply existsb_exists in E. destruct E as (j & Hj & E). apply Nat.eqb_eq in E.
    exfalso. apply (H x (or_introl eq_refl) j Hj E). }
  rewrite E. cbn [negb]. f_equal. apply IH. intros i Hi. apply H. now right.
Qed.

Lemma drop_all : forall (ids : list nat),
  filter (fun i => negb (existsb (Nat.eqb i) ids)) ids = [].
Proof.
  intros ids. apply filter_all_false. intros x Hx.
  assert (E : existsb (Nat.eqb x) ids = true).
  { apply existsb_exists. exists x. split; [assumption|apply Nat.eqb_refl]. }
  now rewrite E.
Qed.

(** disposing the tensors [ids] that were allocated after [l] *)
Lemma dispose_new : forall (l : list nat) ids keep,
  (forall i, In i l -> forall j, In j ids -> i <> j) ->
  (forall i, In i keep -> forall j, In j ids -> i <> j) ->
  filter (fun i => negb (existsb (Nat.eqb i) ids)) (l ++ ids ++ keep) = l ++ keep.
Proof.
  intros l ids keep Hl Hk. rewrite !filter_app.
  now rewrite keep_below, drop_all, keep_below.
Qed.

Lemma bindM_ok : forall (S A B : Type) (c : M S A) (k : A -> M S B) s a s',
  c s = (Ok a, s') -> bindM c k s = k a s'.
Proof. intros S A B c k s a s' H. unfold bindM. now rewrite H. Qed.

Lemma bindM_throw : forall (S A B : Type) (c : M S A) (k : A -> M S B) s e s',
  c s = (Throw e, s') -> bindM c k s = (Throw e, s').
Proof. intros S A B c k s e s' H. unfold bindM. now rewrite H. Qed.

Lemma tryCatch_ok : forall (S A : Type) (c : M S A) (h : exn -> M S A) s a s',
  c s = (Ok a, s') -> tryCatch c h s = (Ok a, s').
Proof. intros S A c h s a s' H. unfold tryCatch. now rewrite H. Qed.

Lemma tryCatch_throw : forall (S A : Type) (c : M S A) (h : exn -> M S A) s e s',
  c s = (Throw e, s') -> tryCatch c h s = h e s'.
Proof. intros S A c h s e s' H. unfold tryCatch. now rewrite H. Qed.

Lemma dispose_last : forall (l : list nat) n,
  (forall i, In i l -> i <> n) ->
  filter (fun i => negb (existsb (Nat.eqb i) [n])) (l ++ [n]) = l.
Proof.
  intros l n H. rewrite filter_app, keep_below, (drop_all [n]); [apply app_nil_r|].
  intros i Hi j [<-|[]]. now apply H.
Qed.

Lemma bindM_read : forall (S A B : Type) (f : S -> A) (k : A -> M S B) s,
  bindM (read f) k s = k (f s) s.
Proof. reflexivity. Qed.

Ltac fresh_ids :=
  cbn [In]; intros; intuition; subst;
  repeat match goal with
         | H : forall i, In i ?l -> _, H' : In _ ?l |- _ => apply H in H'
         end; lia.

(** X16: When the handles of the live tensors were given out before, [predict]
    leaves the live tensors as they were: the input tensor is released by
    [tf.tidy] and the prediction after it is read.  The exception is a
    prediction whose [data()] throws: it stays allocated. *)
Theorem predict_releases_its_tensors_unless_reading_fails :
  forall (beh : Behaviour) (s : App.t),
    handlesGiven s ->
    let s' := snd (predict beh s) in
    handlesGiven s'
    /\ (dataThrows beh 0 = None -> live s' = live s)
    /\ (live s' = live s
        \/ (dataThrows beh 0 <> None /\ live s' = live s ++ [S (nextTensor s)])).
Proof.
  intros beh s Hs s'. unfold s'. clear s'.
  assert (Done : forall s0 : App.t,
            live s0 = live s -> nextTensor s <= nextTensor s0 ->
            handlesGiven s0
            /\ (dataThrows beh 0 = None -> live s0 = live s)
            /\ (live s0 = live s
                \/ (dataThrows beh 0 <> None /\ live s0 = live s ++ [S (nextTensor s)]))).
  { intros s0 Hl Hn. split; [|split; auto].
    unfold handlesGiven. rewrite Hl. intros i Hi. apply Hs in Hi. lia. }
  unfold predict.
  rewrite !bindM_read.
  destruct (negb (isModelReady s) || isTraining s); [apply Done; [reflexivity|cbn; lia]|].
  destruct (collectUserInput s) as [[userInput|e] s1] eqn:Ec;
    pose proof (collectUserInput_state _ _ _ Ec); subst s1.
  2:{ rewrite (tryCatch_throw _ _ _ _ s e s) by (now apply bindM_throw).
      apply Done; [reflexivity|cbn; lia]. }
  destruct (predictSteps beh userInput s) as [r s2] eqn:Es.
  assert (Hsteps : handlesGiven s2
            /\ (dataThrows beh 0 = None -> live s2 = live s)
            /\ (live s2 = live s
                \/ (dataThrows beh 0 <> None /\ live s2 = live s ++ [S (nextTensor s)]))).
  { unfold predictSteps in Es. unfold bindM at 1, lift in Es.
    destruct (validateInput userInput) as [[]|e].
    2:{ injection Es as <- <-. apply Done; [reflexivity|cbn; lia]. }
    cbn [bindM emit read fst snd dataLoader] in Es. unfold lift in Es.
    destruct (transformUserInput (dataLoader s) userInput) as [v|e].
    2:{ injection Es as <- <-. apply Done; [reflexivity|cbn; lia]. }
    unfold tidyPredict, tensor2d in Es. cbn [bindM] in Es.
    destruct (tensor2dThrows beh 0) as [m|]; cbn [optThrow throw ret] in Es.
    { injection Es as <- <-. apply Done; [reflexivity|cbn; lia]. }
    unfold handlesGiven in Hs.
    assert (E0 : filter (fun i => negb (existsb (Nat.eqb i) [nextTensor s]))
                        (live s ++ [nextTensor s]) = live s).
    { apply dispose_last. intros i Hi. apply Hs in Hi. lia. }
    assert (E1 : filter (fun i => negb (existsb (Nat.eqb i) [nextTensor s]))
                        ((live s ++ [nextTensor s]) ++ [S (nextTensor s)])
                 = live s ++ [S (nextTensor s)]).
    { rewrite <- app_assoc. apply dispose_new; fresh_ids. }
    assert (E2 : filter (fun i => negb (existsb (Nat.eqb i) [S (nextTensor s)]))
                        (live s ++ [S (nextTensor s)]) = live s).
    { apply dispose_last. intros i Hi. apply Hs in Hi. lia. }
    cbn -[filter existsb] in Es.
    destruct (predictThrows beh) as [m|]; cbn -[filter existsb] in Es.
    { injection Es as <- <-. apply Done; cbn [live nextTensor]; [exact E0|lia]. }
    rewrite E1 in Es. unfold data in Es. cbn [bindM] in Es.
    destruct (dataThrows beh 0) as [m|] eqn:Ed; cbn -[filter existsb] in Es.
    - injection Es as <- <-. split; [|split].
      + unfold handlesGiven. cbn [live nextTensor]. intros i Hi.
        apply in_app_or in Hi. destruct Hi as [Hi|[<-|[]]]; [apply Hs in Hi|]; lia.
      + intros N. discriminate N.
      + right. split; [discriminate|reflexivity].
    - rewrite E2 in Es. injection Es as <- <-. split; [|split; auto].
      unfold handlesGiven. cbn [live nextTensor]. intros i Hi. apply Hs in Hi. lia. }
  destruct r as [[]|e].
  - rewrite (tryCatch_ok _ _ _ _ s tt s2); [exact Hsteps|].
    rewrite (bindM_ok _ _ _ collectUserInput _ s userInput s Ec). exact Es.
  - rewrite (tryCatch_throw _ _ _ _ s e s2).
    2:{ rewrite (bindM_ok _ _ _ collectUserInput _ s userInput s Ec). exact Es. }
    exact Hsteps.
Qed.

End PredictionTensors.

Section TrainingTensors.
Import JsValue DataLoader Host App.

#[local] Hint Resolve preserves_ret preserves_throw preserves_read preserves_lift
  preserves_optThrow preserves_bind preserves_tryCatch preserves_if : preserve.

Lemma tensors_emit : forall e, preserves tensors (emit e).
Proof. intros e s. reflexivity. Qed.

Lemma tensors_setTrainingHistory : forall h, preserves tensors (setTrainingHistory h).
Proof. intros h s. reflexivity. Qed.

Lemma tensors_setIsTraining : forall b, preserves tensors (setIsTraining b).
Proof. intros b s. reflexivity. Qed.

Lemma tensors_eq : forall s s', tensors s' = tensors s ->
  live s' = live s /\ nextTensor s' = nextTensor s.
Proof. intros s s' H. unfold tensors in H. inversion H. now split. Qed.

Lemma tensors_fit : forall beh epochs onEpochEnd,
  (forall epoch logs, preserves tensors (onEpochEnd epoch logs)) ->
  preserves tensors (fit beh epochs onEpochEnd).
Proof.
  intros beh epochs onEpochEnd H. unfold fit.
  apply kept_fitLoop; auto using tensors_emit.
Qed.

Lemma tensors_root_fit : forall beh,
  preserves tensors (fit beh Root.totalEpochs Root.onEpochEnd).
Proof.
  intros beh. apply tensors_fit. intros epoch logs.
  apply kept_root_onEpochEnd; auto using tensors_emit, tensors_setTrainingHistory.
Qed.

Lemma tensors_application_fit : forall beh,
  preserves tensors (fit beh Application.totalEpochs Application.onEpochEnd).
Proof.
  intros beh. apply tensors_fit. intros epoch logs.
  apply kept_application_onEpochEnd; auto using tensors_emit, tensors_setTrainingHistory.
Qed.

(** [tf.tensor2d]: a tensor with the next handle, or an error and no tensor *)
Lemma tensor2d_spec : forall beh k n s,
  match tensor2d beh k n s with
  | (Ok x, s') =>
      tensor2dThrows beh k = None
      /\ x = mkTensor (nextTensor s) n
      /\ live s' = live s ++ [nextTensor s]
      /\ nextTensor s' = S (nextTensor s)
  | (Throw e, s') =>
      tensor2dThrows beh k <> None /\ live s' = live s /\ nextTensor s' = nextTensor s
  end.
Proof.
  intros beh k n s. unfold tensor2d. cbn [bindM].
  destruct (tensor2dThrows beh k) as [m|]; cbn.
  - repeat split. discriminate.
  - repeat split.
Qed.

(** the evaluation and the release of the six tensors, from a state in
    which the four tensors of the data, of handles [n] to [n + 3], are the
    last allocated *)
Lemma evaluateAndDispose_spec : forall beh a b c d s l n,
  live s = l ++ [n; n + 1; n + 2; n + 3] ->
  nextTensor s = n + 4 ->
  tid a = n -> tid b = n + 1 -> tid c = n + 2 -> tid d = n + 3 ->
  match evaluateAndDispose beh a b c d s with
  | (Ok _, s') =>
      ((forall i, In i l -> i < n) -> live s' = l) /\ nextTensor s' = n + 6
  | (Throw e, s') =>
      (evaluateThrows beh <> None /\ live s' = live s /\ nextTensor s' = n + 4)
      \/ (evaluateThrows beh = None
          /\ (dataThrows beh 0 <> None \/ dataThrows beh 1 <> None)
          /\ live s' = live s ++ [n + 4; n + 5]
          /\ nextTensor s' = n + 6)
  end.
Proof.
  intros beh a b c d s l n Hl Hn Ha Hb Hc Hd.
  unfold evaluateAndDispose, evaluate. cbn [bindM].
  destruct (evaluateThrows beh) as [m|] eqn:Ee; cbn [optThrow throw ret].
  { left. repeat split; [discriminate|assumption]. }
  cbn -[filter existsb]. unfold data. cbn [bindM].
  replace (S (nextTensor s)) with (n + 5) by lia.
  replace (S (n + 5)) with (n + 6) by lia.
  rewrite Hn.
  destruct (dataThrows beh 0) as [m|] eqn:E0; cbn -[filter existsb].
  { right. repeat split; auto.
    - left. discriminate.
    - now rewrite <- app_assoc. }
  destruct (dataThrows beh 1) as [m|] eqn:E1; cbn -[filter existsb].
  { right. repeat split; auto.
    - right. discriminate.
    - now rewrite <- app_assoc. }
  split; [|reflexivity]. intros Hfresh.
  rewrite Hl, Ha, Hb, Hc, Hd. rewrite <- !app_assoc.
  change ([n; n + 1; n + 2; n + 3] ++ [n + 4] ++ [n + 5])
    with ([n; n + 1; n + 2; n + 3; n + 4; n + 5] ++ []).
  rewrite dispose_new; [apply app_nil_r| |intros i []].
  intros i Hi j Hj E. subst j. apply Hfresh in Hi. cbn [In] in Hj. lia.
Qed.

End TrainingTensors.

Section RootTraining.
Import JsValue DataLoader Host App.

Lemma bindM_fst_ok : forall (S A B : Type) (c : M S A) (k : A -> M S B) s a,
  fst (c s) = Ok a -> bindM c k s = k a (snd (c s)).
Proof. intros S A B c k s a H. unfold bindM. destruct (c s) as [r s']. cbn in *. now subst. Qed.

Lemma root_trainModel_cases : forall beh d s,
  model s = true ->
  handlesGiven s ->
  match Root.trainModel beh d s with
  | (Ok _, s') => live s' = live s
  | (Throw _, s') =>
      exists k, k <= 6
        /\ live s' = live s ++ seq (nextTensor s) k
        /\ (k = 0 <-> tensor2dThrows beh 0 <> None)
  end.
Proof.
  intros beh d s Hmodel Hs. unfold Root.trainModel.
  rewrite bindM_read, Hmodel. cbn [negb].
  rewrite (bindM_fst_ok _ _ _ (setIsTraining true) _ s tt eq_refl).
  set (s00 := snd (setIsTraining true s)).
  rewrite (bindM_fst_ok _ _ _ (setTrainingHistory History.empty) _ s00 tt eq_refl).
  set (s0 := snd (setTrainingHistory History.empty s00)).
  assert (L0 : live s0 = live s) by reflexivity.
  assert (N0 : nextTensor s0 = nextTensor s) by reflexivity.
  clearbody s0. clear s00.
  set (n := nextTensor s) in *.
  match goal with
  | |- context [tryCatch ?c ?h] => set (body := c); set (handler := h)
  end.
  assert (Hh : forall e s1, handler e s1
             = (Throw e, snd (handler e s1)) /\ live (snd (handler e s1)) = live s1).
  { intros e s1. split; reflexivity. }
  assert (Hbody : match body s0 with
                  | (Ok _, s') => live s' = live s
                  | (Throw _, s') =>
                      exists k, k <= 6 /\ live s' = live s ++ seq n k
                        /\ (k = 0 <-> tensor2dThrows beh 0 <> None)
                  end).
  { unfold body. cbv zeta.
    pose proof (tensor2d_spec beh 0 (List.length (features (train d))) s0) as T.
    destruct (tensor2d beh 0 _ s0) as [[x0|e] s1] eqn:E;
      [rewrite (bindM_ok _ _ _ _ _ _ _ _ E)|rewrite (bindM_throw _ _ _ _ _ _ _ _ E)].
    2:{ destruct T as (T & L & _). exists 0. cbn [seq]. rewrite app_nil_r.
        split; [lia|]. split; [congruence|]. split; auto. }
    destruct T as (T0 & X0 & L1 & N1). clear E.
    pose proof (tensor2d_spec beh 1 (List.length (targets (train d))) s1) as T.
    destruct (tensor2d beh 1 _ s1) as [[x1|e] s2] eqn:E;
      [rewrite (bindM_ok _ _ _ _ _ _ _ _ E)|rewrite (bindM_throw _ _ _ _ _ _ _ _ E)].
    2:{ destruct T as (T & L & _). exists 1. cbn [seq].
        split; [lia|]. split; [congruence|]. split; [lia|congruence]. }
    destruct T as (T1 & X1 & L2 & N2). clear E.
    pose proof (tensor2d_spec beh 2 (List.length (features (test d))) s2) as T.
    destruct (tensor2d beh 2 _ s2) as [[x2|e] s3] eqn:E;
      [rewrite (bindM_ok _ _ _ _ _ _ _ _ E)|rewrite (bindM_throw _ _ _ _ _ _ _ _ E)].
    2:{ destruct T as (T & L & _). exists 2. cbn [seq].
        split; [lia|]. split; [|split; [lia|congruence]].
        rewrite L, L2, L1, N1, L0, N0, <- app_assoc. reflexivity. }
    destruct T as (T2 & X2 & L3 & N3). clear E.
    pose proof (tensor2d_spec beh 3 (List.length (targets (test d))) s3) as T.
    destruct (tensor2d beh 3 _ s3) as [[x3|e] s4] eqn:E;
      [rewrite (bindM_ok _ _ _ _ _ _ _ _ E)|rewrite (bindM_throw _ _ _ _ _ _ _ _ E)].
    2:{ destruct T as (T & L & _). exists 3. cbn [seq].
        split; [lia|]. split; [|split; [lia|congruence]].
        rewrite L, L3, L2, L1, N2, N1, L0, N0, <- !app_assoc. reflexivity. }
    destruct T as (T3 & X3 & L4 & N4). clear E.
    assert (L : live s4 = live s ++ [n; n + 1; n + 2; n + 3]).
    { rewrite L4, L3, L2, L1, N3, N2, N1, L0, N0, <- !app_assoc. cbn [app].
      repeat f_equal; lia. }
    assert (N : nextTensor s4 = n + 4) by lia.
    destruct (tensors_eq _ _ (tensors_root_fit beh s4)) as (L5 & N5).
    destruct (fit beh Root.totalEpochs Root.onEpochEnd s4) as [[[]|e] s5] eqn:E;
      cbn [snd] in L5, N5;
      [rewrite (bindM_ok _ _ _ _ _ _ _ _ E)|rewrite (bindM_throw _ _ _ _ _ _ _ _ E)].
    2:{ exists 4. cbn [seq]. split; [lia|]. split; [|split; [lia|congruence]].
        rewrite L5, L. repeat f_equal; lia. }
    pose proof (evaluateAndDispose_spec beh x0 x1 x2 x3 s5 (live s) n) as Hev.
    rewrite L5, N5 in Hev. specialize (Hev L N).
    specialize (Hev ltac:(subst x0; cbn; lia) ltac:(subst x1; cbn; lia)
                    ltac:(subst x2; cbn; lia) ltac:(subst x3; cbn; lia)).
    destruct (evaluateAndDispose beh x0 x1 x2 x3 s5) as [[[]|e] s6].
    - apply Hev, Hs.
    - destruct Hev as [(_ & L6 & _)|(_ & _ & L6 & _)].
      + exists 4. cbn [seq]. split; [lia|]. split; [|split; [lia|congruence]].
        rewrite L6, L. repeat f_equal; lia.
      + exists 6. cbn [seq]. split; [lia|]. split; [|split; [lia|congruence]].
        rewrite L6, L, <- app_assoc. cbn [app]. repeat f_equal; lia. }
  unfold tryCatch. destruct (body s0) as [[[]|e] s1].
  - exact Hbody.
  - destruct (Hh e s1) as (E1 & E2). rewrite E1, E2. exact Hbody.
Qed.

(** X18: [trainModel] of [src/app.js] releases the tensors it created when it
    succeeds, and only then: when it fails, the tensors created so far (the
    [k] handles from [nextTensor] on) are all still allocated.  Nothing is
    left only when the first [tf.tensor2d] is the call that throws. *)
Theorem root_trainModel_releases_its_tensors_on_success_only :
  forall (beh : Behaviour) (d : ProcessedData) (s : App.t),
    model s = true ->
    handlesGiven s ->
    match Root.trainModel beh d s with
    | (Ok _, s') => live s' = live s
    | (Throw _, s') =>
        exists k, k <= 6
          /\ live s' = live s ++ seq (nextTensor s) k
          /\ (k = 0 <-> tensor2dThrows beh 0 <> None)
    end.
Proof. exact root_trainModel_cases. Qed.

End RootTraining.

Section ApplicationTraining.
Import JsValue DataLoader Host App.

Lemma filter_twice : forall (ids1 ids2 l : list nat),
  filter (fun i => negb (existsb (Nat.eqb i) ids2))
         (filter (fun i => negb (existsb (Nat.eqb i) ids1)) l)
  = filter (fun i => negb (existsb (Nat.eqb i) (ids1 ++ ids2))) l.
Proof.
  intros ids1 ids2. induction l as [|x l IH]; [reflexivity|].
  cbn [filter]. rewrite existsb_app.
  destruct (existsb (Nat.eqb x) ids1); cbn [negb orb filter].
  - exact IH.
  - destruct (existsb (Nat.eqb x) ids2); cbn [negb]; now rewrite IH.
Qed.

Lemma filter_none : forall (l : list nat),
  filter (fun i => negb (existsb (Nat.eqb i) [])) l = l.
Proof. intros l. apply keep_below. intros i _ j []. Qed.

Lemma bind_inApp : forall (A B : Type) (c : M App.t A)
  (k : A -> M (Application.Locals * App.t) B) loc s,
  bindM (Application.inApp c) k (loc, s)
  = match c s with
    | (Ok a, s') => k a (loc, s')
    | (Throw e, s') => (Throw e, (loc, s'))
    end.
Proof.
  intros A B c k loc s. unfold bindM, Application.inApp. cbn [fst snd].
  destruct (c s) as [[a|e] s']; reflexivity.
Qed.

Lemma disposeIf_eq : forall f loc s,
  Application.disposeIf f (loc, s)
  = (Ok tt, (loc, match f loc with
                  | Some x => snd (dispose [x] s)
                  | None => s
                  end)).
Proof.
  intros f loc s. unfold Application.disposeIf, bindM, read. cbn [fst snd].
  destruct (f loc) as [x|]; reflexivity.
Qed.

End ApplicationTraining.

Section ApplicationCases.
Import JsValue DataLoader Host App.

Lemma evaluateAndDispose_idle : forall beh a b c d s u s',
  evaluateAndDispose beh a b c d s = (Ok u, s') -> isTraining s' = false.
Proof.
  intros beh a b c d s u s'. unfold evaluateAndDispose, evaluate, data. cbn [bindM].
  destruct (evaluateThrows beh); cbn [optThrow throw ret]; [discriminate|].
  cbn -[filter existsb].
  destruct (dataThrows beh 0); cbn -[filter existsb]; [discriminate|].
  destruct (dataThrows beh 1); cbn -[filter existsb]; [discriminate|].
  intros H. injection H as _ <-. reflexivity.
Qed.

Lemma dispose_tail : forall (l ids : list nat),
  (forall i, In i l -> forall j, In j ids -> i <> j) ->
  filter (fun i => negb (existsb (Nat.eqb i) ids)) (l ++ ids) = l.
Proof.
  intros l ids H. rewrite filter_app, keep_below, drop_all by assumption.
  apply app_nil_r.
Qed.

Lemma bindM_throw0 : forall (S A B : Type) (e : exn) (k : A -> M S B) s,
  bindM (throw e) k s = (Throw e, s).
Proof. reflexivity. Qed.

Lemma bindM_ret : forall (S A B : Type) (a : A) (k : A -> M S B) s,
  bindM (ret a) k s = k a s.
Proof. reflexivity. Qed.

Lemma bind_assign : forall (B : Type) f (k : unit -> M (Application.Locals * App.t) B) loc s,
  bindM (Application.assign f) k (loc, s) = k tt (f loc, s).
Proof. reflexivity. Qed.

Lemma bind_local : forall (B : Type) f (k : Tensor -> M (Application.Locals * App.t) B)
  loc s x,
  f loc = Some x -> bindM (Application.local f) k (loc, s) = k x (loc, s).
Proof.
  intros B f k loc s x H. unfold Application.local, bindM, read. cbn [fst snd].
  now rewrite H.
Qed.

Lemma application_trainModel_cases : forall beh d s,
  model s = true ->
  match Application.trainModel beh d s with
  | (Ok _, s') =>
      isTraining s' = false
      /\ nextTensor s <= nextTensor s'
      /\ (handlesGiven s -> live s' = live s)
  | (Throw e, s') =>
      (exists m, e = Error ("Training failed: " ++ m))
      /\ isTraining s' = false
      /\ nextTensor s <= nextTensor s'
      /\ (handlesGiven s ->
          live s' = live s
          \/ (evaluateThrows beh = None
              /\ (dataThrows beh 0 <> None \/ dataThrows beh 1 <> None)
              /\ live s' = live s ++ [nextTensor s + 4; nextTensor s + 5]
              /\ nextTensor s' = nextTensor s + 6))
  end.
Proof.
  intros beh d s Hmodel. unfold Application.trainModel.
  rewrite bindM_read, Hmodel. cbn [negb].
  rewrite (bindM_fst_ok _ _ _ (setIsTraining true) _ s tt eq_refl).
  set (s00 := snd (setIsTraining true s)).
  rewrite (bindM_fst_ok _ _ _ (setTrainingHistory History.empty) _ s00 tt eq_refl).
  set (s0 := snd (setTrainingHistory History.empty s00)).
  assert (L0 : live s0 = live s) by reflexivity.
  assert (N0 : nextTensor s0 = nextTensor s) by reflexivity.
  clearbody s0. clear s00.
  set (n := nextTensor s) in *.
  match goal with
  | |- context [tryCatch ?c ?h] => set (body := c); set (handler := h)
  end.
  assert (Hh : forall e loc s1,
            exists sH, handler e (loc, s1)
                       = (Throw (Error ("Training failed: " ++ message e)), (loc, sH))
              /\ isTraining sH = false
              /\ nextTensor sH = nextTensor s1
              /\ live sH = filter (fun i => negb (existsb (Nat.eqb i) (definedIds loc)))
                                  (live s1)).
  { intros e loc s1. unfold handler.
    rewrite bind_inApp. cbn [emit]. rewrite bind_inApp. cbn [setIsTraining].
    unfold bindM. rewrite !disposeIf_eq. cbn [throw].
    eexists. split; [reflexivity|].
    destruct loc as [[x|] [y|] [z|] [w|]];
      cbn -[filter existsb]; unfold definedIds; cbn -[filter existsb];
      rewrite ?filter_twice, ?filter_none; cbn [app]; repeat split. }
  assert (Hbody :
    match body (Application.noLocals, s0) with
    | (Ok _, (loc, s1)) =>
        isTraining s1 = false /\ n <= nextTensor s1
        /\ (handlesGiven s -> live s1 = live s)
    | (Throw e, (loc, s1)) =>
        (exists k, k <= 4 /\ definedIds loc = seq n k
                   /\ nextTensor s1 = n + k /\ live s1 = live s ++ seq n k)
        \/ (definedIds loc = seq n 4
            /\ evaluateThrows beh = None
            /\ (dataThrows beh 0 <> None \/ dataThrows beh 1 <> None)
            /\ live s1 = (live s ++ seq n 4) ++ [n + 4; n + 5]
            /\ nextTensor s1 = n + 6)
    end).
  { unfold body. clear body handler Hh.
    destruct (_ || _); [rewrite bindM_throw0|rewrite bindM_ret].
    { left. exists 0. cbn [seq]. rewrite app_nil_r. repeat split; [lia|lia|assumption]. }
    destruct (_ || _); [rewrite bindM_throw0|rewrite bindM_ret].
    { left. exists 0. cbn [seq]. rewrite app_nil_r. repeat split; [lia|lia|assumption]. }
    match goal with
    | |- context [bindM (tryCatch ?c ?h) ?k] =>
        set (inner := c); set (wrap := h); set (rest := k)
    end.
    assert (Hconv :
      match tryCatch inner wrap (Application.noLocals, s0) with
      | (Ok _, (loc, s4)) =>
          loc = Application.mkLocals
                  (Some (mkTensor n (List.length (features (train d)))))
                  (Some (mkTensor (S n) (List.length (targets (train d)))))
                  (Some (mkTensor (S (S n)) (List.length (features (test d)))))
                  (Some (mkTensor (S (S (S n))) (List.length (targets (test d)))))
          /\ live s4 = live s ++ seq n 4
          /\ nextTensor s4 = n + 4
      | (Throw e, (loc, s1)) =>
          exists k, k <= 4 /\ definedIds loc = seq n k
                    /\ nextTensor s1 = n + k /\ live s1 = live s ++ seq n k
      end).
    { unfold tryCatch, inner, wrap. clear inner wrap rest.
      rewrite bind_inApp.
      pose proof (tensor2d_spec beh 0 (List.length (features (train d))) s0) as T.
      destruct (tensor2d beh 0 _ s0) as [[x0|e] s1].
      2:{ destruct T as (_ & L & N). cbn [throw]. exists 0. cbn [seq].
          rewrite app_nil_r. repeat split; [lia|lia|congruence]. }
      destruct T as (_ & -> & L1 & N1). rewrite N0 in *.
      rewrite bind_assign, bind_inApp. cbn [Application.noLocals Application.trainX
        Application.trainY Application.testX Application.testY].
      pose proof (tensor2d_spec beh 1 (List.length (targets (train d))) s1) as T.
      destruct (tensor2d beh 1 _ s1) as [[x1|e] s2].
      2:{ destruct T as (_ & L & N). cbn [throw]. exists 1. cbn [seq].
          repeat split; [lia|lia|congruence]. }
      destruct T as (_ & -> & L2 & N2). rewrite N1 in *.
      rewrite bind_assign, bind_inApp. cbn [Application.trainX
        Application.trainY Application.testX Application.testY].
      pose proof (tensor2d_spec beh 2 (List.length (features (test d))) s2) as T.
      destruct (tensor2d beh 2 _ s2) as [[x2|e] s3].
      2:{ destruct T as (_ & L & N). cbn [throw]. exists 2. cbn [seq].
          repeat split; [lia|lia|].
          rewrite L, L2, L1, L0, <- app_assoc. reflexivity. }
      destruct T as (_ & -> & L3 & N3). rewrite N2 in *.
      rewrite bind_assign, bind_inApp. cbn [Application.trainX
        Application.trainY Application.testX Application.testY].
      pose proof (tensor2d_spec beh 3 (List.length (targets (test d))) s3) as T.
      destruct (tensor2d beh 3 _ s3) as [[x3|e] s4].
      2:{ destruct T as (_ & L & N). cbn [throw]. exists 3. cbn [seq].
          repeat split; [lia|lia|].
          rewrite L, L3, L2, L1, L0, <- !app_assoc. reflexivity. }
      destruct T as (_ & -> & L4 & N4). rewrite N3 in *.
      cbn [Application.assign Application.trainX
        Application.trainY Application.testX Application.testY fst snd].
      repeat split; [|lia].
      rewrite L4, L3, L2, L1, L0, <- !app_assoc. reflexivity. }
    unfold bindM at 1.
    destruct (tryCatch inner wrap (Application.noLocals, s0)) as [[[]|e] [loc s4]].
    2:{ left. exact Hconv. }
    destruct Hconv as (-> & L4 & N4). unfold rest. clear inner wrap rest. cbv beta.
    erewrite bind_local by reflexivity.
    erewrite bind_local by reflexivity.
    assert (HA : (exists k, k <= 4
                   /\ seq n 4 = seq n k /\ nextTensor s4 = n + k
                   /\ live s4 = live s ++ seq n k)).
    { exists 4. repeat split; [lia|assumption|assumption]. }
    destruct (negb _); [rewrite bindM_throw0|rewrite bindM_ret].
    { left. exact HA. }
    erewrite bind_local by reflexivity.
    erewrite bind_local by reflexivity.
    destruct (negb _); [rewrite bindM_throw0|rewrite bindM_ret].
    { left. exact HA. }
    clear HA. rewrite bind_inApp.
    destruct (tensors_eq _ _ (tensors_application_fit beh s4)) as (L5 & N5).
    destruct (fit beh Application.totalEpochs Application.onEpochEnd s4)
      as [[[]|e] s5]; cbn [snd] in L5, N5.
    2:{ left. exists 4. repeat split; [lia|lia|congruence]. }
    rewrite bind_inApp. cbn [emit].
    set (s6 := mkApp _ _ _ _ _ _ _ _ _).
    assert (L6 : live s6 = live s ++ [n; n + 1; n + 2; n + 3]).
    { unfold s6. cbn [live]. rewrite L5, L4. cbn [seq]. repeat f_equal; lia. }
    assert (N6 : nextTensor s6 = n + 4) by (unfold s6; cbn [nextTensor]; lia).
    clearbody s6.
    match goal with
    | |- context [evaluateAndDispose beh ?a ?b ?c ?d] =>
        pose proof (evaluateAndDispose_spec beh a b c d s6 (live s) n L6 N6
                      ltac:(cbn; lia) ltac:(cbn; lia) ltac:(cbn; lia) ltac:(cbn; lia))
          as Hev;
        pose proof (evaluateAndDispose_idle beh a b c d s6) as Hidle
    end.
    unfold Application.inApp. cbn [fst snd].
    destruct (evaluateAndDispose beh _ _ _ _ s6) as [[[]|e] s7].
    - destruct Hev as (L7 & N7).
      split; [eapply Hidle; reflexivity|]. split; [lia|exact L7].
    - destruct Hev as [(_ & L7 & N7)|(Ee & Ed & L7 & N7)].
      + left. exists 4. repeat split; [lia|assumption|].
        rewrite L7, L6. cbn [seq]. repeat f_equal; lia.
      + right. repeat split; try assumption.
        rewrite L7, L6. cbn [seq]. repeat f_equal; lia. }
  unfold Application.withLocals, tryCatch.
  destruct (body (Application.noLocals, s0)) as [[[]|e] [loc s1]].
  - exact Hbody.
  - destruct (Hh e loc s1) as (sH & -> & Hi & Hn & Hl). cbn [snd].
    split; [now exists (message e)|]. split; [assumption|].
    destruct Hbody as [(k & Hk & Hd & N1 & L1)|(Hd & Ee & Ed & L1 & N1)].
    + split; [lia|]. intros Hs. left. rewrite Hl, Hd, L1.
      apply dispose_tail.
      intros i Hi' j Hj E. subst j. apply Hs in Hi'. apply in_seq in Hj. fold n in Hi'. lia.
    + split; [lia|]. intros Hs. right. repeat split; try assumption; [|lia].
      rewrite Hl, Hd, L1, <- app_assoc.
      apply dispose_new.
      * intros i Hi' j Hj E. subst j. apply Hs in Hi'. apply in_seq in Hj.
        fold n in Hi'. lia.
      * intros i Hi' j Hj E. subst j. apply in_seq in Hj. cbn [In] in Hi'. lia.
Qed.

End ApplicationCases.

Section TrainingOutcomes.
Import JsValue DataLoader Host App.

Lemma bindM_inv_ok : forall (S A B : Type) (c : M S A) (k : A -> M S B) s b s',
  bindM c k s = (Ok b, s') -> exists a s1, c s = (Ok a, s1) /\ k a s1 = (Ok b, s').
Proof.
  intros S A B c k s b s' H. unfold bindM in H.
  destruct (c s) as [[a|e] s1]; [|discriminate]. now exists a, s1.
Qed.

Lemma root_trainModel_idle : forall beh d s,
  model s = true -> isTraining (snd (Root.trainModel beh d s)) = false.
Proof.
  intros beh d s Hmodel. unfold Root.trainModel.
  rewrite bindM_read, Hmodel. cbn [negb].
  rewrite (bindM_fst_ok _ _ _ (setIsTraining true) _ s tt eq_refl).
  set (s00 := snd (setIsTraining true s)).
  rewrite (bindM_fst_ok _ _ _ (setTrainingHistory History.empty) _ s00 tt eq_refl).
  set (s0 := snd (setTrainingHistory History.empty s00)). clearbody s0. clear s00.
  unfold tryCatch.
  match goal with
  | |- context [match ?c s0 with _ => _ end] => destruct (c s0) as [[[]|e] s1] eqn:E
  end; [|reflexivity].
  cbv zeta in E.
  repeat (apply bindM_inv_ok in E; destruct E as (? & ? & _ & E)).
  cbn [snd]. injection E as <-. reflexivity.
Qed.

(** X19: [trainModel] hands the predictor back idle: in both revisions
    [isTraining] is false when it returns and when it throws.  Without a
    model it throws at once and changes nothing. *)
Theorem trainModel_ends_with_isTraining_reset :
  forall (beh : Behaviour) (d : ProcessedData) (s : App.t),
    if model s then
      isTraining (snd (Root.trainModel beh d s)) = false
      /\ isTraining (snd (Application.trainModel beh d s)) = false
    else
      Root.trainModel beh d s = (Throw (Error "Model not built"), s)
      /\ Application.trainModel beh d s = (Throw (Error "Model not built"), s).
Proof.
  intros beh d s. destruct (model s) eqn:Hmodel.
  - split; [now apply root_trainModel_idle|].
    pose proof (application_trainModel_cases beh d s Hmodel) as H.
    destruct (Application.trainModel beh d s) as [[[]|e] s']; cbn [snd]; apply H.
  - unfold Root.trainModel, Application.trainModel.
    rewrite !bindM_read, Hmodel. split; reflexivity.
Qed.

(** X20: [trainModel] of [src/application/app.js] reports every failure of a
    run under its own prefix, whatever threw. *)
Theorem application_trainModel_wraps_every_error :
  forall (beh : Behaviour) (d : ProcessedData) (s : App.t) (e : exn),
    model s = true ->
    fst (Application.trainModel beh d s) = Throw e ->
    exists m, e = Error ("Training failed: " ++ m).
Proof.
  intros beh d s e Hmodel H.
  pose proof (application_trainModel_cases beh d s Hmodel) as Hc.
  destruct (Application.trainModel beh d s) as [[[]|e'] s']; cbn [fst] in H;
    [discriminate|].
  injection H as <-. apply Hc.
Qed.

(** X21: [trainModel] of [src/application/app.js] releases the tensors of the
    data on every path, and those of the evaluation on success: the live
    tensors are as before the call.  The exception is an evaluation whose
    results cannot be read: the two tensors of [model.evaluate] stay. *)
Theorem application_trainModel_releases_its_tensors_unless_reading_fails :
  forall (beh : Behaviour) (d : ProcessedData) (s : App.t),
    model s = true ->
    handlesGiven s ->
    let s' := snd (Application.trainModel beh d s) in
    handlesGiven s'
    /\ (dataThrows beh 0 = None -> dataThrows beh 1 = None -> live s' = live s)
    /\ (live s' = live s
        \/ (evaluateThrows beh = None
            /\ (dataThrows beh 0 <> None \/ dataThrows beh 1 <> None)
            /\ live s' = live s ++ [nextTensor s + 4; nextTensor s + 5])).
Proof.
  intros beh d s Hmodel Hs s'. unfold s'. clear s'.
  pose proof (application_trainModel_cases beh d s Hmodel) as Hc.
  destruct (Application.trainModel beh d s) as [[[]|e] s']; cbn [snd].
  - destruct Hc as (_ & Hn & Hl). specialize (Hl Hs). split; [|split; auto].
    unfold handlesGiven. rewrite Hl. intros i Hi. apply Hs in Hi. lia.
  - destruct Hc as (_ & _ & Hn & Hl). specialize (Hl Hs).
    destruct Hl as [Hl|(Ee & Ed & Hl & Hn')].
    + split; [|split; auto].
      unfold handlesGiven. rewrite Hl. intros i Hi. apply Hs in Hi. lia.
    + split; [|split].
      * unfold handlesGiven. rewrite Hl, Hn'. intros i Hi.
        apply in_app_or in Hi. destruct Hi as [Hi|Hi]; [apply Hs in Hi; lia|].
        cbn [In] in Hi. lia.
      * intros E0 E1. destruct Ed as [Ed|Ed]; contradiction.
      * right. repeat split; assumption.
Qed.

End TrainingOutcomes.

Section HappyPath.
Import JsValue DataLoader Host App.

Lemma fitLoop_ok : forall beh onEpochEnd,
  (forall epoch, fitThrows beh epoch = None) ->
  (forall epoch s, fst (onEpochEnd epoch (epochLogs beh epoch) s) = Ok tt) ->
  forall remaining epoch s, fst (fitLoop beh onEpochEnd epoch remaining s) = Ok tt.
Proof.
  intros beh onEpochEnd Hf Hcb. induction remaining as [|r IH]; intros epoch s.
  - reflexivity.
  - cbn [fitLoop]. unfold bindM at 1. rewrite Hf. cbn [optThrow ret].
    unfold bindM at 1. cbn [emit].
    set (s1 := mkApp _ _ _ _ _ _ _ _ _).
    unfold bindM at 1. specialize (Hcb epoch s1).
    destruct (onEpochEnd epoch (epochLogs beh epoch) s1) as [[[]|e] s2];
      [apply IH|discriminate].
Qed.

Lemma showFixed_number : forall el v s,
  isNumber v = true -> fst (showFixed el v s) = Ok tt.
Proof. intros el [| |x|t] s H; try discriminate H. reflexivity. Qed.

Lemma updateProgress_ok : forall total epoch l s,
  numericLogs l -> fst (updateProgress total epoch l s) = Ok tt.
Proof.
  intros total epoch [a b c] s (Ha & Hb & Hc). cbn [Logs.loss Logs.val_loss Logs.mae] in *.
  destruct a; try discriminate Ha. destruct b; try discriminate Hb.
  destruct c; try discriminate Hc.
  unfold updateProgress. cbn [Logs.loss Logs.val_loss Logs.mae showFixed].
  cbn [bindM emit fst snd].
  destruct (_ || _); reflexivity.
Qed.

Lemma root_onEpochEnd_ok : forall beh epoch s,
  (exists l, epochLogs beh epoch = Some l /\ numericLogs l) ->
  fst (Root.onEpochEnd epoch (epochLogs beh epoch) s) = Ok tt.
Proof.
  intros beh epoch s (l & -> & Hl). unfold Root.onEpochEnd.
  rewrite (bindM_fst_ok _ _ _ (pushHistory l) _ s tt eq_refl).
  now apply updateProgress_ok.
Qed.

Lemma application_onEpochEnd_ok : forall beh epoch s,
  (exists l, epochLogs beh epoch = Some l /\ numericLogs l) ->
  fst (Application.onEpochEnd epoch (epochLogs beh epoch) s) = Ok tt.
Proof.
  intros beh epoch s (l & -> & Hl). unfold Application.onEpochEnd.
  destruct (_ || _); [reflexivity|].
  rewrite (bindM_fst_ok _ _ _ (pushHistory l) _ s tt eq_refl).
  now apply updateProgress_ok.
Qed.

Lemma tensor2d_ok : forall beh k n s,
  tensor2dThrows beh k = None ->
  exists s', tensor2d beh k n s = (Ok (mkTensor (nextTensor s) n), s')
    /\ live s' = live s ++ [nextTensor s] /\ nextTensor s' = S (nextTensor s).
Proof.
  intros beh k n s H. pose proof (tensor2d_spec beh k n s) as T.
  destruct (tensor2d beh k n s) as [[x|e] s'].
  - destruct T as (_ & -> & L & N). now exists s'.
  - destruct T as (T & _). contradiction.
Qed.

End HappyPath.

Section TrainingSucceeds.
Import JsValue DataLoader Host App.

Lemma evaluateAndDispose_ok : forall beh a b c d s,
  evaluateThrows beh = None -> dataThrows beh 0 = None -> dataThrows beh 1 = None ->
  fst (evaluateAndDispose beh a b c d s) = Ok tt.
Proof.
  intros beh a b c d s He H0 H1. unfold evaluateAndDispose, evaluate, data.
  cbn [bindM]. rewrite He. cbn -[filter existsb]. rewrite H0. cbn -[filter existsb].
  rewrite H1. reflexivity.
Qed.

Lemma tryCatch_fst_ok : forall (S A : Type) (c : M S A) (h : exn -> M S A) s a,
  fst (c s) = Ok a -> fst (tryCatch c h s) = Ok a.
Proof.
  intros S A c h s a H. unfold tryCatch. destruct (c s) as [[x|e] s']; cbn in *;
    [assumption|discriminate].
Qed.

Lemma root_trainModel_ok : forall beh d s,
  trainsWell beh -> model s = true -> fst (Root.trainModel beh d s) = Ok tt.
Proof.
  intros beh d s (Ht & Hf & Hl & He & Hd) Hmodel. unfold Root.trainModel.
  rewrite bindM_read, Hmodel. cbn [negb].
  rewrite (bindM_fst_ok _ _ _ (setIsTraining true) _ s tt eq_refl).
  set (s00 := snd (setIsTraining true s)).
  rewrite (bindM_fst_ok _ _ _ (setTrainingHistory History.empty) _ s00 tt eq_refl).
  set (s0 := snd (setTrainingHistory History.empty s00)). clearbody s0. clear s00.
  apply tryCatch_fst_ok. cbv zeta.
  destruct (tensor2d_ok beh 0 (List.length (features (train d))) s0 (Ht 0))
    as (s1 & E & _). rewrite (bindM_ok _ _ _ _ _ _ _ _ E). clear E.
  destruct (tensor2d_ok beh 1 (List.length (targets (train d))) s1 (Ht 1))
    as (s2 & E & _). rewrite (bindM_ok _ _ _ _ _ _ _ _ E). clear E.
  destruct (tensor2d_ok beh 2 (List.length (features (test d))) s2 (Ht 2))
    as (s3 & E & _). rewrite (bindM_ok _ _ _ _ _ _ _ _ E). clear E.
  destruct (tensor2d_ok beh 3 (List.length (targets (test d))) s3 (Ht 3))
    as (s4 & E & _). rewrite (bindM_ok _ _ _ _ _ _ _ _ E). clear E.
  assert (Hfit : fst (fit beh Root.totalEpochs Root.onEpochEnd s4) = Ok tt).
  { apply fitLoop_ok; [assumption|]. intros epoch s'. apply root_onEpochEnd_ok, Hl. }
  rewrite (bindM_fst_ok _ _ _ _ _ _ tt Hfit).
  now apply evaluateAndDispose_ok.
Qed.

Lemma application_trainModel_ok : forall beh d s,
  trainsWell beh -> wellShaped d -> model s = true ->
  fst (Application.trainModel beh d s) = Ok tt.
Proof.
  intros beh d s (Ht & Hf & Hl & He & Hd) (V1 & V2 & V3 & V4) Hmodel.
  unfold Application.trainModel.
  rewrite bindM_read, Hmodel. cbn [negb].
  rewrite (bindM_fst_ok _ _ _ (setIsTraining true) _ s tt eq_refl).
  set (s00 := snd (setIsTraining true s)).
  rewrite (bindM_fst_ok _ _ _ (setTrainingHistory History.empty) _ s00 tt eq_refl).
  set (s0 := snd (setTrainingHistory History.empty s00)). clearbody s0. clear s00.
  unfold Application.withLocals.
  match goal with
  | |- fst (let (r, s') := ?c ?x in _) = _ =>
      assert (H : fst (c x) = Ok tt); [|destruct (c x); exact H]
  end.
  apply tryCatch_fst_ok. cbv zeta.
  rewrite V2, V4.
  apply Nat.eqb_neq in V1. apply Nat.eqb_neq in V3. rewrite V1, V3.
  cbn [orb]. rewrite !bindM_ret.
  match goal with
  | |- context [bindM (tryCatch ?c ?h) ?k] =>
      set (inner := c); set (wrap := h); set (rest := k)
  end.
  assert (Hconv : exists s4,
    tryCatch inner wrap (Application.noLocals, s0)
    = (Ok tt,
       (Application.mkLocals
          (Some (mkTensor (nextTensor s0) (List.length (features (train d)))))
          (Some (mkTensor (S (nextTensor s0)) (List.length (features (train d)))))
          (Some (mkTensor (S (S (nextTensor s0))) (List.length (features (test d)))))
          (Some (mkTensor (S (S (S (nextTensor s0)))) (List.length (features (test d))))),
        s4))).
  { unfold tryCatch, inner, wrap. clear inner wrap rest.
    rewrite bind_inApp.
    destruct (tensor2d_ok beh 0 (List.length (features (train d))) s0 (Ht 0))
      as (s1 & -> & _ & N1).
    rewrite bind_assign, bind_inApp.
    destruct (tensor2d_ok beh 1 (List.length (features (train d))) s1 (Ht 1))
      as (s2 & -> & _ & N2).
    rewrite bind_assign, bind_inApp.
    destruct (tensor2d_ok beh 2 (List.length (features (test d))) s2 (Ht 2))
      as (s3 & -> & _ & N3).
    rewrite bind_assign, bind_inApp.
    destruct (tensor2d_ok beh 3 (List.length (features (test d))) s3 (Ht 3))
      as (s4 & -> & _ & N4).
    exists s4. cbn. rewrite N3, N2, N1. reflexivity. }
  destruct Hconv as (s4 & Hconv).
  rewrite (bindM_ok _ _ _ _ _ _ _ _ Hconv). unfold rest. clear inner wrap rest Hconv.
  cbv beta.
  erewrite bind_local by reflexivity. erewrite bind_local by reflexivity.
  cbn [rows]. rewrite Nat.eqb_refl. cbn [negb]. rewrite bindM_ret.
  erewrite bind_local by reflexivity. erewrite bind_local by reflexivity.
  cbn [rows]. rewrite Nat.eqb_refl. cbn [negb]. rewrite bindM_ret.
  rewrite bind_inApp.
  assert (Hfit : fst (fit beh Application.totalEpochs Application.onEpochEnd s4) = Ok tt).
  { apply fitLoop_ok; [assumption|]. intros epoch s'.
    apply application_onEpochEnd_ok, Hl. }
  destruct (fit beh Application.totalEpochs Application.onEpochEnd s4) as [[[]|e] s5];
    [|discriminate Hfit].
  rewrite bind_inApp. cbn [emit].
  unfold Application.inApp. cbn [fst snd].
  match goal with
  | |- context [evaluateAndDispose beh ?a ?b ?c ?d ?s] =>
      pose proof (evaluateAndDispose_ok beh a b c d s He (Hd 0) (Hd 1)) as Hev;
      destruct (evaluateAndDispose beh a b c d s)
  end.
  exact Hev.
Qed.

End TrainingSucceeds.

Section TrainingSucceedsTheorem.
Import JsValue DataLoader Host App.

(** X22: With a library that does not throw and reports numeric logs at every
    epoch, [trainModel] succeeds in both revisions (in
    [src/application/app.js]: on sets that are not empty and have one target
    per feature vector): all the epochs are recorded (200 in [src/app.js],
    100 in [src/application/app.js]) and the tensors are released. *)
Theorem training_succeeds_when_the_library_does_not_throw :
  forall (beh : Behaviour) (d : ProcessedData) (s : App.t),
    trainsWell beh ->
    model s = true ->
    handlesGiven s ->
    (fst (Root.trainModel beh d s) = Ok tt
     /\ live (snd (Root.trainModel beh d s)) = live s
     /\ List.length (History.loss (trainingHistory (snd (Root.trainModel beh d s))))
        = Root.totalEpochs)
    /\ (wellShaped d ->
        fst (Application.trainModel beh d s) = Ok tt
        /\ live (snd (Application.trainModel beh d s)) = live s
        /\ List.length
             (History.loss (trainingHistory (snd (Application.trainModel beh d s))))
           = Application.totalEpochs).
Proof.
  intros beh d s Hb Hmodel Hs. split.
  - pose proof (root_trainModel_ok beh d s Hb Hmodel) as Hok.
    split; [exact Hok|]. split.
    + pose proof (root_trainModel_cases beh d s Hmodel Hs) as Hc.
      destruct (Root.trainModel beh d s) as [[[]|e] s']; [exact Hc|discriminate Hok].
    + destruct (root_trainModel_history beh d s Hmodel) as (k & _ & Hlogs & Hh & Hk).
      specialize (Hk Hok). subst k. rewrite Hh. cbn [historyOf History.loss].
      rewrite length_map, reported_length; [apply length_seq|].
      intros e _. destruct Hb as (_ & _ & Hl & _). destruct (Hl e) as (l & -> & _).
      discriminate.
  - intros Hd. pose proof (application_trainModel_ok beh d s Hb Hd Hmodel) as Hok.
    split; [exact Hok|]. split.
    + pose proof (application_trainModel_cases beh d s Hmodel) as Hc.
      destruct (Application.trainModel beh d s) as [[[]|e] s']; [|discriminate Hok].
      now apply Hc.
    + destruct (application_trainModel_history beh d s Hmodel) as (k & _ & Hh & Hk).
      specialize (Hk Hok). subst k. rewrite Hh. cbn [historyOf History.loss].
      rewrite length_map, recorded_length; [apply length_seq|].
      intros e _. destruct Hb as (_ & _ & Hl & _).
      destruct (Hl e) as ([a b c] & -> & Ha & Hb' & _).
      cbn [Logs.loss Logs.val_loss] in *. unfold bothLosses.
      cbn [Logs.loss Logs.val_loss].
      destruct a; try discriminate Ha. destruct b; try discriminate Hb'.
      discriminate.
Qed.

(** X23: [trainModel] of [src/application/app.js] rejects an empty training set
    and, after it, an empty test set before it makes any tensor: the error
    names the set, and the tensors of the library are untouched. *)
Theorem application_trainModel_rejects_an_empty_set_before_any_tensor :
  forall (beh : Behaviour) (d : ProcessedData) (s : App.t),
    model s = true ->
    List.length (features (train d)) = 0 \/ List.length (targets (train d)) = 0
    \/ List.length (features (test d)) = 0 \/ List.length (targets (test d)) = 0 ->
    let rejected what :=
      (Throw (Error ("Training failed: Invalid " ++ what ++ "  empty features or targets")),
       mkApp (model s) (dataLoader s) false (isModelReady s) History.empty
             (live s) (nextTensor s)
             (log s ++ [ConsoleError ("Invalid " ++ what ++ "  empty features or targets")])
             (dom s)) in
    Application.trainModel beh d s = rejected "training"
    \/ (List.length (features (train d)) <> 0 /\ List.length (targets (train d)) <> 0
        /\ Application.trainModel beh d s = rejected "test").
Proof.
  intros beh d s Hmodel H rejected. unfold rejected, Application.trainModel.
  rewrite bindM_read. replace (negb (model s)) with false by now rewrite Hmodel.
  rewrite (bindM_fst_ok _ _ _ (setIsTraining true) _ s tt eq_refl).
  set (s00 := snd (setIsTraining true s)).
  rewrite (bindM_fst_ok _ _ _ (setTrainingHistory History.empty) _ s00 tt eq_refl).
  unfold Application.withLocals, tryCatch. cbv zeta.
  destruct (Nat.eqb_spec (List.length (features (train d))) 0) as [E1|N1].
  { left. cbn [orb]. rewrite bindM_throw0. reflexivity. }
  destruct (Nat.eqb_spec (List.length (targets (train d))) 0) as [E2|N2].
  { left. cbn [orb]. rewrite bindM_throw0. reflexivity. }
  right. split; [assumption|]. split; [assumption|].
  cbn [orb]. rewrite bindM_ret.
  destruct H as [H|[H|H]]; try contradiction.
  assert (E : Nat.eqb (List.length (features (test d))) 0
              || Nat.eqb (List.length (targets (test d))) 0 = true).
  { destruct H as [->| ->]; [reflexivity|apply orb_true_r]. }
  rewrite E, bindM_throw0. reflexivity.
Qed.

End TrainingSucceedsTheorem.

Section PredictionReport.
Import JsValue DataLoader Host App.

Lemma grows_still : forall (A : Type) (c : M App.t A),
  (forall s, log (snd (c s)) = log s) -> grows c.
Proof. intros A c H s. exists []. now rewrite app_nil_r. Qed.

Lemma grows_emit : forall e, grows (emit e).
Proof. intros e s. now exists [e]. Qed.

Lemma grows_bind : forall (A B : Type) (c : M App.t A) (k : A -> M App.t B),
  grows c -> (forall a, grows (k a)) -> grows (bindM c k).
Proof.
  intros A B c k Hc Hk s. unfold bindM. destruct (Hc s) as (ev & E).
  destruct (c s) as [[a|e] s1]; cbn [snd] in *.
  - destruct (Hk a s1) as (ev' & E'). exists (ev ++ ev').
    now rewrite E', E, app_assoc.
  - now exists ev.
Qed.

Lemma grows_tryCatch : forall (A : Type) (c : M App.t A) (h : exn -> M App.t A),
  grows c -> (forall e, grows (h e)) -> grows (tryCatch c h).
Proof.
  intros A c h Hc Hh s. unfold tryCatch. destruct (Hc s) as (ev & E).
  destruct (c s) as [[a|e] s1]; cbn [snd] in *.
  - now exists ev.
  - destruct (Hh e s1) as (ev' & E'). exists (ev ++ ev').
    now rewrite E', E, app_assoc.
Qed.

Lemma grows_allocate : forall n, grows (allocate n).
Proof. intros n. apply grows_still. reflexivity. Qed.

Lemma grows_optThrow : forall o, grows (@optThrow App.t o).
Proof. intros [m|]; apply grows_still; reflexivity. Qed.

Lemma grows_throw : forall (A : Type) e, grows (@throw App.t A e).
Proof. intros A e. apply grows_still. reflexivity. Qed.

Lemma grows_ret : forall (A : Type) (a : A), grows (ret a).
Proof. intros A a. apply grows_still. reflexivity. Qed.

Lemma grows_dispose : forall ts, grows (dispose ts).
Proof. intros ts s. now exists [TfDispose (map tid ts)]. Qed.

Ltac grow :=
  repeat (apply grows_bind; [|intros ?]);
  first [ apply grows_optThrow | apply grows_emit | apply grows_dispose
        | assumption | apply grows_still; intros; reflexivity ].

Lemma grows_tensor2d : forall beh k n, grows (tensor2d beh k n).
Proof. intros beh k n. unfold tensor2d. grow. Qed.

Lemma grows_data : forall beh k x, grows (data beh k x).
Proof.
  intros beh k x. unfold data. grow.
Qed.

Lemma grows_tidyPredict : forall beh, grows (tidyPredict beh).
Proof.
  intros beh. unfold tidyPredict.
  apply grows_bind; [apply grows_tensor2d|intros x].
  apply grows_tryCatch; [grow|intros e; grow].
Qed.

Lemma grows_predictSteps : forall beh userInput, grows (predictSteps beh userInput).
Proof.
  intros beh userInput. unfold predictSteps.
  pose proof (grows_tidyPredict beh) as Ht.
  apply grows_bind; [grow|intros _].
  apply grows_bind; [grow|intros _].
  apply grows_bind; [grow|intros loader].
  apply grows_bind; [grow|intros v].
  apply grows_bind; [exact Ht|intros prediction].
  apply grows_bind; [apply grows_data|intros _]. grow.
Qed.

Lemma grows_inv : forall (A : Type) (c : M App.t A) s r s',
  grows c -> c s = (r, s') -> exists events, log s' = log s ++ events.
Proof. intros A c s r s' H E. destruct (H s) as (ev & Hev). rewrite E in Hev. eauto. Qed.

(** X17: A prediction that is not skipped always tells its outcome: the last
    events are the display of the rounded output of the model and its
    log, or the log of an error and the alert with its message. *)
Theorem predict_shows_a_range_or_alerts :
  forall (beh : Behaviour) (s : App.t),
    isModelReady s = true ->
    isTraining s = false ->
    let s' := snd (predict beh s) in
    (exists events,
        log s' = log s ++ events
                 ++ [UiRange (JsNumber.Math_round (predicted beh)); ConsoleLog])
    \/ (exists events m,
          log s' = log s ++ events
                   ++ [ConsoleError m; Alert ("Prediction failed: " ++ m)]).
Proof.
  intros beh s Hready Hidle s'. unfold s'. clear s'. unfold predict.
  rewrite !bindM_read, Hready, Hidle. cbn [negb orb].
  destruct (collectUserInput s) as [[userInput|e] s1] eqn:Ec;
    pose proof (collectUserInput_state _ _ _ Ec); subst s1.
  { destruct (predictSteps beh userInput s) as [[[]|e] s2] eqn:Es.
    - left.
      rewrite (tryCatch_ok _ _ _ _ s tt s2)
        by (rewrite (bindM_ok _ _ _ collectUserInput _ s userInput s Ec); exact Es).
      cbn [snd]. unfold predictSteps in Es.
      apply bindM_inv_ok in Es. destruct Es as (? & s3 & E3 & Es).
      unfold lift in E3. injection E3 as _ <-.
      apply bindM_inv_ok in Es. destruct Es as (? & s4 & E4 & Es).
      injection E4 as _ <-.
      apply bindM_inv_ok in Es. destruct Es as (loader & s5 & E5 & Es).
      injection E5 as _ <-.
      apply bindM_inv_ok in Es. destruct Es as (v & s6 & E6 & Es).
      unfold lift in E6. injection E6 as _ <-.
      apply bindM_inv_ok in Es. destruct Es as (prediction & s7 & E7 & Es).
      apply (grows_inv _ _ _ _ _ (grows_tidyPredict beh)) in E7.
      destruct E7 as (ev7 & L7).
      apply bindM_inv_ok in Es. destruct Es as (? & s8 & E8 & Es).
      apply (grows_inv _ _ _ _ _ (grows_data beh 0 prediction)) in E8.
      destruct E8 as (ev8 & L8).
      apply bindM_inv_ok in Es. destruct Es as (? & s9 & E9 & Es).
      apply (grows_inv _ _ _ _ _ (grows_dispose [prediction])) in E9.
      destruct E9 as (ev9 & L9).
      apply bindM_inv_ok in Es. destruct Es as (? & s10 & E10 & Es).
      injection E10 as _ <-. injection Es as <-.
      cbn [log] in *.
      exists ([TransformUserInput] ++ ev7 ++ ev8 ++ ev9).
      rewrite L9, L8, L7. rewrite <- !app_assoc. reflexivity.
    - right.
      rewrite (tryCatch_throw _ _ _ _ s e s2)
        by (rewrite (bindM_ok _ _ _ collectUserInput _ s userInput s Ec); exact Es).
      apply (grows_inv _ _ _ _ _ (grows_predictSteps beh userInput)) in Es.
      destruct Es as (ev & L). exists ev, (message e).
      cbn. rewrite L, <- !app_assoc. reflexivity. }
  right. rewrite (tryCatch_throw _ _ _ _ s e s) by (now apply bindM_throw).
  exists [], (message e). cbn. now rewrite <- app_assoc.
Qed.

End PredictionReport.

Section StartupLemmas.
Import JsValue DataLoader Host App Startup.

Ltac build_cases build :=
  repeat (match goal with
          | |- context [Startup.buildThrows build ?k] => destruct (Startup.buildThrows build k)
          end; cbn [App.optThrow App.throw App.ret App.emit Startup.setModel App.bindM fst snd]).

Lemma startup_bind_inApp : forall (A B : Type) (c : M App.t A)
  (k : A -> M Startup.t B) page app,
  bindM (Startup.inApp c) k (page, app)
  = match c app with
    | (Ok a, app') => k a (page, app')
    | (Throw e, app') => (Throw e, (page, app'))
    end.
Proof.
  intros A B c k page app. unfold bindM, Startup.inApp. cbn [fst snd].
  destruct (c app) as [[a|e] app']; reflexivity.
Qed.

Lemma startup_bind_onPage : forall (B : Type) f (k : unit -> M Startup.t B) page app,
  bindM (onPage f) k (page, app) = k tt (f page, app).
Proof. reflexivity. Qed.

Lemma onLoader_eq : forall (A : Type) (f : DataLoader.t -> result A * DataLoader.t) app,
  onLoader f app
  = (fst (f (dataLoader app)),
     mkApp (model app) (snd (f (dataLoader app))) (isTraining app) (isModelReady app)
           (trainingHistory app) (live app) (nextTensor app) (log app) (dom app)).
Proof.
  intros A f app. unfold onLoader. destruct (f (dataLoader app)); reflexivity.
Qed.

Lemma settled_trainModel : forall beh d,
  preserves settled (App.Root.trainModel beh d)
  /\ preserves settled (App.Application.trainModel beh d).
Proof.
  intros beh d. split.
  - apply kept_root_trainModel; intros; intros s; reflexivity.
  - apply kept_application_trainModel; intros; intros s; reflexivity.
Qed.

Lemma settled_eq : forall s s', settled s' = settled s ->
  model s' = model s /\ dataLoader s' = dataLoader s /\ isModelReady s' = isModelReady s.
Proof. intros s s' H. unfold settled in H. inversion H. repeat split. Qed.

(** [buildModel]: on success the model is set; nothing else of the
    predictor changes but the events *)
Lemma root_buildModel_spec : forall build shape s,
  let r := Startup.Root.buildModel build shape s in
  dataLoader (snd r) = dataLoader s
  /\ isModelReady (snd r) = isModelReady s
  /\ isTraining (snd r) = isTraining s
  /\ tensors (snd r) = tensors s
  /\ (fst r = Ok tt -> model (snd r) = true).
Proof.
  intros build shape s r. unfold r, Startup.Root.buildModel, assemble, tryCatch.
  cbn [bindM]. build_cases build;
    repeat split; intros H; try discriminate H; reflexivity.
Qed.

Lemma application_buildModel_spec : forall build shape s,
  let r := Startup.Application.buildModel build shape s in
  dataLoader (snd r) = dataLoader s
  /\ isModelReady (snd r) = isModelReady s
  /\ isTraining (snd r) = isTraining s
  /\ tensors (snd r) = tensors s
  /\ (fst r = Ok tt -> model (snd r) = true /\ shape <> 0)
  /\ (forall e, fst r = Throw e -> exists m, e = Error ("Model building failed: " ++ m)).
Proof.
  intros build shape s r. unfold r, Startup.Application.buildModel, assemble, tryCatch.
  cbn [bindM]. destruct shape as [|shape]; cbn [Nat.eqb throw ret fst snd emit bindM].
  { repeat split; intros; try discriminate.
    match goal with H : Throw _ = Throw _ |- _ => injection H as <- end.
    eexists. reflexivity. }
  build_cases build;
    repeat split; intros; try discriminate; try reflexivity;
    match goal with H : Throw _ = Throw _ |- _ => injection H as <- end;
    eexists; reflexivity.
Qed.

(** X24: [buildModel] sets the model as soon as [tf.sequential()] returned: a
    later failure (a layer, [compile], [summary]) leaves it set.  The error
    of the library is rethrown as it is in [src/app.js] and under the prefix
    of [buildModel] in [src/application/app.js], which also rejects an input
    shape of 0 before it creates anything. *)
Theorem buildModel_keeps_the_model_it_created :
  forall (build : Build) (shape : nat) (s : App.t),
    let root := Startup.Root.buildModel build shape s in
    let appl := Startup.Application.buildModel build shape s in
    let created := match buildThrows build 0 with
                   | Some _ => model s
                   | None => true
                   end in
    model (snd root) = created
    /\ model (snd appl) = (if Nat.eqb shape 0 then model s else created)
    /\ (forall e, fst root = Throw e ->
          exists k m, buildThrows build k = Some m /\ e = Error m)
    /\ (forall e, fst appl = Throw e ->
          exists m, e = Error ("Model building failed: " ++ m))
    /\ (shape = 0 ->
        fst appl = Throw (Error "Model building failed: Invalid input shape. Must be a positive integer.")).
Proof.
  intros build shape s root appl created. unfold root, appl, created.
  clear root appl created.
  split; [|split; [|split; [|split]]].
  - unfold Startup.Root.buildModel, assemble, tryCatch. cbn [bindM].
    destruct (buildThrows build 0); cbn [optThrow throw ret setModel emit fst snd bindM];
      [reflexivity|].
    build_cases build; reflexivity.
  - unfold Startup.Application.buildModel, assemble, tryCatch. cbn [bindM].
    destruct shape as [|shape]; cbn [Nat.eqb throw ret fst snd emit bindM];
      [reflexivity|].
    destruct (buildThrows build 0); cbn [optThrow throw ret setModel emit fst snd bindM];
      [reflexivity|].
    build_cases build; reflexivity.
  - intros e. unfold Startup.Root.buildModel, assemble, tryCatch. cbn [bindM].
    repeat (match goal with
            | |- context [buildThrows build ?k] =>
                destruct (buildThrows build k) eqn:?
            end; cbn [optThrow throw ret emit setModel bindM fst snd]);
      intros H; try discriminate H; injection H as <-; eauto.
  - intros e H.
    pose proof (application_buildModel_spec build shape s) as Hs. cbv zeta in Hs.
    now apply Hs.
  - intros ->. reflexivity.
Qed.

End StartupLemmas.

Section RootStartup.
Import JsValue DataLoader Host App Startup.

Lemma processed_loader : forall rng this d this',
  preprocessData rng this = (Ok d, this') ->
  getData this' = Ok d
  /\ forall userInput, exists v, transformUserInput this' userInput = Ok v.
Proof.
  intros rng this d this' H. apply preprocessData_Ok_inv in H.
  destruct H as (raw & _ & _ & _ & _ & _ & ->). split; [reflexivity|].
  intros userInput. rewrite fittedLoader_transform. eexists. reflexivity.
Qed.

Lemma root_history_complete : forall beh d s,
  model s = true ->
  fst (App.Root.trainModel beh d s) = Ok tt ->
  List.length (History.loss (trainingHistory (snd (App.Root.trainModel beh d s))))
  = App.Root.totalEpochs.
Proof.
  intros beh d s Hmodel Hok.
  destruct (root_trainModel_history beh d s Hmodel) as (k & _ & Hlogs & Hh & Hk).
  specialize (Hk Hok). subst k. rewrite Hh. cbn [historyOf History.loss].
  rewrite length_map, reported_length; [apply length_seq|].
  intros e He. apply in_seq in He. apply Hlogs. lia.
Qed.

(** X25: [initialize] of [src/app.js] never throws.  From a predictor that is
    not ready, it ends ready only when loading, preprocessing, building and
    training all succeeded: the status is then the success message and the
    button is enabled, the loader is fitted (so that [transformUserInput]
    cannot fail), the model is built, no training is in progress and the
    history holds all the 200 epochs.  Otherwise the predictor is still not
    ready, the button is as it was and the status reports the error. *)
Theorem root_initialize_sets_ready_only_after_a_complete_start :
  forall (response : fetched) (rng : nat -> nat) (build : Build) (beh : Behaviour)
         (page : Page.t) (app : App.t),
    isModelReady app = false ->
    let r := Startup.Root.initialize response rng build beh (page, app) in
    let page' := fst (snd r) in
    let app' := snd (snd r) in
    fst r = Ok tt
    /\ (isModelReady app' = true ->
        Page.statusClass page' = "status success"
        /\ Page.predictBtnDisabled page' = false
        /\ started app'
        /\ List.length (History.loss (trainingHistory app')) = App.Root.totalEpochs)
    /\ (isModelReady app' = false ->
        Page.statusClass page' = "status error"
        /\ (exists m, Page.statusText page' = ("Error: " ++ m)%string)
        /\ Page.predictBtnDisabled page' = Page.predictBtnDisabled page).
Proof.
  intros response rng build beh page app Hready r page' app'.
  unfold page', app', r. clear page' app' r.
  unfold Startup.Root.initialize.
  match goal with
  | |- context [tryCatch ?c ?h] => set (body := c); set (handler := h)
  end.
  assert (Hbody :
    match body (page, app) with
    | (Ok _, (page', app')) =>
        isModelReady app' = true
        /\ Page.statusClass page' = "status success"
        /\ Page.predictBtnDisabled page' = false
        /\ started app'
        /\ List.length (History.loss (trainingHistory app')) = App.Root.totalEpochs
    | (Throw _, (page', app')) =>
        isModelReady app' = false
        /\ Page.predictBtnDisabled page' = Page.predictBtnDisabled page
    end).
  { unfold body, updateStatus, setPredictBtnDisabled. clear body handler.
    rewrite startup_bind_onPage, startup_bind_inApp, onLoader_eq.
    destruct (loadCSV "data.csv" response (dataLoader app)) as [[[]|e] loader1];
      cbn [fst snd]; [|split; [exact Hready|reflexivity]].
    set (app1 := mkApp _ _ _ _ _ _ _ _ _).
    rewrite startup_bind_inApp, onLoader_eq. cbn [dataLoader app1].
    destruct (preprocessData rng loader1) as [[d|e] loader2] eqn:Ep;
      cbn [fst snd]; [|split; [exact Hready|reflexivity]].
    destruct (processed_loader _ _ _ _ Ep) as (Hget & Htransform).
    set (app2 := mkApp _ _ _ _ _ _ _ _ _).
    rewrite startup_bind_onPage, startup_bind_inApp.
    pose proof (root_buildModel_spec build (inputShape d) app2) as Hb.
    cbv zeta in Hb. destruct Hb as (Bd & Br & Bt & _ & Bm).
    destruct (Startup.Root.buildModel build (inputShape d) app2) as [[[]|e] app3];
      cbn [fst snd] in *; [|split; [rewrite Br; exact Hready|reflexivity]].
    specialize (Bm eq_refl).
    rewrite startup_bind_onPage, startup_bind_inApp.
    destruct (settled_trainModel beh d) as (Hkeep & _). specialize (Hkeep app3).
    apply settled_eq in Hkeep. destruct Hkeep as (Km & Kd & Kr).
    pose proof (root_trainModel_idle beh d app3 Bm) as Hidle.
    pose proof (root_history_complete beh d app3 Bm) as Hhist.
    destruct (App.Root.trainModel beh d app3) as [[[]|e] app4];
      cbn [fst snd] in *.
    2:{ split; [rewrite Kr, Br; exact Hready|reflexivity]. }
    cbn. split; [reflexivity|]. split; [reflexivity|]. split; [reflexivity|].
    unfold started. cbn [model isTraining trainingHistory dataLoader].
    split; [|exact (Hhist eq_refl)].
    split; [congruence|]. split; [assumption|].
    exists d. rewrite Kd, Bd. cbn [dataLoader app2]. now split. }
  unfold tryCatch.
  destruct (body (page, app)) as [[[]|e] [page1 app1]].
  - cbn [fst snd]. destruct Hbody as (R & S & B & G & Hh).
    split; [reflexivity|].
    split; [intros _; split; [exact S|split; [exact B|split; [exact G|exact Hh]]]|].
    intros N. congruence.
  - unfold handler, updateStatus. rewrite startup_bind_inApp. cbn [emit].
    cbn [onPage fst snd isModelReady Page.statusClass Page.statusText
         Page.predictBtnDisabled].
    destruct Hbody as (R & B).
    split; [reflexivity|]. split; [intros N; congruence|].
    intros _. split; [reflexivity|]. split; [now exists (message e)|exact B].
Qed.

End RootStartup.

Section ApplicationStartup.
Import JsValue DataLoader Host App Startup.

Lemma failing_inv_ok : forall (A : Type) name (step : M Startup.t A) s a s',
  Startup.Application.failing name step s = (Ok a, s') -> step s = (Ok a, s').
Proof.
  intros A name step s a s' H. unfold Startup.Application.failing, tryCatch in H.
  destruct (step s) as [[x|e] s1]; [exact H|].
  unfold bindM, Startup.Application.updateStepStatus, onPage, throw in H.
  discriminate H.
Qed.

Lemma startup_inApp_inv : forall (A : Type) (c : M App.t A) page app r page' app',
  Startup.inApp c (page, app) = (r, (page', app')) ->
  c app = (r, app') /\ page' = page.
Proof.
  intros A c page app r page' app' H. unfold Startup.inApp in H. cbn [fst snd] in H.
  destruct (c app) as [r0 a0]. injection H as <- <- <-. now split.
Qed.

Lemma onPage_inv : forall f page app r page' app',
  onPage f (page, app) = (r, (page', app')) -> app' = app /\ page' = f page.
Proof. intros f page app r page' app' H. injection H as _ <- <-. now split. Qed.

Lemma countParams_state : forall build app r app',
  Startup.Application.countParams build app = (r, app') -> app' = app.
Proof.
  intros build app r app' H. unfold Startup.Application.countParams, bindM in H.
  destruct (buildThrows build 9); cbn in H; now injection H as _ <-.
Qed.

Lemma application_history_bounded : forall beh d s,
  model s = true ->
  List.length (History.loss (trainingHistory (snd (App.Application.trainModel beh d s))))
  <= App.Application.totalEpochs.
Proof.
  intros beh d s Hmodel.
  destruct (application_trainModel_history beh d s Hmodel) as (k & Hk & Hh & _).
  rewrite Hh. cbn [historyOf History.loss]. rewrite length_map.
  pose proof (recorded_length_le beh (seq 0 k)) as Hle. rewrite length_seq in Hle. lia.
Qed.

(** X26: [initialize] of [src/application/app.js] never throws.  It ends ready
    only when loading, preprocessing, building and training all succeeded:
    the status is then the success message, the button is enabled and the
    progress panel is shown, the loader is fitted, the model is built and no
    training is in progress.  Otherwise the predictor is not ready, whatever
    it was before, the button is disabled and the status reports the
    error. *)
Theorem application_initialize_sets_ready_only_after_a_complete_start :
  forall (response : fetched) (rng : nat -> nat) (build : Build) (beh : Behaviour)
         (page : Page.t) (app : App.t),
    let r := Startup.Application.initialize response rng build beh (page, app) in
    let page' := fst (snd r) in
    let app' := snd (snd r) in
    fst r = Ok tt
    /\ if isModelReady app' then
         Page.statusClass page' = "status success"
         /\ Page.predictBtnDisabled page' = false
         /\ Page.trainingProgressDisplay page' = "block"
         /\ started app'
         /\ List.length (History.loss (trainingHistory app'))
            <= App.Application.totalEpochs
       else
         Page.statusClass page' = "status error"
         /\ (exists m, Page.statusText page'
                       = ("✗ Initialization failed: " ++ m)%string)
         /\ Page.predictBtnDisabled page' = true.
Proof.
  intros response rng build beh page app r page' app'.
  unfold page', app', r. clear page' app' r.
  unfold Startup.Application.initialize, tryCatch.
  match goal with
  | |- context [match ?c (page, app) with _ => _ end] =>
      destruct (c (page, app)) as [[[]|e] [page1 app1]] eqn:E
  end.
  2:{ cbn. split; [reflexivity|]. split; [reflexivity|].
      split; [now exists (message e)|reflexivity]. }
  cbn [fst snd]. split; [reflexivity|].
  unfold updateStatus, setPredictBtnDisabled in E.
  unfold Startup.Application.updateStepStatus at 1 2 3 4 in E.
  apply bindM_inv_ok in E. destruct E as (? & [p1 a1] & E1 & E).
  apply onPage_inv in E1. destruct E1 as (-> & _).
  apply bindM_inv_ok in E. destruct E as (? & [p2 a2] & E1 & E).
  apply onPage_inv in E1. destruct E1 as (-> & _).
  (* load *)
  apply bindM_inv_ok in E. destruct E as (? & [p3 a3] & _ & E).
  apply bindM_inv_ok in E. destruct E as (? & [p4 a4] & E1 & E).
  apply onPage_inv in E1. destruct E1 as (-> & _).
  apply bindM_inv_ok in E. destruct E as (? & [p5 a5] & E1 & E).
  apply onPage_inv in E1. destruct E1 as (-> & _).
  (* preprocess *)
  apply bindM_inv_ok in E. destruct E as (d & [p6 a6] & E6 & E).
  apply failing_inv_ok in E6.
  apply bindM_inv_ok in E6. destruct E6 as (d' & [p6' a6'] & E6 & E6').
  apply startup_inApp_inv in E6. destruct E6 as (E6 & _).
  rewrite onLoader_eq in E6. injection E6 as Ed Ea.
  apply bindM_inv_ok in E6'. destruct E6' as (? & [p6'' a6''] & E6' & E6'').
  unfold Startup.Application.updateStepStatus in E6'.
  apply onPage_inv in E6'. destruct E6' as (-> & _).
  injection E6'' as -> _ ->.
  assert (Ep : preprocessData rng (dataLoader a3) = (Ok d, dataLoader a6)).
  { rewrite <- Ea. cbn [dataLoader]. rewrite <- Ed. apply surjective_pairing. }
  destruct (processed_loader _ _ _ _ Ep) as (Hget & Htransform).
  apply bindM_inv_ok in E. destruct E as (? & [p7 a7] & E1 & E).
  apply onPage_inv in E1. destruct E1 as (-> & _).
  apply bindM_inv_ok in E. destruct E as (? & [p8 a8] & E1 & E).
  apply onPage_inv in E1. destruct E1 as (-> & _).
  (* build *)
  apply bindM_inv_ok in E. destruct E as (? & [p9 a9] & E9 & E).
  apply failing_inv_ok in E9.
  apply bindM_inv_ok in E9. destruct E9 as ([] & [p9' a9'] & E9 & E9').
  apply startup_inApp_inv in E9. destruct E9 as (E9 & _).
  pose proof (application_buildModel_spec build (inputShape d) a6) as Hb.
  cbv zeta in Hb. rewrite E9 in Hb. cbn [fst snd] in Hb.
  destruct Hb as (Bd & _ & _ & _ & Bm & _). destruct (Bm eq_refl) as (Bm' & _).
  apply bindM_inv_ok in E9'. destruct E9' as (? & [p9'' a9''] & E9' & E9'').
  apply startup_inApp_inv in E9'. destruct E9' as (E9' & _).
  apply countParams_state in E9'. subst a9''.
  unfold Startup.Application.updateStepStatus in E9''.
  apply onPage_inv in E9''. destruct E9'' as (-> & _).
  apply bindM_inv_ok in E. destruct E as (? & [p10 a10] & E1 & E).
  apply onPage_inv in E1. destruct E1 as (-> & _).
  apply bindM_inv_ok in E. destruct E as (? & [p11 a11] & E1 & E).
  apply onPage_inv in E1. destruct E1 as (-> & _).
  apply bindM_inv_ok in E. destruct E as (? & [p12 a12] & E1 & E).
  apply onPage_inv in E1. destruct E1 as (-> & Hp12).
  (* train *)
  apply bindM_inv_ok in E. destruct E as (? & [p13 a13] & E13 & E).
  apply failing_inv_ok in E13.
  apply bindM_inv_ok in E13. destruct E13 as ([] & [p13' a13'] & E13 & E13').
  apply startup_inApp_inv in E13. destruct E13 as (E13 & ->).
  unfold Startup.Application.updateStepStatus in E13'.
  apply onPage_inv in E13'. destruct E13' as (-> & Hp13).
  destruct (settled_trainModel beh d) as (_ & Hkeep). specialize (Hkeep a9').
  pose proof (application_trainModel_cases beh d a9' Bm') as Hc.
  pose proof (application_history_bounded beh d a9' Bm') as Hh.
  rewrite E13 in Hkeep, Hc, Hh. cbn [snd] in Hkeep, Hh.
  apply settled_eq in Hkeep. destruct Hkeep as (Km & Kd & _).
  destruct Hc as (Hidle & _).
  (* the end *)
  apply bindM_inv_ok in E. destruct E as (? & [p14 a14] & E1 & E).
  apply onPage_inv in E1. destruct E1 as (-> & Hp14).
  apply bindM_inv_ok in E. destruct E as (? & [p15 a15] & E1 & E).
  apply startup_inApp_inv in E1. destruct E1 as (E1 & ->).
  injection E1 as E1. subst a15.
  apply onPage_inv in E. destruct E as (-> & ->).
  cbn [isModelReady Page.statusClass Page.predictBtnDisabled
       Page.trainingProgressDisplay model isTraining trainingHistory dataLoader].
  subst p14. cbn [Page.statusClass Page.trainingProgressDisplay].
  split; [reflexivity|]. split; [reflexivity|].
  split.
  { subst p13.
    destruct (dictGet (Page.buildingSteps p12) "train");
      cbn [Page.trainingProgressDisplay]; subst p12; reflexivity. }
  split; [|exact Hh].
  unfold started. cbn [model isTraining dataLoader].
  split; [congruence|]. split; [assumption|].
  exists d. rewrite Kd, Bd. now split.
Qed.

End ApplicationStartup.

Section StartupSucceeds.
Import JsValue DataLoader Host App Startup.

Lemma preprocessData_succeeds : forall rng this raw,
  rawData this = Some raw ->
  missingColumns (hd [] raw) = [] ->
  2 <= List.length (filter keepRow raw) ->
  (Z.of_nat (List.length raw) < 2 ^ 32)%Z ->
  exists d this',
    preprocessData rng this = (Ok d, this')
    /\ wellShaped d
    /\ inputShape d <> 0.
Proof.
  intros rng this raw Hraw Hm Hn Hbound.
  set (rows := filter keepRow raw) in *.
  assert (Hrows : rows <> []) by (intros E; rewrite E in Hn; cbn in Hn; lia).
  assert (Hne : raw <> []) by (intros E; subst raw; now apply Hrows).
  assert (Hlen : (Z.of_nat (List.length rows) < 2 ^ 32)%Z).
  { pose proof (filter_length_le _ keepRow raw) as Hle. fold rows in Hle. lia. }
  assert (Hchk : splitCheck (List.length rows) = false).
  { unfold splitCheck.
    destruct (Nat.ltb (splitIndex (List.length rows)) 1
              || Nat.ltb (List.length rows - splitIndex (List.length rows)) 1) eqn:E;
      [|reflexivity].
    apply (split_check_iff _ Hlen) in E. lia. }
  rewrite (preprocessData_eq rng this raw Hraw Hne).
  rewrite (preprocessTry_eq rng this raw Hm Hrows). cbv zeta. fold rows.
  unfold splitCheck in Hchk. rewrite Hchk. cbn [fst snd rethrow].
  eexists. eexists. split; [reflexivity|].
  fold (transformedRows rows).
  assert (Hchk' : splitCheck (List.length rows) = false) by exact Hchk.
  destruct (splitOf_shapes rng rows Hrows Hchk') as (Hshape & _).
  destruct (pick_targets_length rng rows (transformedRows rows)) as (T1 & T2).
  apply orb_false_iff in Hchk. destruct Hchk as (K1 & K2).
  apply Nat.ltb_ge in K1. apply Nat.ltb_ge in K2.
  split; [|lia].
  unfold wellShaped.
  rewrite (splitOf_train_length rng rows (transformedRows rows)) by lia.
  rewrite (splitOf_test_length rng rows (transformedRows rows)).
  rewrite T1, T2.
  rewrite (splitOf_train_length rng rows (transformedRows rows)) by lia.
  rewrite (splitOf_test_length rng rows (transformedRows rows)).
  repeat split; lia.
Qed.

Lemma buildModel_ok : forall build shape s,
  (forall k, buildThrows build k = None) ->
  fst (Startup.Root.buildModel build shape s) = Ok tt
  /\ (shape <> 0 -> fst (Startup.Application.buildModel build shape s) = Ok tt).
Proof.
  intros build shape s H. split.
  - unfold Startup.Root.buildModel, assemble, tryCatch. cbn [bindM].
    rewrite !H. reflexivity.
  - intros Hs. unfold Startup.Application.buildModel, assemble, tryCatch. cbn [bindM].
    destruct shape as [|shape]; [contradiction|]. cbn [Nat.eqb ret].
    rewrite !H. reflexivity.
Qed.

Lemma failing_ok : forall (A : Type) name (step : M Startup.t A) s a s',
  step s = (Ok a, s') -> Startup.Application.failing name step s = (Ok a, s').
Proof.
  intros A name step s a s' H. unfold Startup.Application.failing, tryCatch.
  now rewrite H.
Qed.

Lemma loadCSV_ok : forall filePath csvText raw this,
  parseCSV csvText = Ok raw -> raw <> [] ->
  loadCSV filePath (FetchOk csvText) this
  = (Ok tt, mkDataLoader (Some raw) (processedData this) (featureStats this)
                         (categoricalMappings this)).
Proof.
  intros filePath csvText raw this Hp Hne. unfold loadCSV. rewrite Hp.
  destruct raw as [|r raw]; [contradiction|]. reflexivity.
Qed.

(** X27: With a file that has the required columns and two valid rows or more,
    and a library that does not throw and reports numeric logs, [initialize]
    makes the predictor ready in both revisions: two valid rows are
    enough. *)
Theorem initialize_makes_the_predictor_ready :
  forall (csvText : string) (rng : nat -> nat) (build : Build) (beh : Behaviour)
         (page : Page.t) (app : App.t),
    startsWell csvText build beh ->
    isModelReady
      (snd (snd (Startup.Root.initialize (FetchOk csvText) rng build beh (page, app))))
    = true
    /\ isModelReady
         (snd (snd (Startup.Application.initialize (FetchOk csvText) rng build beh
                      (page, app))))
       = true.
Proof.
  intros csvText rng build beh page app (raw & Hp & Hm & Hn & Hb & Hbuild & Hbeh).
  assert (Hne : raw <> []) by (intros E; subst raw; cbn in Hn; lia).
  set (loader1 := mkDataLoader (Some raw) (processedData (dataLoader app))
                               (featureStats (dataLoader app))
                               (categoricalMappings (dataLoader app))).
  destruct (preprocessData_succeeds rng loader1 raw eq_refl Hm Hn Hb)
    as (d & loader2 & Ep & Hd & Hshape).
  split.
  - unfold Startup.Root.initialize, tryCatch, updateStatus, setPredictBtnDisabled.
    rewrite startup_bind_onPage, startup_bind_inApp, onLoader_eq.
    rewrite (loadCSV_ok _ _ _ _ Hp Hne). cbn [fst snd]. fold loader1.
    rewrite startup_bind_inApp, onLoader_eq. cbn [dataLoader]. rewrite Ep.
    cbn [fst snd].
    rewrite startup_bind_onPage, startup_bind_inApp.
    match goal with
    | |- context [Startup.Root.buildModel build ?n ?a] =>
        destruct (buildModel_ok build n a Hbuild) as (Hb1 & _);
        pose proof (root_buildModel_spec build n a) as Hspec;
        destruct (Startup.Root.buildModel build n a) as [[[]|e] app3];
        [|discriminate Hb1]
    end.
    cbv zeta in Hspec. cbn [fst snd] in Hspec.
    destruct Hspec as (_ & _ & _ & _ & Bm). specialize (Bm eq_refl).
    rewrite startup_bind_onPage, startup_bind_inApp.
    pose proof (root_trainModel_ok beh d app3 Hbeh Bm) as Hok.
    destruct (App.Root.trainModel beh d app3) as [[[]|e] app4]; [|discriminate Hok].
    reflexivity.
  - unfold Startup.Application.initialize, tryCatch, updateStatus,
      setPredictBtnDisabled.
    unfold Startup.Application.updateStepStatus at 1 2 3 4.
    rewrite !startup_bind_onPage.
    match goal with
    | |- context [bindM (Startup.Application.failing "load" ?c) ?k ?s] =>
        assert (E1 : exists p1 a1, c s = (Ok tt, (p1, a1))
                                   /\ dataLoader a1 = loader1
                                   /\ model a1 = model app)
    end.
    { rewrite startup_bind_inApp, onLoader_eq.
      rewrite (loadCSV_ok _ _ _ _ Hp Hne). cbn [fst snd]. fold loader1.
      rewrite startup_bind_inApp. unfold Startup.Application.rawDataLength.
      rewrite bindM_read. cbn [dataLoader loader1 rawData ret].
      unfold Startup.Application.updateStepStatus, onPage. cbn [fst snd].
      eexists. eexists. split; [reflexivity|]. split; reflexivity. }
    destruct E1 as (p1 & a1 & E1 & L1 & M1).
    rewrite (bindM_ok _ _ _ _ _ _ _ _ (failing_ok _ _ _ _ _ _ E1)).
    rewrite !startup_bind_onPage.
    match goal with
    | |- context [bindM (Startup.Application.failing "preprocess" ?c) ?k ?s] =>
        assert (E2 : exists p2 a2, c s = (Ok d, (p2, a2))
                                   /\ model a2 = model a1)
    end.
    { rewrite startup_bind_inApp, onLoader_eq. rewrite L1, Ep. cbn [fst snd].
      unfold Startup.Application.updateStepStatus.
      rewrite startup_bind_onPage. unfold ret.
      eexists. eexists. split; [reflexivity|]. reflexivity. }
    destruct E2 as (p2 & a2 & E2 & M2).
    rewrite (bindM_ok _ _ _ _ _ _ _ _ (failing_ok _ _ _ _ _ _ E2)).
    unfold Startup.Application.updateStepStatus at 1 3.
    rewrite !startup_bind_onPage.
    match goal with
    | |- context [bindM (Startup.Application.failing "build" ?c) ?k ?s] =>
        assert (E3 : exists p3 a3, c s = (Ok tt, (p3, a3)) /\ model a3 = true)
    end.
    { rewrite startup_bind_inApp.
      destruct (buildModel_ok build (inputShape d) a2 Hbuild) as (_ & Hb2).
      specialize (Hb2 Hshape).
      pose proof (application_buildModel_spec build (inputShape d) a2) as Hspec.
      destruct (Startup.Application.buildModel build (inputShape d) a2)
        as [[[]|e] a3]; [|discriminate Hb2].
      cbv zeta in Hspec. cbn [fst snd] in Hspec.
      destruct Hspec as (_ & _ & _ & _ & Bm & _). destruct (Bm eq_refl) as (Bm' & _).
      rewrite startup_bind_inApp. unfold Startup.Application.countParams, bindM.
      rewrite Hbuild. cbn [optThrow ret].
      unfold Startup.Application.updateStepStatus, onPage. cbn [fst snd].
      eexists. eexists. split; [reflexivity|]. exact Bm'. }
    destruct E3 as (p3 & a3 & E3 & M3).
    rewrite (bindM_ok _ _ _ _ _ _ _ _ (failing_ok _ _ _ _ _ _ E3)).
    unfold Startup.Application.updateStepStatus at 1.
    rewrite !startup_bind_onPage.
    match goal with
    | |- context [bindM (Startup.Application.failing "train" ?c) ?k ?s] =>
        assert (E4 : exists p4 a4, c s = (Ok tt, (p4, a4)))
    end.
    { rewrite startup_bind_inApp.
      pose proof (application_trainModel_ok beh d a3 Hbeh Hd M3) as Hok.
      destruct (App.Application.trainModel beh d a3) as [[[]|e] a4];
        [|discriminate Hok].
      unfold Startup.Application.updateStepStatus, onPage. cbn [fst snd].
      eexists. eexists. reflexivity. }
    destruct E4 as (p4 & a4 & E4).
    rewrite (bindM_ok _ _ _ _ _ _ _ _ (failing_ok _ _ _ _ _ _ E4)).
    reflexivity.
Qed.

End StartupSucceeds.

Section Steps.
Import JsValue DataLoader Host App Startup.

Lemma beforeSeparator_label : forall label details,
  noDash label = true ->
  Startup.Application.beforeSeparator " - " (label ++ " - " ++ details) = label.
Proof.
  induction label as [|c label IH]; intros details H.
  - destruct details; reflexivity.
  - cbn [noDash] in H. apply andb_true_iff in H. destruct H as (Hc & Hl).
    change ((String c label ++ " - " ++ details)%string)
      with (String c (label ++ " - " ++ details)%string).
    cbn [Startup.Application.beforeSeparator].
    assert (E : String.prefix " - " (String c (label ++ " - " ++ details)) = false).
    { cbn [String.prefix]. destruct (ascii_dec " " c) as [_|_]; [|reflexivity].
      destruct label as [|c' label].
      - reflexivity.
      - cbn [noDash] in Hl. apply andb_true_iff in Hl. destruct Hl as (Hc' & _).
        cbn [append String.prefix].
        destruct (ascii_dec "-" c') as [<-|_]; [discriminate Hc'|reflexivity]. }
    rewrite E. f_equal. now apply IH.
Qed.

Lemma updateStepStatus_known : forall stepName status details page app step,
  dictGet (Page.buildingSteps page) stepName = Some step ->
  details <> "" ->
  exists page',
    Startup.Application.updateStepStatus stepName status details (page, app)
    = (Ok tt, (page', app))
    /\ exists step',
         dictGet (Page.buildingSteps page') stepName = Some step'
         /\ Page.iconClass step' = ("status-icon " ++ status)%string
         /\ Page.text step'
            = (Startup.Application.beforeSeparator " - " (Page.text step)
               ++ " - " ++ details)%string.
Proof.
  intros stepName status details page app step Hs Hd.
  unfold Startup.Application.updateStepStatus, onPage. cbn [fst snd]. rewrite Hs.
  apply String.eqb_neq in Hd. rewrite Hd.
  eexists. split; [reflexivity|]. cbn [Page.buildingSteps].
  rewrite dictGet_dictSet_same. eexists. split; [reflexivity|]. split; reflexivity.
Qed.

Lemma beforeSeparator_noDash : forall label,
  noDash label = true ->
  Startup.Application.beforeSeparator " - " label = label.
Proof.
  induction label as [|c label IH]; intros Hl; [reflexivity|].
  cbn [noDash] in Hl. apply andb_true_iff in Hl. destruct Hl as (Hc & Hl).
  cbn [Startup.Application.beforeSeparator].
  assert (E : String.prefix " - " (String c label) = false).
  { cbn [String.prefix]. destruct (ascii_dec " " c) as [_|_]; [|reflexivity].
    destruct label as [|c' label]; [reflexivity|].
    cbn [noDash] in Hl. apply andb_true_iff in Hl. destruct Hl as (Hc' & _).
    cbn [String.prefix].
    destruct (ascii_dec "-" c') as [<-|_]; [discriminate Hc'|reflexivity]. }
  rewrite E. f_equal. now apply IH.
Qed.

(** X28: [updateStepStatus] replaces the details of a step: after two updates
    with details, the text of a step whose label has no [-] is the label
    and the last details, and the class of the icon is that of the last
    status. *)
Theorem updateStepStatus_replaces_the_details :
  forall (stepName status1 details1 status2 details2 : string)
         (page : Page.t) (app : App.t) (step : Page.Step),
    dictGet (Page.buildingSteps page) stepName = Some step ->
    noDash (Page.text step) = true ->
    details1 <> "" ->
    details2 <> "" ->
    exists page' step',
      bindM (Startup.Application.updateStepStatus stepName status1 details1)
        (fun _ => Startup.Application.updateStepStatus stepName status2 details2)
        (page, app)
      = (Ok tt, (page', app))
      /\ dictGet (Page.buildingSteps page') stepName = Some step'
      /\ Page.iconClass step' = ("status-icon " ++ status2)%string
      /\ Page.text step' = (Page.text step ++ " - " ++ details2)%string.
Proof.
  intros stepName status1 details1 status2 details2 page app step Hs Hl H1 H2.
  destruct (updateStepStatus_known stepName status1 details1 page app step Hs H1)
    as (page1 & E1 & step1 & Hs1 & _ & T1).
  destruct (updateStepStatus_known stepName status2 details2 page1 app step1 Hs1 H2)
    as (page2 & E2 & step2 & Hs2 & C2 & T2).
  exists page2, step2. rewrite (bindM_ok _ _ _ _ _ _ _ _ E1).
  split; [exact E2|]. split; [exact Hs2|]. split; [exact C2|].
  rewrite T2, T1, (beforeSeparator_noDash _ Hl).
  now rewrite beforeSeparator_label.
Qed.

End Steps.

(** * The further properties on the sample inputs *)

Section FurtherSamples.

Import JsValue DataLoader Host App Startup.


Lemma preprocessData_failure_on_one_row_witness :
  fst (preprocessData sampleRng (loaderOf oneRowRaw)) = Throw insufficientData
  /\ processedData (snd (preprocessData sampleRng (loaderOf oneRowRaw))) = None
  /\ exists raw,
       rawData (loaderOf oneRowRaw) = Some raw
       /\ featureStats (snd (preprocessData sampleRng (loaderOf oneRowRaw)))
          = Some (fitStatistics (filter keepRow raw))
       /\ categoricalMappings (snd (preprocessData sampleRng (loaderOf oneRowRaw)))
          = Some (fittedVocabulary (filter keepRow raw)).
Proof.
  assert (H : fst (preprocessData sampleRng (loaderOf oneRowRaw))
              = Throw insufficientData) by (vm_compute; reflexivity).
  split; [exact H|].
  destruct (preprocessData_failure_keeps_the_loader_or_leaves_it_fitted
              sampleRng (loaderOf oneRowRaw) insufficientData H)
    as (_ & Hp & _ & Hfit).
  split; [exact Hp|exact (Hfit eq_refl)].
Defined.

Lemma processed_vectors_have_the_input_shape_witness :
  exists d this' ports drivetrains,
    preprocessData sampleRng (loaderOf sixRowRaw) = (Ok d, this')
    /\ categoricalMappings this'
       = Some [("fast_charge_port", ports); ("drivetrain", drivetrains)]
    /\ inputShape d = 9 + List.length ports + List.length drivetrains.
Proof.
  assert (E : preprocessData sampleRng (loaderOf sixRowRaw) = sampleRun)
    by (vm_compute; reflexivity).
  unfold sampleRun in E.
  destruct (processed_vectors_have_the_input_shape _ _ _ _ E)
    as (ports & drivetrains & Hm & _ & _ & Hs & _).
  eexists. eexists. exists ports, drivetrains.
  split; [exact E|]. split; [exact Hm|exact Hs].
Defined.

Lemma transformUserInput_after_preprocessData_witness :
  exists d this' v,
    preprocessData sampleRng (loaderOf sixRowRaw) = (Ok d, this')
    /\ transformUserInput this' unseenRow = Ok v
    /\ List.length v = inputShape d.
Proof.
  assert (E : preprocessData sampleRng (loaderOf sixRowRaw) = sampleRun)
    by (vm_compute; reflexivity).
  unfold sampleRun in E.
  destruct (transformUserInput_after_preprocessData_has_the_input_shape
              _ _ _ _ unseenRow E) as (v & Hv & Hl).
  eexists. eexists. exists v. split; [exact E|]. split; [exact Hv|exact Hl].
Defined.

Lemma seen_text_category_witness :
  categoricalMappings sampleFitted = Some sampleMappings
  /\ In (hd [] (filter keepRow sixRowRaw)) (filter keepRow sixRowRaw)
  /\ get (hd [] (filter keepRow sixRowRaw)) "fast_charge_port" = JStr "CCS"
  /\ get unseenRow "fast_charge_port" = JStr "CCS"
  /\ exists before after,
       uniqueValues (filter keepRow sixRowRaw) "fast_charge_port"
       = before ++ JStr "CCS" :: after
       /\ oneHot sampleFitted unseenRow "fast_charge_port"
          = Ok (repeat zero (List.length before) ++ one
                :: repeat zero (List.length after)).
Proof.
  assert (Hm : categoricalMappings sampleFitted = Some sampleMappings) by reflexivity.
  assert (Hd : dictGet sampleMappings "fast_charge_port"
               = Some (uniqueValues (filter keepRow sixRowRaw) "fast_charge_port"))
    by (vm_compute; reflexivity).
  assert (Hin : In (hd [] (filter keepRow sixRowRaw)) (filter keepRow sixRowRaw))
    by (vm_compute; tauto).
  assert (Hs : get (hd [] (filter keepRow sixRowRaw)) "fast_charge_port" = JStr "CCS")
    by (vm_compute; reflexivity).
  assert (Hr : get unseenRow "fast_charge_port" = JStr "CCS") by reflexivity.
  split; [exact Hm|]. split; [exact Hin|]. split; [exact Hs|]. split; [exact Hr|].
  exact (seen_text_category_is_encoded_by_a_single_one
           sampleFitted sampleMappings (filter keepRow sixRowRaw)
           (hd [] (filter keepRow sixRowRaw)) unseenRow "fast_charge_port" "CCS"
           Hm Hd Hin Hs Hr).
Defined.

Lemma parsed_rows_are_kept_on_their_numeric_cells_alone_witness :
  parseCSV sixRowCsv = Ok sixRowRaw
  /\ missingColumns (hd [] sixRowRaw) = []
  /\ In (hd [] sixRowRaw) sixRowRaw
  /\ keepRow (hd [] sixRowRaw)
     = forallb (fun f => negb (isNaN (get (hd [] sixRowRaw) f))) numericalFeatures.
Proof.
  assert (Hparse : parseCSV sixRowCsv = Ok sixRowRaw) by (vm_compute; reflexivity).
  assert (Hm : missingColumns (hd [] sixRowRaw) = []) by (vm_compute; reflexivity).
  assert (Hin : In (hd [] sixRowRaw) sixRowRaw) by (unfold sixRowRaw; simpl; tauto).
  split; [exact Hparse|]. split; [exact Hm|]. split; [exact Hin|].
  exact (parsed_rows_are_kept_on_their_numeric_cells_alone
           sixRowCsv sixRowRaw (hd [] sixRowRaw) Hparse Hm Hin).
Defined.

Lemma shuffleIndices_reads_four_draws_for_five_indices_witness :
  (forall k, k < 5 - 1 -> sampleRng k = (if Nat.ltb k 4 then sampleRng k else 0))
  /\ shuffleIndices sampleRng 5
     = shuffleIndices (fun k => if Nat.ltb k 4 then sampleRng k else 0) 5.
Proof.
  assert (H : forall k, k < 5 - 1
                -> sampleRng k = (if Nat.ltb k 4 then sampleRng k else 0)).
  { intros k Hk. destruct (Nat.ltb_spec k 4); [reflexivity|lia]. }
  split; [exact H|].
  exact (shuffleIndices_reads_one_draw_per_index_but_the_first
           sampleRng (fun k => if Nat.ltb k 4 then sampleRng k else 0) 5 H).
Defined.

Lemma shuffleIndices_first_draw_witness :
  0 < 5 /\ nth (5 - 1) (shuffleIndices sampleRng 5) 0 = Nat.modulo (sampleRng 0) 5.
Proof.
  split; [lia|].
  apply (shuffleIndices_first_draw_chooses_the_last_index sampleRng 5). lia.
Defined.

Lemma shuffleIndices_reaches_a_rotation_witness :
  Permutation [2; 0; 1] (seq 0 3)
  /\ exists rng, shuffleIndices rng 3 = [2; 0; 1].
Proof.
  assert (H : Permutation [2; 0; 1] (seq 0 3))
    by (apply (Permutation_cons_append [0; 1] 2)).
  split; [exact H|].
  exact (shuffleIndices_reaches_every_permutation 3 [2; 0; 1] H).
Defined.

Lemma predict_releases_its_tensors_witness :
  handlesGiven startedApp
  /\ live (snd (predict behaviourOk startedApp)) = live startedApp.
Proof.
  assert (H : handlesGiven startedApp) by (intros i []).
  split; [exact H|].
  destruct (predict_releases_its_tensors_unless_reading_fails behaviourOk startedApp H)
    as (_ & Hl & _).
  exact (Hl eq_refl).
Defined.

Lemma predict_shows_a_range_or_alerts_witness :
  isModelReady readyApp = true
  /\ isTraining readyApp = false
  /\ ((exists events,
          log (snd (predict behaviourOk readyApp))
          = log readyApp ++ events
            ++ [UiRange (JsNumber.Math_round (predicted behaviourOk)); ConsoleLog])
      \/ (exists events m,
            log (snd (predict behaviourOk readyApp))
            = log readyApp ++ events
              ++ [ConsoleError m; Alert ("Prediction failed: " ++ m)])).
Proof.
  split; [reflexivity|]. split; [reflexivity|].
  exact (predict_shows_a_range_or_alerts behaviourOk readyApp eq_refl eq_refl).
Defined.

Lemma root_trainModel_leaves_four_tensors_witness :
  model builtApp = true
  /\ handlesGiven builtApp
  /\ match App.Root.trainModel behaviourFitThrows sampleSplit builtApp with
     | (Ok _, s') => live s' = live builtApp
     | (Throw _, s') =>
         exists k, k <= 6
           /\ live s' = live builtApp ++ seq (nextTensor builtApp) k
           /\ (k = 0 <-> tensor2dThrows behaviourFitThrows 0 <> None)
     end.
Proof.
  assert (H : handlesGiven builtApp) by (intros i []).
  split; [reflexivity|]. split; [exact H|].
  exact (root_trainModel_releases_its_tensors_on_success_only
           behaviourFitThrows sampleSplit builtApp eq_refl H).
Defined.

Lemma application_trainModel_wraps_the_error_of_fit_witness :
  model builtApp = true
  /\ fst (App.Application.trainModel behaviourFitThrows sampleSplit builtApp)
     = Throw (Error "Training failed: fit failed")
  /\ exists m, Error "Training failed: fit failed" = Error ("Training failed: " ++ m).
Proof.
  assert (H : fst (App.Application.trainModel behaviourFitThrows sampleSplit builtApp)
              = Throw (Error "Training failed: fit failed"))
    by (vm_compute; reflexivity).
  split; [reflexivity|]. split; [exact H|].
  exact (application_trainModel_wraps_every_error
           behaviourFitThrows sampleSplit builtApp _ eq_refl H).
Defined.

Lemma application_trainModel_releases_its_tensors_witness :
  model builtApp = true
  /\ handlesGiven builtApp
  /\ live (snd (App.Application.trainModel behaviourFitThrows sampleSplit builtApp))
     = live builtApp.
Proof.
  assert (H : handlesGiven builtApp) by (intros i []).
  split; [reflexivity|]. split; [exact H|].
  destruct (application_trainModel_releases_its_tensors_unless_reading_fails
              behaviourFitThrows sampleSplit builtApp eq_refl H) as (_ & Hl & _).
  exact (Hl eq_refl eq_refl).
Defined.

Lemma behaviourOk_trainsWell : trainsWell behaviourOk.
Proof.
  repeat split; try reflexivity.
  intros epoch. exists sampleLogs. repeat split.
Defined.

Lemma training_succeeds_witness :
  trainsWell behaviourOk
  /\ model builtApp = true
  /\ handlesGiven builtApp
  /\ wellShaped sampleSplit
  /\ fst (App.Root.trainModel behaviourOk sampleSplit builtApp) = Ok tt
  /\ List.length
       (History.loss (trainingHistory
          (snd (App.Root.trainModel behaviourOk sampleSplit builtApp)))) = 200
  /\ fst (App.Application.trainModel behaviourOk sampleSplit builtApp) = Ok tt
  /\ List.length
       (History.loss (trainingHistory
          (snd (App.Application.trainModel behaviourOk sampleSplit builtApp))))
     = 100.
Proof.
  assert (H : handlesGiven builtApp) by (intros i []).
  assert (Hd : wellShaped sampleSplit) by (repeat split; discriminate).
  split; [exact behaviourOk_trainsWell|]. split; [reflexivity|].
  split; [exact H|]. split; [exact Hd|].
  destruct (training_succeeds_when_the_library_does_not_throw
              behaviourOk sampleSplit builtApp behaviourOk_trainsWell eq_refl H)
    as ((Hr & _ & Hn) & Ha).
  destruct (Ha Hd) as (Ha1 & _ & Hn').
  split; [exact Hr|]. split; [exact Hn|]. split; [exact Ha1|exact Hn'].
Defined.

Lemma application_trainModel_rejects_an_empty_training_set_witness :
  model builtApp = true
  /\ List.length (features (train emptySplit)) = 0
  /\ fst (App.Application.trainModel behaviourOk emptySplit builtApp)
     = Throw (Error "Training failed: Invalid training  empty features or targets")
  /\ nextTensor (snd (App.Application.trainModel behaviourOk emptySplit builtApp))
     = nextTensor builtApp.
Proof.
  split; [reflexivity|]. split; [reflexivity|].
  destruct (application_trainModel_rejects_an_empty_set_before_any_tensor
              behaviourOk emptySplit builtApp eq_refl (or_introl eq_refl))
    as [E|(N & _)].
  - rewrite E. split; reflexivity.
  - exfalso. apply N. reflexivity.
Defined.

Lemma root_initialize_without_a_file_witness :
  isModelReady newApp = false
  /\ fst (Startup.Root.initialize (FetchRejected "offline") sampleRng sampleBuild
            behaviourOk (samplePage, newApp)) = Ok tt.
Proof.
  split; [reflexivity|].
  exact (proj1 (root_initialize_sets_ready_only_after_a_complete_start
                  (FetchRejected "offline") sampleRng sampleBuild behaviourOk
                  samplePage newApp eq_refl)).
Defined.

Lemma initialize_makes_the_predictor_ready_witness :
  startsWell twoRowCsv sampleBuild behaviourOk
  /\ isModelReady
       (snd (snd (Startup.Root.initialize (FetchOk twoRowCsv) sampleRng sampleBuild
                    behaviourOk (samplePage, newApp)))) = true
  /\ isModelReady
       (snd (snd (Startup.Application.initialize (FetchOk twoRowCsv) sampleRng
                    sampleBuild behaviourOk (samplePage, newApp)))) = true.
Proof.
  assert (H : startsWell twoRowCsv sampleBuild behaviourOk).
  { exists twoRowRaw.
    split; [vm_compute; reflexivity|]. split; [vm_compute; reflexivity|].
    split; [vm_compute; lia|]. split; [vm_compute; reflexivity|].
    split; [reflexivity|exact behaviourOk_trainsWell]. }
  split; [exact H|].
  exact (initialize_makes_the_predictor_ready
           twoRowCsv sampleRng sampleBuild behaviourOk samplePage newApp H).
Defined.

Lemma updateStepStatus_replaces_the_details_witness :
  dictGet (Page.buildingSteps samplePage) "load"
  = Some (Page.mkStep "status-icon pending" "" "Load data")
  /\ noDash "Load data" = true
  /\ exists page' step',
       bindM (Startup.Application.updateStepStatus "load" "active" "reading")
         (fun _ => Startup.Application.updateStepStatus "load" "complete"
                     "6 samples loaded")
         (samplePage, newApp)
       = (Ok tt, (page', newApp))
       /\ dictGet (Page.buildingSteps page') "load" = Some step'
       /\ Page.iconClass step' = "status-icon complete"
       /\ Page.text step' = "Load data - 6 samples loaded".
Proof.
  split; [reflexivity|]. split; [reflexivity|].
  apply (updateStepStatus_replaces_the_details
           "load" "active" "reading" "complete" "6 samples loaded"
           samplePage newApp (Page.mkStep "status-icon pending" "" "Load data")).
  - reflexivity.
  - reflexivity.
  - discriminate.
  - discriminate.
Defined.

End FurtherSamples.
